(** * UX-Audit: a shallow embedding of the issue-detection and scoring engine

    The development follows the TypeScript sources of the plugin:
    - [Utils]          src/utils.ts            (luminance, contrast ratio)
    - [Accessibility]  UXAudit/src/accessibility.ts
    - [Heuristics]     UXAudit/src/heuristics.ts
    - [FrameAudit]     frame audit module      (analyzeFrame and the two scorers)
    - [Lighthouse]     UXAudit/src/lighthouse.ts
    - [WebsiteAudit]   website audit module    (analyzeWebsite)
    - [SettingsStore]  settings module         (loadSettings)
    - [Code]           UXAudit/src/code.ts     (auditFrame, findbackground,
                                                auditWebsite, settings loading)
    - [Contrast]       contrast utilities module (checkWCAGCompliance)
    - [Report]         export module           (exportReport and its formats)
    - [Api]            api/audit.ts            (the request handler)
    - [Persistence]    settings module and code.ts (saving settings)

    Conventions.  A JavaScript number is a rational [Q] when it is a
    measurement (font size, colour channel, category score in 0..1) and an
    integer [Z] when the code only ever produces integers (the 0..100 scores);
    arithmetic is exact, the rounding of binary floating point is not modelled.
    Built-ins whose result is fixed by the engine and not by this program
    ([Math.pow], number formatting, the text of a [TypeError], [JSON.parse],
    [encodeURIComponent]) are fields of the class [JsRuntime]; the network and
    the key-value store of the host are fields of [Host].  The local array
    [issues] that every check pushes to, together with [try]/[catch], is the
    monad [Eff]: a state of issues that survives a throw.  Output to the
    console is not modelled; of the UI, the alerts of an export and the
    messages of saving settings are.  [Spec] and [Notions] hold the notions
    in which the properties are stated, [Samples] and [MoreSamples] the
    concrete inputs on which they are evaluated. *)

From stdpp Require Import gmap strings.
From Stdlib Require Import ZArith QArith Qround String Ascii List Lia Bool.
From Stdlib Require Import DecimalString Lqa Qfield Permutation.
Import ListNotations.

Local Open Scope string_scope.
Local Open Scope Q_scope.

(* ===================================================================== *)
(** * JavaScript values and built-ins *)
(* ===================================================================== *)

Module JS.

(** [a < b] and [a >= b] on numbers. *)
Definition Qltb (a b : Q) : bool := negb (Qle_bool b a).
Definition Qgeb (a b : Q) : bool := Qle_bool b a.

(** [Math.round]: the nearest integer, a tie going up. *)
Definition Math_round (q : Q) : Z := Qfloor (q + (1 # 2)).

(** [Math.max] and [Math.min] on two numbers. *)
Definition Math_max (a b : Q) : Q := if Qle_bool a b then b else a.
Definition Math_min (a b : Q) : Q := if Qle_bool a b then a else b.

(** A whole number in a template literal. *)
Definition Z_toString (z : Z) : string := NilZero.string_of_int (Z.to_int z).

(** A property value of a parsed JSON object, as far as Settings needs it. *)
Inductive JsValue : Type :=
  | JBool (b : bool)
  | JStr (s : string)
  | JNum (q : Q)
  | JNull
  | JOther.

(** An object seen through its own enumerable string-keyed properties. *)
Abbreviation JsObject := (gmap string JsValue).

(** A number-valued property that Figma may report as [figma.mixed]. *)
Inductive NumOrMixed : Type :=
  | Num (q : Q)
  | Mixed.

(** What evaluating a piece of code completes with. *)
Inductive Completion (A : Type) : Type :=
  | Normal (a : A)
  | Thrown (message : string).
Arguments Normal {A} a.
Arguments Thrown {A} message.

Class JsRuntime : Type := {
  Math_pow : Q -> Q -> Q;
  Number_toFixed : Q -> nat -> string;
  Number_toString : Q -> string;
  (** message of the TypeError of ['p' in v] when [v] is not an object *)
  TypeError_in : string -> string;
  (** message of the TypeError of [v.p] when [v] is null *)
  TypeError_read : string -> string;
  (** message of the TypeError of [for (.. of v.p)] when [v.p] is not iterable *)
  TypeError_not_iterable : string -> string;
  (** the result of [encodeURIComponent] on a well-formed string *)
  encodeURIComponent : string -> string;
  (** [Some m]: the string is ill-formed (it holds a lone surrogate) and
      [encodeURIComponent] throws a URIError with the message [m] *)
  URIError_of : string -> option string;
  (** [None]: JSON.parse throws a SyntaxError *)
  JSON_parse : string -> option JsObject
}.

(** A call [encodeURIComponent(s)] on a string that need not be well formed. *)
Definition encodeURIComponent_call `{JsRuntime} (s : string) : Completion string :=
  match URIError_of s with
  | Some message => Thrown message
  | None => Normal (encodeURIComponent s)
  end.

(** [Array.prototype.find] and [some] with a callback that may throw. *)
Fixpoint Array_find {A : Type} (p : A -> Completion bool) (l : list A)
  : Completion (option A) :=
  match l with
  | [] => Normal None
  | a :: rest =>
      match p a with
      | Thrown m => Thrown m
      | Normal true => Normal (Some a)
      | Normal false => Array_find p rest
      end
  end.

Fixpoint Array_some {A : Type} (p : A -> Completion bool) (l : list A)
  : Completion bool :=
  match l with
  | [] => Normal false
  | a :: rest =>
      match p a with
      | Thrown m => Thrown m
      | Normal true => Normal true
      | Normal false => Array_some p rest
      end
  end.

(** ASCII view of [String.prototype.toLowerCase]. *)
Definition lower_ascii (c : ascii) : ascii :=
  let n := nat_of_ascii c in
  if (65 <=? n)%nat && (n <=? 90)%nat then ascii_of_nat (n + 32) else c.

Fixpoint toLowerCase (s : string) : string :=
  match s with
  | EmptyString => EmptyString
  | String c rest => String (lower_ascii c) (toLowerCase rest)
  end.

(** [s.includes(sub)]. *)
Fixpoint includes (s sub : string) : bool :=
  String.prefix sub s ||
  match s with
  | EmptyString => false
  | String _ rest => includes rest sub
  end.

(** [s.startsWith(p)]. *)
Definition startsWith (s p : string) : bool := String.prefix p s.

(** [list.includes(x)] on an array of strings. *)
Definition Array_includes (l : list string) (x : string) : bool :=
  existsb (String.eqb x) l.

(** [Array.from(new Set(l))]: first occurrences, in insertion order. *)
Fixpoint unique_from {A : Type} (eqb : A -> A -> bool) (seen l : list A) : list A :=
  match l with
  | [] => []
  | a :: rest =>
      if existsb (eqb a) seen then unique_from eqb seen rest
      else a :: unique_from eqb (a :: seen) rest
  end.

Definition Set_of_strings (l : list string) : list string :=
  unique_from String.eqb [] l.

(** The double quote character inside a string literal. *)
Definition dq : string := String (ascii_of_nat 34) EmptyString.

(** [l.join(sep)]. *)
Fixpoint join (sep : string) (l : list string) : string :=
  match l with
  | [] => EmptyString
  | [a] => a
  | a :: rest => a ++ sep ++ join sep rest
  end.

End JS.
Import JS.

(* ===================================================================== *)
(** * types.ts and the view of a Figma node *)
(* ===================================================================== *)

Inductive IssueType : Type :=
  | Ty_accessibility
  | Ty_seo
  | Ty_performance
  | Ty_heuristic.

Inductive Severity : Type :=
  | Sev_error
  | Sev_warning
  | Sev_info.

Record Issue : Type := {
  type : IssueType;
  severity : Severity;
  title : string;
  description : string;
  remediation : option string;
  element : option string
}.

Inductive ExportFormat : Type :=
  | markdown
  | pdf
  | html.

Record Settings : Type := {
  accessibilityChecks : bool;
  heuristicChecks : bool;
  seoChecks : bool;
  performanceChecks : bool;
  exportFormat : ExportFormat;
  includeScreenshots : bool;
  includeRemediation : bool;
  lighthouseApiKey : string;
  useAI : bool
}.

Record AuditResult : Type := {
  accessibility : Z;
  heuristics : option Z;
  seo : option Z;
  performance : option Z;
  overall : Z;
  issues : list Issue
}.

Record Color : Type := { r : Q; g : Q; b : Q }.

(** One entry of a [fills] array.  [PaintNull] is a malformed entry (null):
    reading any property of it throws. *)
Inductive Paint : Type :=
  | SOLID (color : Color) (visible : option bool)
  | PaintOther (kind : string)
  | PaintNull.

(** The [fills] property: absent, the [figma.mixed] symbol, or an array. *)
Inductive Fills : Type :=
  | FillsAbsent
  | FillsMixed
  | FillsArray (l : list Paint).

Inductive NodeType : Type :=
  | DOCUMENT
  | PAGE
  | FRAME
  | GROUP
  | COMPONENT
  | INSTANCE
  | RECTANGLE
  | TEXT
  | OtherNode (kind : string).

Record FontName : Type := { family : string; style : string }.

(** The properties of a node that the checks read.  The text properties are
    meaningful for TEXT nodes only. *)
Record NodeProps : Type := {
  node_type : NodeType;
  name : string;
  x : option Q;
  width : option Q;
  height : option Q;
  fills : Fills;
  characters : string;
  fontSize : NumOrMixed;
  fontWeight : NumOrMixed;
  fontName : FontName;
  (** number of entries of [reactions], when the node has the property *)
  reactions : option nat
}.

(** The [children] property: absent, an array, or a value that cannot be
    iterated. *)
Inductive Children (A : Type) : Type :=
  | ChildrenAbsent
  | ChildrenArray (l : list A)
  | ChildrenNotIterable.
Arguments ChildrenAbsent {A}.
Arguments ChildrenArray {A} l.
Arguments ChildrenNotIterable {A}.

(** A node of the document tree; [NullNode] is a null entry of a malformed
    [children] array. *)
#[warnings="-register-all"]
Inductive Node : Type :=
  | NullNode
  | Obj (props : NodeProps) (children : Children Node).

Definition NodeType_eqb (a b : NodeType) : bool :=
  match a, b with
  | DOCUMENT, DOCUMENT | PAGE, PAGE | FRAME, FRAME | GROUP, GROUP
  | COMPONENT, COMPONENT | INSTANCE, INSTANCE | RECTANGLE, RECTANGLE
  | TEXT, TEXT => true
  | OtherNode k1, OtherNode k2 => String.eqb k1 k2
  | _, _ => false
  end.

(* ===================================================================== *)
(** * The effect of a check: pushing issues, throwing, catching *)
(* ===================================================================== *)

Definition Eff (A : Type) : Type := list Issue -> Completion A * list Issue.

Definition ret {A : Type} (a : A) : Eff A := fun s => (Normal a, s).

Definition bind {A B : Type} (c : Eff A) (k : A -> Eff B) : Eff B :=
  fun s =>
    match c s with
    | (Normal a, s') => k a s'
    | (Thrown m, s') => (Thrown m, s')
    end.

Definition throw {A : Type} (m : string) : Eff A := fun s => (Thrown m, s).

(** [issues.push(i)] *)
Definition push (i : Issue) : Eff unit := fun s => (Normal tt, (s ++ [i])%list).

(** [issues.push(...l)] *)
Definition push_all (l : list Issue) : Eff unit := fun s => (Normal tt, (s ++ l)%list).

(** [try { body } catch (error) { handler error.message }] *)
Definition try_catch {A : Type} (body : Eff A) (handler : string -> Eff A) : Eff A :=
  fun s =>
    match body s with
    | (Normal a, s') => (Normal a, s')
    | (Thrown m, s') => handler m s'
    end.

(** A callee with its own completion, called from inside a check. *)
Definition lift {A : Type} (c : Completion A) : Eff A := fun s => (c, s).

(** [if (c) { body }] *)
Definition when (c : bool) (body : Eff unit) : Eff unit :=
  if c then body else ret tt.

Notation "x <- c ;; k" := (bind c (fun x => k))
  (at level 62, c at next level, right associativity).
Notation "c ;;; k" := (bind c (fun _ => k))
  (at level 62, right associativity).

(** A function that declares [const issues = []], runs [body] and returns
    [issues]. *)
Definition returning_issues (body : Eff unit) : Completion (list Issue) :=
  match body [] with
  | (Normal _, s) => Normal s
  | (Thrown m, _) => Thrown m
  end.

(* ===================================================================== *)
(** * utils.ts *)
(* ===================================================================== *)

Module Utils.
Section WithRuntime.
Context `{JsRuntime}.

Definition getRGB (color : Color) : Color :=
  {| r := r color; g := g color; b := b color |}.

(** The inner function [sRGB].  Numbers are exact here, so the channel that
    [relativeLuminance] scales by 255 comes back unchanged; in binary
    floating point the division may change its last bit. *)
Definition sRGB (c : Q) : Q :=
  let c := c / 255 in
  if Qle_bool c 0.03928 then c / 12.92
  else Math_pow ((c + 0.055) / 1.055) 2.4.

Definition relativeLuminance (rgb : Color) : Q :=
  let R := sRGB (r rgb * 255) in
  let G := sRGB (g rgb * 255) in
  let B := sRGB (b rgb * 255) in
  0.2126 * R + 0.7152 * G + 0.0722 * B.

Definition contrastRatio (lum1 lum2 : Q) : Q :=
  let lighter := Math_max lum1 lum2 in
  let darker := Math_min lum1 lum2 in
  (lighter + 0.05) / (darker + 0.05).

End WithRuntime.
End Utils.

(* ===================================================================== *)
(** * accessibility.ts *)
(* ===================================================================== *)

Module Accessibility.
Section WithRuntime.
Context `{JsRuntime}.

Definition convertChannel (channel : Q) : Q :=
  if Qle_bool channel 0.03928 then channel / 12.92
  else Math_pow ((channel + 0.055) / 1.055) 2.4.

Definition calculateLuminance (color : Color) : Q :=
  let srgb_r := convertChannel (r color) in
  let srgb_g := convertChannel (g color) in
  let srgb_b := convertChannel (b color) in
  0.2126 * srgb_r + 0.7152 * srgb_g + 0.0722 * srgb_b.

Definition calculateContrastRatio (color1 color2 : Color) : Q :=
  let l1 := calculateLuminance color1 in
  let l2 := calculateLuminance color2 in
  let lighter := Math_max l1 l2 in
  let darker := Math_min l1 l2 in
  (lighter + 0.05) / (darker + 0.05).

(** The callback of [fills.find]:
    [fill.type === 'SOLID' && fill.visible !== false]. *)
Definition is_visible_solid (fill : Paint) : Completion bool :=
  match fill with
  | SOLID _ visible =>
      Normal (match visible with Some false => false | _ => true end)
  | PaintOther _ => Normal false
  | PaintNull => Thrown (TypeError_read "type")
  end.

(** [getNodeColor]: its own [try]/[catch] turns a throw into [null]. *)
Definition getNodeColor (node : NodeProps) : option Color :=
  match fills node with
  | FillsAbsent | FillsMixed | FillsArray [] => None
  | FillsArray l =>
      match Array_find is_visible_solid l with
      | Normal (Some (SOLID color _)) =>
          Some {| r := r color; g := g color; b := b color |}
      | Normal _ => None
      | Thrown _ => None
      end
  end.

(** ['fills' in n && n.fills && Array.isArray(n.fills)] *)
Definition has_fills_array (n : NodeProps) : bool :=
  match fills n with FillsArray _ => true | _ => false end.

(** The same with [&& n.fills.length > 0]. *)
Definition has_nonempty_fills_array (n : NodeProps) : bool :=
  match fills n with FillsArray (_ :: _) => true | _ => false end.

(** The [while (parent && !bgColor)] loop of [checkTextContrast] over the
    chain [node.parent], [node.parent.parent], ...; [None] is a [bgColor]
    still undefined when the chain ends. *)
Fixpoint walk_parents (parents : list NodeProps) : option Color :=
  match parents with
  | [] => None
  | parent :: rest =>
      let bgColor :=
        if has_nonempty_fills_array parent then getNodeColor parent else None in
      match bgColor with
      | Some c => Some c
      | None => walk_parents rest
      end
  end.

Definition white : Color := {| r := 1; g := 1; b := 1 |}.

(** Lines 74-87: the background under a text node. *)
Definition background (parents : list NodeProps) : Color :=
  match walk_parents parents with
  | Some c => c
  | None => white
  end.

(** Lines 93-99 of [checkTextContrast]. *)
Definition fontSize_or_14 (node : NodeProps) : Q :=
  match fontSize node with Num q => q | Mixed => 14 end.

Definition isBold (node : NodeProps) : bool :=
  match fontWeight node with Num w => Qgeb w 700 | Mixed => false end.

Definition isLargeText (node : NodeProps) : bool :=
  let fontSize := fontSize_or_14 node in
  Qgeb fontSize 18 || (Qgeb fontSize 14 && isBold node).

Definition requiredRatio (node : NodeProps) : Q :=
  if isLargeText node then 3 else 4.5.

Definition low_contrast_issue (contrastRatio requiredRatio : Q) : Issue :=
  {| type := Ty_accessibility;
     severity := Sev_warning;
     title := "Low contrast text";
     description :=
       "Text has " ++ Number_toFixed contrastRatio 1 ++
       ":1 contrast ratio (WCAG AA requires " ++
       Number_toString requiredRatio ++ ":1)";
     remediation :=
       Some ("Increase the contrast between text and background to at least "
             ++ Number_toString requiredRatio ++ ":1.");
     element := None |}.

(** Lines 101-109: the comparison and the push. *)
Definition report_contrast (node : NodeProps) (contrastRatio : Q) : Eff unit :=
  let requiredRatio := requiredRatio node in
  when (Qltb contrastRatio requiredRatio)
       (push (low_contrast_issue contrastRatio requiredRatio)).

Definition checkTextContrast (node : NodeProps) (parents : list NodeProps)
  : Eff unit :=
  if negb (NodeType_eqb (node_type node) TEXT) then ret tt
  else
    try_catch
      (match getNodeColor node with
       | None => ret tt
       | Some textColor =>
           let bgColor := background parents in
           let contrastRatio := calculateContrastRatio textColor bgColor in
           report_contrast node contrastRatio
       end)
      (fun _ => ret tt).

Definition small_text_issue (fontSize : Q) : Issue :=
  {| type := Ty_accessibility;
     severity := Sev_warning;
     title := "Small text size";
     description :=
       "Text size is " ++ Number_toString fontSize ++
       "px (recommended minimum is 12px)";
     remediation :=
       Some "Increase text size to at least 12px for better readability.";
     element := None |}.

Definition checkTextSize (node : NodeProps) : Eff unit :=
  try_catch
    (match fontSize node with
     | Num fontSize => when (Qltb fontSize 12) (push (small_text_issue fontSize))
     | Mixed => ret tt
     end)
    (fun _ => ret tt).

Definition small_target_issue (width height : Q) : Issue :=
  {| type := Ty_accessibility;
     severity := Sev_warning;
     title := "Small touch target";
     description :=
       "Interactive element size is " ++ Z_toString (Math_round width) ++ "x" ++
       Z_toString (Math_round height) ++
       "px (recommended minimum is 44x44px)";
     remediation :=
       Some "Increase the size of interactive elements to at least 44x44px for better touch accessibility.";
     element := None |}.

Definition checkTouchTargetSize (node : NodeProps) : Eff unit :=
  try_catch
    (match width node, height node with
     | Some width, Some height =>
         when (Qltb width 44 || Qltb height 44)
              (push (small_target_issue width height))
     | _, _ => ret tt
     end)
    (fun _ => ret tt).

Definition analysis_error_issue (message : string) : Issue :=
  {| type := Ty_accessibility;
     severity := Sev_error;
     title := "Accessibility analysis error";
     description := "Error analyzing accessibility: " ++ message;
     remediation := None;
     element := None |}.

(** ['reactions' in node && node.reactions && node.reactions.length > 0] *)
Definition has_reactions (node : NodeProps) : bool :=
  match reactions node with
  | Some n => (0 <? n)%nat
  | None => false
  end.

(** Lines 21-34 of [analyzeAccessibility]: the checks of the node itself. *)
Definition node_checks (props : NodeProps) (parents : list NodeProps) : Eff unit :=
  when (has_fills_array props) (checkTextContrast props parents) ;;;
  when (NodeType_eqb (node_type props) TEXT) (checkTextSize props) ;;;
  when (has_reactions props) (checkTouchTargetSize props).

(** [analyzeAccessibility]; [parents] is the chain of [node.parent]. *)
Fixpoint analyzeAccessibility (settings : Settings) (parents : list NodeProps)
  (node : Node) {struct node} : Completion (list Issue) :=
  if negb (accessibilityChecks settings) then Normal []
  else
    returning_issues
      (try_catch
         (match node with
          | NullNode => throw (TypeError_in "fills")
          | Obj props children =>
              node_checks props parents ;;;
              match children with
              | ChildrenAbsent => ret tt
              | ChildrenNotIterable => throw (TypeError_not_iterable "children")
              | ChildrenArray l =>
                  (fix each (l : list Node) : Eff unit :=
                     match l with
                     | [] => ret tt
                     | child :: rest =>
                         childIssues <-
                           lift (analyzeAccessibility settings (props :: parents) child) ;;
                         push_all childIssues ;;;
                         each rest
                     end) l
              end
          end)
         (fun message => push (analysis_error_issue message))).

End WithRuntime.
End Accessibility.

(* ===================================================================== *)
(** * heuristics.ts *)
(* ===================================================================== *)

Module Heuristics.
Section WithRuntime.
Context `{JsRuntime}.

(** Reading the properties of an array entry; a null entry throws. *)
Definition props_of (prop : string) (n : Node) : Completion NodeProps :=
  match n with
  | NullNode => Thrown (TypeError_read prop)
  | Obj p _ => Normal p
  end.

Fixpoint all_props (prop : string) (l : list Node) : Completion (list NodeProps) :=
  match l with
  | [] => Normal []
  | n :: rest =>
      match props_of prop n with
      | Thrown m => Thrown m
      | Normal p =>
          match all_props prop rest with
          | Thrown m => Thrown m
          | Normal ps => Normal (p :: ps)
          end
      end
  end.

(** [n.name.toLowerCase().includes(s)] for one of the strings [subs]. *)
Definition name_includes_any (subs : list string) (p : NodeProps) : bool :=
  existsb (includes (toLowerCase (name p))) subs.

Definition child_name_includes_any (subs : list string) (child : Node)
  : Completion bool :=
  match props_of "name" child with
  | Thrown m => Thrown m
  | Normal p => Normal (name_includes_any subs p)
  end.

Definition is_container (t : NodeType) : bool :=
  match t with
  | FRAME | GROUP | COMPONENT | INSTANCE => true
  | _ => false
  end.

(** The comparator of [sort]: [0] unless both have [x], else [a.x - b.x]. *)
Definition compare_x (a b : NodeProps) : Q :=
  match x a, x b with
  | Some xa, Some xb => xa - xb
  | _, _ => 0
  end.

(** [Array.prototype.sort] is stable; it is modelled by insertion. *)
Fixpoint insert_sorted (cmp : NodeProps -> NodeProps -> Q) (a : NodeProps)
  (l : list NodeProps) : list NodeProps :=
  match l with
  | [] => [a]
  | y :: rest =>
      if Qle_bool (cmp y a) 0 then y :: insert_sorted cmp a rest
      else a :: y :: rest
  end.

Definition sort (cmp : NodeProps -> NodeProps -> Q) (l : list NodeProps)
  : list NodeProps :=
  fold_left (fun acc a => insert_sorted cmp a acc) l [].

(** The [for] loop of [checkConsistency]: the rounded positive gaps, in the
    order in which they are added to the set. *)
Fixpoint gaps (prevNode : NodeProps) (l : list NodeProps) : list Z :=
  match l with
  | [] => []
  | currNode :: rest =>
      match x currNode, x prevNode, width prevNode with
      | Some cx, Some px, Some pw =>
          let spacing := cx - (px + pw) in
          if Qltb 0 spacing then Math_round spacing :: gaps currNode rest
          else gaps currNode rest
      | _, _, _ => gaps currNode rest
      end
  end.

Definition spacings_of (sortedByX : list NodeProps) : list Z :=
  match sortedByX with
  | [] => []
  | first :: rest => unique_from Z.eqb [] (gaps first rest)
  end.

Definition heuristic_issue (sev : Severity) (title description : string)
  (element remediation : string) : Issue :=
  {| type := Ty_heuristic;
     severity := sev;
     title := title;
     description := description;
     remediation := Some remediation;
     element := Some element |}.

Definition checkConsistency (node : Node) : Eff unit :=
  try_catch
    (match node with
     | NullNode => throw (TypeError_in "children")
     | Obj props (ChildrenArray l) =>
         when ((2 <? List.length l)%nat && is_container (node_type props))
           (children <- lift (all_props "x" l) ;;
            let sortedByX := sort compare_x children in
            let spacings := spacings_of sortedByX in
            when (2 <? List.length spacings)%nat
              (push (heuristic_issue Sev_info "Inconsistent spacing"
                 ("Multiple different spacing values detected between elements ("
                  ++ join ", " (map Z_toString spacings) ++ "px)")
                 (name props)
                 "Use consistent spacing between elements to improve visual harmony and predictability.")))
     | Obj _ _ => ret tt
     end)
    (fun _ => ret tt).

(** [node.children?.some(callback)] when ['children' in node] holds. *)
Definition children_some (callback : Node -> Completion bool)
  (children : Children Node) : Completion bool :=
  match children with
  | ChildrenArray l => Array_some callback l
  | ChildrenNotIterable => Thrown (TypeError_read "some")
  | ChildrenAbsent => Normal false
  end.

Definition has_children_property (children : Children Node) : bool :=
  match children with ChildrenAbsent => false | _ => true end.

Definition checkVisibilityOfSystemStatus (node : Node) : Eff unit :=
  try_catch
    (match node with
     | NullNode => throw (TypeError_read "name")
     | Obj props children =>
         when (name_includes_any ["form"] props && has_children_property children)
           (hasInputs <-
              lift (children_some
                      (child_name_includes_any ["input"; "field"; "text"]) children) ;;
            hasFeedback <-
              lift (children_some
                      (child_name_includes_any
                         ["status"; "feedback"; "error"; "success"]) children) ;;
            when (hasInputs && negb hasFeedback)
              (push (heuristic_issue Sev_info "Missing feedback mechanism"
                 "Form appears to lack visual feedback elements for user actions"
                 (name props)
                 "Add visual feedback elements to indicate form status, validation results, or submission progress.")))
     end)
    (fun _ => ret tt).

(** The fourth literal of the close-button test, byte for byte. *)
Definition times_literal : string :=
  String (ascii_of_nat 195) (String (ascii_of_nat 131)
    (String (ascii_of_nat 226) (String (ascii_of_nat 128)
      (String (ascii_of_nat 148) EmptyString)))).

Definition checkUserControlAndFreedom (node : Node) : Eff unit :=
  try_catch
    (match node with
     | NullNode => throw (TypeError_read "name")
     | Obj props children =>
         when (name_includes_any ["modal"; "dialog"; "popup"] props
               && has_children_property children)
           (hasCloseButton <-
              lift (children_some
                      (child_name_includes_any
                         ["close"; "cancel"; "dismiss"; times_literal; "x"])
                      children) ;;
            when (negb hasCloseButton)
              (push (heuristic_issue Sev_warning "Missing close option"
                 "Modal/dialog appears to lack a visible close or cancel option"
                 (name props)
                 "Add a clearly visible close button to allow users to exit the modal/dialog easily.")))
     end)
    (fun _ => ret tt).

(** [node.parent.children.some(child => child !== node && callback child)];
    [siblings] are the other children of [node.parent], when it has children. *)
Definition siblings_some (callback : Node -> Completion bool)
  (siblings : option (list Node)) : Completion bool :=
  match siblings with
  | Some l => Array_some callback l
  | None => Normal false
  end.

Definition checkErrorPrevention (siblings : option (list Node)) (node : Node)
  : Eff unit :=
  try_catch
    (match node with
     | NullNode => throw (TypeError_read "name")
     | Obj props _ =>
         when ((name_includes_any ["delete"; "remove"; "destroy"] props
                && NodeType_eqb (node_type props) INSTANCE)
               || NodeType_eqb (node_type props) COMPONENT)
           (hasConfirmation <-
              lift (siblings_some
                      (child_name_includes_any
                         ["confirm"; "verification"; "are you sure"]) siblings) ;;
            when (negb hasConfirmation)
              (push (heuristic_issue Sev_warning
                 "Destructive action without confirmation"
                 "Delete/remove action appears to lack confirmation step"
                 (name props)
                 "Add a confirmation step before executing destructive actions to prevent accidental data loss.")))
     end)
    (fun _ => ret tt).

Definition is_text_or_label (child : Node) : Completion bool :=
  match props_of "type" child with
  | Thrown m => Thrown m
  | Normal p =>
      Normal (NodeType_eqb (node_type p) TEXT || name_includes_any ["label"] p)
  end.

Definition checkRecognitionOverRecall (siblings : option (list Node))
  (node : Node) : Eff unit :=
  try_catch
    (match node with
     | NullNode => throw (TypeError_read "name")
     | Obj props _ =>
         when ((name_includes_any ["input"; "field"; "textbox"] props
                && NodeType_eqb (node_type props) INSTANCE)
               || NodeType_eqb (node_type props) COMPONENT
               || NodeType_eqb (node_type props) RECTANGLE)
           (hasLabel <- lift (siblings_some is_text_or_label siblings) ;;
            when (negb hasLabel)
              (push (heuristic_issue Sev_warning "Missing input label"
                 "Input field appears to lack a visible label"
                 (name props)
                 "Add clear, visible labels to all input fields to help users understand what information is required.")))
     end)
    (fun _ => ret tt).

Definition is_text (p : NodeProps) : bool := NodeType_eqb (node_type p) TEXT.

Definition checkAestheticAndMinimalistDesign (node : Node) : Eff unit :=
  try_catch
    (match node with
     | NullNode => throw (TypeError_read "type")
     | Obj props children =>
         when (is_container (node_type props))
           match children with
           | ChildrenAbsent => ret tt
           | ChildrenNotIterable => throw (TypeError_read "filter")
           | ChildrenArray l =>
               children <- lift (all_props "type" l) ;;
               let textNodes := filter is_text children in
               let totalCharacters :=
                 fold_left (fun total textNode =>
                              (total + String.length (characters textNode))%nat)
                           textNodes 0%nat in
               when ((5 <? List.length textNodes)%nat && (500 <? totalCharacters)%nat)
                 (push (heuristic_issue Sev_info "Text-heavy interface"
                    ("Interface contains " ++
                     Z_toString (Z.of_nat (List.length textNodes)) ++
                     " text elements with approximately " ++
                     Z_toString (Z.of_nat totalCharacters) ++ " characters")
                    (name props)
                    "Consider simplifying the interface by reducing text content or breaking it into multiple screens/sections."))
           end
     end)
    (fun _ => ret tt).

Definition analysis_error_issue (message : string) : Issue :=
  {| type := Ty_heuristic;
     severity := Sev_error;
     title := "Heuristic analysis error";
     description := "Error analyzing heuristics: " ++ message;
     remediation := None;
     element := None |}.

(** Lines 21-37 of [analyzeHeuristics]: the checks of the node itself. *)
Definition node_checks (siblings : option (list Node)) (node : Node) : Eff unit :=
  checkConsistency node ;;;
  checkVisibilityOfSystemStatus node ;;;
  checkUserControlAndFreedom node ;;;
  checkErrorPrevention siblings node ;;;
  checkRecognitionOverRecall siblings node ;;;
  checkAestheticAndMinimalistDesign node.

(** [analyzeHeuristics]; [siblings] are the other children of [node.parent]. *)
Fixpoint analyzeHeuristics (settings : Settings) (siblings : option (list Node))
  (node : Node) {struct node} : Completion (list Issue) :=
  if negb (heuristicChecks settings) then Normal []
  else
    returning_issues
      (try_catch
         (node_checks siblings node ;;;
          match node with
          | NullNode => throw (TypeError_in "children")
          | Obj _ ChildrenAbsent => ret tt
          | Obj _ ChildrenNotIterable => throw (TypeError_not_iterable "children")
          | Obj _ (ChildrenArray l) =>
              (fix each (before l : list Node) : Eff unit :=
                 match l with
                 | [] => ret tt
                 | child :: rest =>
                     childIssues <-
                       lift (analyzeHeuristics settings
                               (Some (before ++ rest)%list) child) ;;
                     push_all childIssues ;;;
                     each (before ++ [child])%list rest
                 end) [] l
          end)
         (fun message => push (analysis_error_issue message))).

End WithRuntime.
End Heuristics.

(* ===================================================================== *)
(** * Frame audit module: analyzeFrame and the two scorers *)
(* ===================================================================== *)

(** Sequencing of calls that may throw, outside of a check. *)
Definition and_then {A B : Type} (c : Completion A) (k : A -> Completion B)
  : Completion B :=
  match c with
  | Normal a => k a
  | Thrown m => Thrown m
  end.

(** [try { body } catch (error) { throw new Error(prefix + error.message) }] *)
Definition rethrow {A : Type} (prefix : string) (body : Completion A)
  : Completion A :=
  match body with
  | Normal a => Normal a
  | Thrown m => Thrown (prefix ++ m)
  end.

Definition option_to_list {A : Type} (o : option A) : list A :=
  match o with Some a => [a] | None => [] end.

Module FrameAudit.

(** The callback of [issues.forEach] in [calculateAccessibilityScore]. *)
Definition deduct_accessibility (score : Z) (issue : Issue) : Z :=
  match type issue with
  | Ty_accessibility =>
      match severity issue with
      | Sev_error => score - 15
      | Sev_warning => score - 8
      | Sev_info => score - 3
      end
  | _ => score
  end%Z.

Definition calculateAccessibilityScore (issues : list Issue) : Z :=
  let score := fold_left deduct_accessibility issues 100%Z in
  Z.max 0 (Z.min 100 score).

(** The callback of [issues.forEach] in [calculateHeuristicsScore]. *)
Definition deduct_heuristic (score : Z) (issue : Issue) : Z :=
  match type issue with
  | Ty_heuristic =>
      match severity issue with
      | Sev_error => score - 12
      | Sev_warning => score - 7
      | Sev_info => score - 3
      end
  | _ => score
  end%Z.

Definition calculateHeuristicsScore (issues : list Issue) : Z :=
  let score := fold_left deduct_heuristic issues 100%Z in
  Z.max 0 (Z.min 100 score).

Section WithRuntime.
Context `{JsRuntime}.

(** [analyzeFrame]; [parents] and [siblings] describe where [node] sits. *)
Definition analyzeFrame (parents : list NodeProps) (siblings : option (list Node))
  (node : Node) (settings : Settings) : Completion AuditResult :=
  rethrow "Failed to analyze frame: "
    (and_then (Accessibility.analyzeAccessibility settings parents node)
       (fun accessibilityIssues =>
     and_then (Heuristics.analyzeHeuristics settings siblings node)
       (fun heuristicIssues =>
     let allIssues := (accessibilityIssues ++ heuristicIssues)%list in
     let accessibilityScore := calculateAccessibilityScore accessibilityIssues in
     let heuristicsScore := calculateHeuristicsScore heuristicIssues in
     let overallScore := accessibilityScore in
     let divisor := 1%Z in
     let '(overallScore, divisor) :=
       if heuristicChecks settings
       then ((overallScore + heuristicsScore)%Z, (divisor + 1)%Z)
       else (overallScore, divisor) in
     let overallScore := Math_round (inject_Z overallScore / inject_Z divisor) in
     Normal {| accessibility := accessibilityScore;
               heuristics :=
                 if heuristicChecks settings then Some heuristicsScore else None;
               seo := None;
               performance := None;
               overall := overallScore;
               issues := allIssues |}))).

End WithRuntime.
End FrameAudit.

(* ===================================================================== *)
(** * lighthouse.ts *)
(* ===================================================================== *)

Module Lighthouse.

Record Audit : Type := {
  (** [None] is [null] *)
  score : option Q;
  audit_title : string;
  audit_description : string
}.

Record Category : Type := { category_score : option Q }.

(** [LighthouseResult] of types.ts; a category may be missing from the
    response.  [audits] lists the entries in the order of [Object.entries]. *)
Record LighthouseResult : Type := {
  categories_accessibility : option Category;
  categories_seo : option Category;
  categories_performance : option Category;
  categories_best_practices : option Category;
  audits : list (string * Audit)
}.

(** The scores that code.ts reads under [data.lighthouseResult.categories]. *)
Record PageSpeedScores : Type := {
  pagespeed_accessibility : option Q;
  pagespeed_seo : option Q;
  pagespeed_performance : option Q
}.

(** What [response.json()] resolves to, as far as the two callers read it. *)
Record Payload : Type := {
  (** [data.error], with its [message] when it has one *)
  payload_error : option (option string);
  (** [data.categories] and [data.audits], when the payload has that shape *)
  payload_result : option LighthouseResult;
  (** [data.lighthouseResult.categories], when the payload has that shape *)
  payload_pagespeed : option PageSpeedScores
}.

Inductive FetchResult : Type :=
  | FetchRejected (message : string)
  | Response (ok : bool) (status : Z) (statusText : string)
             (json : Completion Payload).

Inductive StorageResult : Type :=
  | StorageRejected (message : string)
  | Stored (value : option string).

(** The host: the network and [figma.clientStorage]. *)
Class Host : Type := {
  fetch : string -> FetchResult;
  clientStorage_getAsync : string -> StorageResult
}.

Definition PAGESPEED_API_BASE : string :=
  "https://www.googleapis.com/pagespeedonline/v5/runPagespeed".

(** [(category && category.score) || 0] *)
Definition score_or_0 (category : option Category) : Q :=
  match category with
  | Some c =>
      match category_score c with
      | Some s => if Qeq_bool s 0 then 0 else s
      | None => 0
      end
  | None => 0
  end.

Definition remediationMap : list (string * string) :=
  [ ("color-contrast", "Increase the contrast ratio between text and background to at least 4.5:1 for normal text or 3:1 for large text.");
    ("document-title", "Add a descriptive title to the page using the <title> element.");
    ("html-has-lang", "Add a lang attribute to the HTML element to specify the language of the page.");
    ("meta-viewport", "Add a <meta name=" ++ dq ++ "viewport" ++ dq ++ "> tag with appropriate content to ensure proper rendering on mobile devices.");
    ("image-alt", "Add alt text to all images to describe their content for screen reader users.");
    ("link-name", "Ensure all links have descriptive text that explains their purpose.");
    ("button-name", "Ensure all buttons have accessible names that describe their action.");
    ("aria-allowed-attr", "Remove invalid ARIA attributes from elements.");
    ("aria-required-attr", "Add required ARIA attributes to elements that use ARIA roles.");
    ("aria-roles", "Use only valid ARIA roles.");
    ("aria-valid-attr-value", "Ensure ARIA attributes have valid values.");
    ("aria-valid-attr", "Ensure ARIA attributes are valid.");
    ("duplicate-id", "Ensure all IDs in the document are unique.");
    ("heading-order", "Structure headings in a logical order (h1, then h2, etc.) without skipping levels.");
    ("html-lang-valid", "Use a valid language code in the lang attribute.");
    ("form-field-multiple-labels", "Ensure form fields have only one associated label.");
    ("frame-title", "Add title attributes to all frames and iframes.");
    ("input-image-alt", "Add alt text to all image inputs.");
    ("label", "Associate labels with form controls using the for attribute or nesting.");
    ("layout-table", "Use CSS for layout instead of tables.");
    ("link-text", "Avoid generic link text like " ++ dq ++ "click here" ++ dq ++ " or " ++ dq ++ "read more" ++ dq ++ ".");
    ("list", "Use proper list markup (ul, ol, li) for lists.");
    ("listitem", "Ensure list items are contained within proper list elements.");
    ("meta-refresh", "Avoid using meta refresh to redirect or refresh pages.");
    ("object-alt", "Provide alternative text for object elements.");
    ("tabindex", "Avoid using tabindex values greater than 0.");
    ("td-headers-attr", "Use headers attribute on table cells to associate with the appropriate headers.");
    ("th-has-data-cells", "Ensure table headers have associated data cells.");
    ("valid-lang", "Use valid language codes in lang attributes.");
    ("video-caption", "Provide captions for video elements.");
    ("video-description", "Provide audio descriptions for video content.");
    ("meta-description", "Add a meta description tag to improve SEO.");
    ("http-status-code", "Ensure the page returns a valid HTTP status code (200).");
    ("font-size", "Ensure text is at least 16px or 12pt for readability.");
    ("tap-targets", "Make touch targets at least 44x44 pixels for better mobile usability.");
    ("viewport", "Configure the viewport for responsive design.") ].

Fixpoint lookup_string (key : string) (table : list (string * string))
  : option string :=
  match table with
  | [] => None
  | (k, v) :: rest => if String.eqb key k then Some v else lookup_string key rest
  end.

(** [remediationMap[id] || default], for the ids of audits: an id that names
    a member of every object ([constructor], [toString], ...) is outside
    this table and outside this definition. *)
Definition generateRemediation (id : string) : string :=
  match lookup_string id remediationMap with
  | Some advice => advice
  | None => "Review the issue and make appropriate changes to improve accessibility, performance, or SEO."
  end.

(** Lines 89-95: the type of the issue of an audit id. *)
Definition issue_type_of (id : string) : IssueType :=
  if startsWith id "seo-" then Ty_seo
  else if startsWith id "performance-" || startsWith id "speed-"
          || startsWith id "load-" then Ty_performance
  else Ty_accessibility.

(** Lines 98-100: the corresponding check is disabled. *)
Definition check_disabled (settings : Settings) (t : IssueType) : bool :=
  match t with
  | Ty_accessibility => negb (accessibilityChecks settings)
  | Ty_seo => negb (seoChecks settings)
  | Ty_performance => negb (performanceChecks settings)
  | Ty_heuristic => false
  end.

(** Lines 105-113. *)
Definition severity_of (score : option Q) : Severity :=
  match score with
  | Some s => if Qltb s 0.5 then Sev_error
              else if Qltb s 0.9 then Sev_warning
              else Sev_info
  | None => Sev_info
  end.

(** The callback of [Object.entries(data.audits).forEach]: the issue it
    pushes, if any. *)
Definition audit_issue (settings : Settings) (entry : string * Audit)
  : option Issue :=
  let '(id, audit) := entry in
  if match score audit with Some s => Qeq_bool s 1 | None => true end
  then None
  else
    let type := issue_type_of id in
    if check_disabled settings type then None
    else
      Some {| type := type;
              severity := severity_of (score audit);
              title := audit_title audit;
              description := audit_description audit;
              remediation :=
                if includeRemediation settings
                then Some (generateRemediation id) else None;
              element := None |}.

Definition processLighthouseResults (data : LighthouseResult)
  (settings : Settings) : AuditResult :=
  let accessibilityScore :=
    Math_round (score_or_0 (categories_accessibility data) * 100) in
  let seoScore :=
    if seoChecks settings
    then Math_round (score_or_0 (categories_seo data) * 100) else 0%Z in
  let performanceScore :=
    if performanceChecks settings
    then Math_round (score_or_0 (categories_performance data) * 100) else 0%Z in
  let overallScore := accessibilityScore in
  let divisor := 1%Z in
  let '(overallScore, divisor) :=
    if seoChecks settings
    then ((overallScore + seoScore)%Z, (divisor + 1)%Z)
    else (overallScore, divisor) in
  let '(overallScore, divisor) :=
    if performanceChecks settings
    then ((overallScore + performanceScore)%Z, (divisor + 1)%Z)
    else (overallScore, divisor) in
  let overallScore := Math_round (inject_Z overallScore / inject_Z divisor) in
  let issues := flat_map (fun entry => option_to_list (audit_issue settings entry))
                         (audits data) in
  {| accessibility := accessibilityScore;
     heuristics := None;
     seo := if seoChecks settings then Some seoScore else None;
     performance := if performanceChecks settings then Some performanceScore else None;
     overall := overallScore;
     issues := issues |}.

Section WithHost.
Context `{JsRuntime} `{Host}.

Definition runLighthouseAudit (url : string) (settings : Settings)
  : Completion AuditResult :=
  rethrow "Failed to run Lighthouse audit: "
    (and_then (encodeURIComponent_call url) (fun encoded =>
     let apiUrl := PAGESPEED_API_BASE ++ "?url=" ++ encoded ++ "&strategy=mobile" in
     let categories :=
       ((if accessibilityChecks settings then ["accessibility"] else []) ++
        (if seoChecks settings then ["seo"] else []) ++
        (if performanceChecks settings then ["performance"] else []) ++
        ["best-practices"])%list in
     let apiUrl := apiUrl ++ "&category=" ++ join "&category=" categories in
     let apiUrl :=
       if String.eqb (lighthouseApiKey settings) EmptyString then apiUrl
       else apiUrl ++ "&key=" ++ lighthouseApiKey settings in
     match fetch apiUrl with
     | FetchRejected message => Thrown message
     | Response ok status statusText json =>
         if negb ok
         then Thrown ("Lighthouse API error: " ++ Z_toString status ++ " " ++ statusText)
         else
           and_then json (fun data =>
           match payload_result data with
           | None => Thrown (TypeError_read "accessibility")
           | Some result => Normal (processLighthouseResults result settings)
           end)
     end)).

Definition fallback_issues : list Issue :=
  [ {| type := Ty_accessibility;
       severity := Sev_warning;
       title := "Low contrast elements detected";
       description := "Some text elements may have insufficient contrast with their background.";
       remediation := Some "Ensure all text has a contrast ratio of at least 4.5:1 with its background.";
       element := None |};
    {| type := Ty_accessibility;
       severity := Sev_error;
       title := "Missing image alt text";
       description := "Some images on the page lack alternative text descriptions.";
       remediation := Some "Add descriptive alt text to all images that convey information.";
       element := None |};
    {| type := Ty_seo;
       severity := Sev_warning;
       title := "Missing meta description";
       description := "The page lacks a meta description tag for search engines.";
       remediation := Some "Add a concise, descriptive meta description tag to improve SEO.";
       element := None |};
    {| type := Ty_performance;
       severity := Sev_warning;
       title := "Large image files";
       description := "Some images are not optimized for web delivery.";
       remediation := Some "Compress images and consider using WebP format for better performance.";
       element := None |} ].

(** The callback of [filter] in [runFallbackAudit]. *)
Definition fallback_keeps (settings : Settings) (issue : Issue) : bool :=
  if match type issue with Ty_accessibility => negb (accessibilityChecks settings)
                         | _ => false end then false
  else if match type issue with Ty_seo => negb (seoChecks settings)
                              | _ => false end then false
  else if match type issue with Ty_performance => negb (performanceChecks settings)
                              | _ => false end then false
  else true.

Definition runFallbackAudit (url : string) (settings : Settings)
  : Completion AuditResult :=
  rethrow "Failed to run fallback audit: "
    (Normal {| accessibility := 75;
               heuristics := None;
               seo := if seoChecks settings then Some 80%Z else None;
               performance := if performanceChecks settings then Some 65%Z else None;
               overall := 73;
               issues := filter (fallback_keeps settings) fallback_issues |}).

End WithHost.
End Lighthouse.

(* ===================================================================== *)
(** * Website audit module: analyzeWebsite *)
(* ===================================================================== *)

Module WebsiteAudit.
Section WithHost.
Context `{JsRuntime} `{Lighthouse.Host}.

Definition analyzeWebsite (url : string) (settings : Settings)
  : Completion AuditResult :=
  rethrow "Failed to analyze website: "
    (match Lighthouse.runLighthouseAudit url settings with
     | Normal result => Normal result
     | Thrown _ => Lighthouse.runFallbackAudit url settings
     end).

End WithHost.
End WebsiteAudit.

(* ===================================================================== *)
(** * Settings module: loadSettings *)
(* ===================================================================== *)

Module SettingsStore.
Section WithHost.
Context `{JsRuntime} `{Lighthouse.Host}.

Definition defaultSettings : JsObject :=
  {[ "accessibilityChecks" := JBool true;
     "heuristicChecks" := JBool true;
     "seoChecks" := JBool true;
     "performanceChecks" := JBool true;
     "exportFormat" := JStr "markdown";
     "includeScreenshots" := JBool true;
     "includeRemediation" := JBool true;
     "lighthouseApiKey" := JStr EmptyString;
     "useAI" := JBool false ]}.

(** [loadSettings]: the parsed snapshot, or [None] for [null]. *)
Definition loadSettings : option JsObject :=
  match Lighthouse.clientStorage_getAsync "uxaudit-settings" with
  | Lighthouse.StorageRejected _ => None
  | Lighthouse.Stored None => None
  | Lighthouse.Stored (Some settingsJson) =>
      if String.eqb settingsJson EmptyString then None
      else
        match JSON_parse settingsJson with
        | Some parsed => Some parsed
        | None => None
        end
  end.

End WithHost.
End SettingsStore.

(* ===================================================================== *)
(** * code.ts *)
(* ===================================================================== *)

Module Code.

Definition defaultSettings : JsObject :=
  {[ "accessibilityChecks" := JBool true;
     "heuristicChecks" := JBool true;
     "seoChecks" := JBool true;
     "performanceChecks" := JBool true;
     "exportFormat" := JStr "markdown";
     "includeScreenshots" := JBool false;
     "includeRemediation" := JBool true;
     "lighthouseApiKey" := JStr EmptyString;
     "useAI" := JBool false ]}.

(** [Object.assign(target, ...sources)]: a later source wins. *)
Definition Object_assign (target : JsObject) (sources : list JsObject) : JsObject :=
  fold_left (fun acc source => source ∪ acc) sources target.

(** A node found by [findAll], with the chain of its parents. *)
Definition Located : Type := NodeProps * list NodeProps.

(** A node and everything below it, in document order. *)
Fixpoint subtree (parents : list NodeProps) (node : Node) {struct node}
  : list Located :=
  match node with
  | NullNode => []
  | Obj props children =>
      (props, parents) ::
      match children with
      | ChildrenArray l =>
          (fix each (l : list Node) : list Located :=
             match l with
             | [] => []
             | child :: rest => (subtree (props :: parents) child ++ each rest)%list
             end) l
      | _ => []
      end
  end.

(** [frame.findAll(callback)] of the host: the matching descendants. *)
Definition findAll (callback : NodeProps -> bool) (parents : list NodeProps)
  (frame : Node) : list Located :=
  match frame with
  | Obj props (ChildrenArray l) =>
      filter (fun n => callback (fst n)) (flat_map (subtree (props :: parents)) l)
  | _ => []
  end.

Definition white_paint : Paint := SOLID {| r := 1; g := 1; b := 1 |} None.

Section WithRuntime.
Context `{JsRuntime}.

(** [findbackground]; [parent] is [node.parent]. *)
Definition findbackground (parent : option NodeProps) : Completion Paint :=
  match parent with
  | Some p =>
      match fills p with
      | FillsArray (backgroundFill :: _) =>
          match backgroundFill with
          | SOLID _ _ => Normal backgroundFill
          | PaintOther _ => Normal white_paint
          | PaintNull => Thrown (TypeError_read "type")
          end
      | _ => Normal white_paint
      end
  | None => Normal white_paint
  end.

Definition contrast_entry (node : NodeProps) (contrast : Q) : string :=
  dq ++ characters node ++ dq ++ " (contrast: " ++ Number_toFixed contrast 2 ++ ":1)".

(** Lines 112-136 of [auditFrame]: the body of the loop over [textNodes];
    [Some e] is a push of [e] to [contrastIssues]. *)
Definition contrast_check (located : Located) : Completion (option string) :=
  let '(node, parents) := located in
  match fills node with
  | FillsArray (first :: _) =>
      match first with
      | PaintNull => Thrown (TypeError_read "type")
      | PaintOther _ => Normal None
      | SOLID textColor _ =>
          let textLuminance := Utils.relativeLuminance (Utils.getRGB textColor) in
          and_then (findbackground (hd_error parents)) (fun background =>
            match background with
            | SOLID color _ =>
                let backgroundLuminance :=
                  Utils.relativeLuminance (Utils.getRGB color) in
                let contrast := Utils.contrastRatio textLuminance backgroundLuminance in
                if Qltb contrast 4.5 then Normal (Some (contrast_entry node contrast))
                else Normal None
            | _ => Normal None
            end)
      end
  | _ => Normal None
  end.

Fixpoint contrastIssues (textNodes : list Located) : Completion (list string) :=
  match textNodes with
  | [] => Normal []
  | node :: rest =>
      and_then (contrast_check node) (fun pushed =>
      and_then (contrastIssues rest) (fun later =>
      Normal (option_to_list pushed ++ later)%list))
  end.

Definition is_TEXT (n : NodeProps) : bool := NodeType_eqb (node_type n) TEXT.

(** The [accessibility] field of the result of [auditFrame]. *)
Definition auditFrame_accessibility (parents : list NodeProps) (frame : Node)
  : Completion string :=
  let textNodes := findAll is_TEXT parents frame in
  and_then (contrastIssues textNodes) (fun contrastIssues =>
  let accessibilityResults :=
    if (0 <? List.length contrastIssues)%nat
    then ["Low contrast text found: " ++ join ", " contrastIssues]
    else ["All text has good contrast. Great work!"] in
  Normal (join "<br>" accessibilityResults)).

End WithRuntime.

(** ** The jargon check of [auditFrame] (lines 164-182) *)

Definition jargon : list string :=
  ["syscall"; "backend"; "cache"; "API"; "lambda"; "framework"; "async"].

(** ASCII view of the class [\s]. *)
Definition is_whitespace (c : ascii) : bool :=
  let n := nat_of_ascii c in
  ((9 <=? n)%nat && (n <=? 13)%nat) || (n =? 32)%nat.

(** [s.split(/\s+/)]: [word] is the piece being read, [in_gap] tells that
    the previous character was whitespace. *)
Fixpoint split_from (word : string) (in_gap : bool) (s : string) : list string :=
  match s with
  | EmptyString => [word]
  | String c rest =>
      if is_whitespace c
      then if in_gap then split_from word true rest
           else word :: split_from EmptyString true rest
      else split_from (word ++ String c EmptyString) false rest
  end.

Definition split_whitespace (s : string) : list string :=
  split_from EmptyString false s.

Definition is_letter (c : ascii) : bool :=
  let n := nat_of_ascii c in
  ((65 <=? n)%nat && (n <=? 90)%nat) || ((97 <=? n)%nat && (n <=? 122)%nat).

(** [word.replace(/[^a-zA-Z]/g, '')] *)
Fixpoint letters_only (word : string) : string :=
  match word with
  | EmptyString => EmptyString
  | String c rest =>
      if is_letter c then String c (letters_only rest) else letters_only rest
  end.

(** The words that one text node adds to [foundJargon]. *)
Definition jargon_of_text (characters : string) : list string :=
  let words := split_whitespace (toLowerCase characters) in
  filter (fun word => Array_includes jargon (letters_only word)) words.

Definition foundJargon (textNodes : list Located) : list string :=
  flat_map (fun n => jargon_of_text (characters (fst n))) textNodes.

Definition uniqueJargon (textNodes : list Located) : list string :=
  Set_of_strings (foundJargon textNodes).

(** The entry of heading 2 of [heuristicResults]. *)
Definition auditFrame_jargon (parents : list NodeProps) (frame : Node) : string :=
  let textNodes := findAll is_TEXT parents frame in
  if (0 <? List.length (foundJargon textNodes))%nat
  then "Potential jargon found: " ++ join ", " (uniqueJargon textNodes) ++
       ". Ensure language is familiar to your users."
  else "Language used appears to be plain and simple.".

(** ** Website audit and settings *)

Inductive WebsiteReport : Type :=
  | Detailed (seo accessibility performance note : string)
  | Basic (accessibility seo performance : Z) (details : string).

Section WithHost.
Context `{JsRuntime} `{Lighthouse.Host}.

Definition score_percent (score : option Q) : Z :=
  Math_round (match score with
              | Some s => if Qeq_bool s 0 then 0 else s
              | None => 0
              end * 100).

(** The endpoint is built before the [try]: a URIError of
    [encodeURIComponent] leaves the function without the prefix of its
    [catch]. *)
Definition performDetailedWebsiteAudit (url apiKey : string)
  : Completion WebsiteReport :=
  and_then (encodeURIComponent_call url) (fun encoded =>
  let endpoint :=
    "https://www.googleapis.com/pagespeedonline/v5/runPagespeed?url=" ++
    encoded ++ "&key=" ++ apiKey ++
    "&category=ACCESSIBILITY&category=SEO&category=PERFORMANCE" in
  rethrow "Error fetching audit from Google: "
    (match Lighthouse.fetch endpoint with
     | Lighthouse.FetchRejected message => Thrown message
     | Lighthouse.Response _ _ _ json =>
         and_then json (fun data =>
         match Lighthouse.payload_error data with
         | Some (Some message) =>
             Thrown (if String.eqb message EmptyString then "API Error" else message)
         | Some None => Thrown "API Error"
         | None =>
             match Lighthouse.payload_pagespeed data with
             | None => Thrown (TypeError_read "categories")
             | Some scores =>
                 let accessibilityScore :=
                   score_percent (Lighthouse.pagespeed_accessibility scores) in
                 let seoScore := score_percent (Lighthouse.pagespeed_seo scores) in
                 let performanceScore :=
                   score_percent (Lighthouse.pagespeed_performance scores) in
                 Normal (Detailed
                   ("Score: " ++ Z_toString seoScore ++ "/100")
                   ("Score: " ++ Z_toString accessibilityScore ++ "/100")
                   ("Score: " ++ Z_toString performanceScore ++ "/100")
                   "Detailed analysis using Google PageSpeed Insights")
             end
         end)
     end)).

Definition performBasicWebsiteAudit : Completion WebsiteReport :=
  Normal (Basic 85 90 75
    "Basic audit complete. For more details, add a Google PageSpeed API key in settings.").

Definition auditWebsite (url : string) (settings : Settings)
  : Completion WebsiteReport :=
  rethrow "Failed to audit website: "
    (if negb (String.eqb (lighthouseApiKey settings) EmptyString)
     then performDetailedWebsiteAudit url (lighthouseApiKey settings)
     else performBasicWebsiteAudit).

(** The ['load-settings'] branch of [figma.ui.onmessage]: the new value of
    [currentSettings] and the settings posted to the UI, if any. *)
Definition load_settings (currentSettings : JsObject)
  : JsObject * option JsObject :=
  match Lighthouse.clientStorage_getAsync "ux-audit-settings" with
  | Lighthouse.StorageRejected _ => (currentSettings, None)
  | Lighthouse.Stored None => (currentSettings, None)
  | Lighthouse.Stored (Some storedSettings) =>
      if String.eqb storedSettings EmptyString then (currentSettings, None)
      else
        match JSON_parse storedSettings with
        | None => (currentSettings, None)
        | Some parsed =>
            let currentSettings := Object_assign ∅ [defaultSettings; parsed] in
            (currentSettings, Some currentSettings)
        end
  end.

End WithHost.
End Code.

(* ===================================================================== *)
(** * Notions used to state the properties *)
(* ===================================================================== *)

(** The scoring and mapping policies are written here as the specification
    words them; the remaining notions describe what a check does to the
    array of issues. *)
Module Spec.

(** The fixed per-severity weight of a category. *)
Definition weight (category : IssueType) (s : Severity) : Z :=
  match category, s with
  | Ty_accessibility, Sev_error => 15
  | Ty_accessibility, Sev_warning => 8
  | Ty_accessibility, Sev_info => 3
  | Ty_heuristic, Sev_error => 12
  | Ty_heuristic, Sev_warning => 7
  | Ty_heuristic, Sev_info => 3
  | _, _ => 0
  end%Z.

Definition IssueType_eqb (a b : IssueType) : bool :=
  match a, b with
  | Ty_accessibility, Ty_accessibility | Ty_seo, Ty_seo
  | Ty_performance, Ty_performance | Ty_heuristic, Ty_heuristic => true
  | _, _ => false
  end.

Definition in_category (category : IssueType) (i : Issue) : bool :=
  IssueType_eqb (type i) category.

(** The sum, over the issues of the category, of their weights. *)
Fixpoint deductions (category : IssueType) (issues : list Issue) : Z :=
  match issues with
  | [] => 0
  | i :: rest =>
      ((if in_category category i then weight category (severity i) else 0)
       + deductions category rest)
  end%Z.

Definition clamp (z : Z) : Z := Z.max 0 (Z.min 100 z).

(** [scoreCategory]: start at 100, subtract, clamp once at the end. *)
Definition scoreCategory (issues : list Issue) (category : IssueType) : Z :=
  clamp (100 - deductions category issues).

(** The arithmetic mean of the scores, rounded to the nearest integer. *)
Definition rounded_mean (scores : list Z) : Z :=
  Math_round (inject_Z (fold_right Z.add 0%Z scores)
              / inject_Z (Z.of_nat (List.length scores))).

(** The scores that are present among optional score fields. *)
Definition present (fields : list (option Z)) : list Z :=
  flat_map option_to_list fields.

(** The category of a rule id, by its prefix. *)
Inductive category_of_id (id : string) : IssueType -> Prop :=
  | id_seo :
      String.prefix "seo-" id = true -> category_of_id id Ty_seo
  | id_performance :
      String.prefix "seo-" id = false ->
      String.prefix "performance-" id = true
      \/ String.prefix "speed-" id = true
      \/ String.prefix "load-" id = true ->
      category_of_id id Ty_performance
  | id_accessibility :
      String.prefix "seo-" id = false ->
      String.prefix "performance-" id = false ->
      String.prefix "speed-" id = false ->
      String.prefix "load-" id = false ->
      category_of_id id Ty_accessibility.

(** The severity of a score. *)
Inductive severity_of_score (s : Q) : Severity -> Prop :=
  | score_error : s < 0.5 -> severity_of_score s Sev_error
  | score_warning : 0.5 <= s -> s < 0.9 -> severity_of_score s Sev_warning
  | score_info : 0.9 <= s -> severity_of_score s Sev_info.

(** A node with another font size. *)
Definition with_fontSize (size : NumOrMixed) (node : NodeProps) : NodeProps :=
  {| node_type := node_type node;
     name := name node;
     x := x node;
     width := width node;
     height := height node;
     fills := fills node;
     characters := characters node;
     fontSize := size;
     fontWeight := fontWeight node;
     fontName := fontName node;
     reactions := reactions node |}.

(** The issues of a call that returned, none for one that threw. *)
Definition issues_of (c : Completion (list Issue)) : list Issue :=
  match c with
  | Normal l => l
  | Thrown _ => []
  end.

(** The issues that a check pushes, started on an empty array. *)
Definition pushed {A : Type} (c : Eff A) : list Issue := snd (c []).

(** A check that only ever appends to [issues], and whose completion does
    not depend on what the array already holds. *)
Definition appends {A : Type} (c : Eff A) : Prop :=
  forall s, c s = (fst (c []), (s ++ pushed c)%list).

(** A check that pushes what it pushes and completes normally. *)
Definition quiet (c : Eff unit) : Prop :=
  appends c /\ fst (c []) = Normal tt.

(** Each child of a node, paired with the other children of that node;
    [before] are the children already passed. *)
Fixpoint with_siblings_from (before l : list Node) : list (list Node * Node) :=
  match l with
  | [] => []
  | child :: rest =>
      ((before ++ rest)%list, child) :: with_siblings_from (before ++ [child])%list rest
  end.

Definition with_siblings (l : list Node) : list (list Node * Node) :=
  with_siblings_from [] l.

(** The toggle of a category. *)
Definition enabled (settings : Settings) (category : IssueType) : bool :=
  match category with
  | Ty_accessibility => accessibilityChecks settings
  | Ty_heuristic => heuristicChecks settings
  | Ty_seo => seoChecks settings
  | Ty_performance => performanceChecks settings
  end.

(** The scores of exactly the enabled categories, among those of a result. *)
Definition enabled_scores (settings : Settings) (res : AuditResult) : list Z :=
  present
    [ if accessibilityChecks settings then Some (accessibility res) else None;
      if heuristicChecks settings then heuristics res else None;
      if seoChecks settings then seo res else None;
      if performanceChecks settings then performance res else None ].

(** The request of a website audit that carries no key: the address, the
    strategy, the categories of the enabled checks and best-practices. *)
Definition keyless_request `{JsRuntime} (url : string) (settings : Settings)
  : string :=
  "https://www.googleapis.com/pagespeedonline/v5/runPagespeed"
  ++ "?url=" ++ encodeURIComponent url ++ "&strategy=mobile"
  ++ (if accessibilityChecks settings then "&category=accessibility" else EmptyString)
  ++ (if seoChecks settings then "&category=seo" else EmptyString)
  ++ (if performanceChecks settings then "&category=performance" else EmptyString)
  ++ "&category=best-practices".

End Spec.

(* ===================================================================== *)
(** * Concrete inputs *)
(* ===================================================================== *)

Module Samples.

Definition black : Color := {| r := 0; g := 0; b := 0 |}.
Definition grey : Color := {| r := 0.49833; g := 0.49833; b := 0.49833 |}.

Definition snapshot : string :=
  "{" ++ dq ++ "accessibilityChecks" ++ dq ++ ":false}".

(** Decimal rendering of a non-negative number with [digits] decimals. *)
Fixpoint zeros (n : nat) : string :=
  match n with
  | O => EmptyString
  | S n' => "0" ++ zeros n'
  end.

Definition toFixed (q : Q) (digits : nat) : string :=
  let unit := (10 ^ Z.of_nat digits)%Z in
  let scaled := Math_round (q * inject_Z unit) in
  let decimals := Z_toString (scaled mod unit) in
  Z_toString (scaled / unit) ++ "." ++
  zeros (digits - String.length decimals) ++ decimals.

(** The number of decimals, at most [fuel], that [q] needs. *)
Fixpoint decimals_needed (fuel : nat) (q : Q) : nat :=
  match fuel with
  | O => O
  | S fuel' =>
      if Qeq_bool q (inject_Z (Qfloor q)) then O
      else S (decimals_needed fuel' (q * 10))
  end.

(** Decimal rendering of a non-negative number without trailing zeros. *)
Definition toString (q : Q) : string :=
  match decimals_needed 6 q with
  | O => Z_toString (Qfloor q)
  | digits => toFixed q digits
  end.

(** A surrogate that stands alone, seen through its three bytes: 237, then
    a byte from 160 to 191. *)
Fixpoint has_lone_surrogate (s : string) : bool :=
  match s with
  | EmptyString => false
  | String a rest =>
      match rest with
      | String b _ =>
          (nat_of_ascii a =? 237)%nat
          && (160 <=? nat_of_ascii b)%nat && (nat_of_ascii b <=? 191)%nat
      | EmptyString => false
      end
      || has_lone_surrogate rest
  end.

(** A runtime to evaluate with.  [Math_pow] is exact at the bases 0 and 1
    and returns 0.2125 at (0.49833 + 0.055) / 1.055, where the real power
    2.4 is 0.2124987; [JSON_parse] knows [snapshot]. *)
Definition runtime : JsRuntime :=
  {| Math_pow := fun base _ =>
       if Qeq_bool base (55333 # 105500) then 0.2125 else base;
     Number_toFixed := toFixed;
     Number_toString := toString;
     TypeError_in := fun p =>
       "Cannot use 'in' operator to search for '" ++ p ++ "' in null";
     TypeError_read := fun p =>
       "Cannot read properties of null (reading '" ++ p ++ "')";
     TypeError_not_iterable := fun p => "node." ++ p ++ " is not iterable";
     encodeURIComponent := fun s => s;
     URIError_of := fun s =>
       if has_lone_surrogate s then Some "URI malformed" else None;
     JSON_parse := fun s =>
       if String.eqb s snapshot
       then Some {[ "accessibilityChecks" := JBool false ]}
       else None |}.

Definition all_enabled : Settings :=
  {| accessibilityChecks := true;
     heuristicChecks := true;
     seoChecks := true;
     performanceChecks := true;
     exportFormat := markdown;
     includeScreenshots := false;
     includeRemediation := true;
     lighthouseApiKey := EmptyString;
     useAI := false |}.

Definition accessibility_disabled : Settings :=
  {| accessibilityChecks := false;
     heuristicChecks := true;
     seoChecks := true;
     performanceChecks := true;
     exportFormat := markdown;
     includeScreenshots := false;
     includeRemediation := true;
     lighthouseApiKey := EmptyString;
     useAI := false |}.

Definition node (t : NodeType) (n : string) (f : Fills) : NodeProps :=
  {| node_type := t;
     name := n;
     x := Some 0;
     width := Some 100;
     height := Some 100;
     fills := f;
     characters := EmptyString;
     fontSize := Num 16;
     fontWeight := Num 400;
     fontName := {| family := "Inter"; style := "Regular" |};
     reactions := None |}.

Definition text (chars : string) (size : NumOrMixed) (f : Fills) : NodeProps :=
  {| node_type := TEXT;
     name := "label";
     x := Some 0;
     width := Some 100;
     height := Some 20;
     fills := f;
     characters := chars;
     fontSize := size;
     fontWeight := Num 400;
     fontName := {| family := "Inter"; style := "Regular" |};
     reactions := None |}.

Definition solid (c : Color) : Fills := FillsArray [SOLID c None].

Definition white_frame : NodeProps := node FRAME "card" (solid Accessibility.white).
Definition black_frame : NodeProps := node FRAME "card" (solid black).
Definition bare_group : NodeProps := node GROUP "row" (FillsArray []).
Definition page : NodeProps := node PAGE "Page 1" FillsAbsent.

Definition grey_text (size : Q) : NodeProps :=
  text "Heading" (Num size) (solid grey).

(** A white frame showing one grey text of the given size. *)
Definition grey_on_white (size : Q) : Node :=
  Obj white_frame (ChildrenArray [Obj (grey_text size) ChildrenAbsent]).

Definition sentence : string := "We use a cache and an API here".

(** A frame showing [sentence] in one text node. *)
Definition sentence_frame : Node :=
  Obj white_frame
      (ChildrenArray [Obj (text sentence (Num 16) (solid black)) ChildrenAbsent]).

Definition mixed_text : NodeProps := text "Heading" Mixed (solid black).

(** A grey text of mixed font sizes and the given weight. *)
Definition mixed_grey_text (weight : Q) : NodeProps :=
  {| node_type := TEXT;
     name := "label";
     x := Some 0;
     width := Some 100;
     height := Some 20;
     fills := solid grey;
     characters := "Heading";
     fontSize := Mixed;
     fontWeight := Num weight;
     fontName := {| family := "Inter"; style := "Regular" |};
     reactions := None |}.

(** A text node whose only fill entry is null. *)
Definition broken_text : NodeProps :=
  text "Heading" (Num 16) (FillsArray [PaintNull]).

(** A modal without children: one heuristic warning. *)
Definition modal : Node := Obj (node FRAME "modal" FillsAbsent) (ChildrenArray []).

Definition audited_page : Lighthouse.LighthouseResult :=
  {| Lighthouse.categories_accessibility :=
       Some {| Lighthouse.category_score := Some 0.5 |};
     Lighthouse.categories_seo := Some {| Lighthouse.category_score := Some 0.9 |};
     Lighthouse.categories_performance :=
       Some {| Lighthouse.category_score := Some 0.4 |};
     Lighthouse.categories_best_practices := None;
     Lighthouse.audits :=
       [ ("seo-meta-description",
          {| Lighthouse.score := Some 0.3;
             Lighthouse.audit_title := "Document does not have a meta description";
             Lighthouse.audit_description := "Meta descriptions may be included in search results." |});
         ("color-contrast",
          {| Lighthouse.score := Some 1;
             Lighthouse.audit_title := "Colors have sufficient contrast";
             Lighthouse.audit_description := "Low-contrast text is difficult to read." |}) ] |}.

(** A host whose network answers every request with [audited_page] and whose
    store holds [snapshot] under every key. *)
Definition host : Lighthouse.Host :=
  {| Lighthouse.fetch := fun _ =>
       Lighthouse.Response true 200 "OK"
         (Normal {| Lighthouse.payload_error := None;
                    Lighthouse.payload_result := Some audited_page;
                    Lighthouse.payload_pagespeed := None |});
     Lighthouse.clientStorage_getAsync := fun _ =>
       Lighthouse.Stored (Some snapshot) |}.

End Samples.

(* ===================================================================== *)
(** * Contrast utilities module *)
(* ===================================================================== *)

Module Contrast.

(** The result of [checkWCAGCompliance]. *)
Record Compliance : Type := {
  ratio : Q;
  isLargeText : bool;
  passesAA : bool;
  passesAAA : bool;
  requiredRatio : Q
}.

Section WithRuntime.
Context `{JsRuntime}.

Definition convertToLinear (channel : Q) : Q :=
  if Qle_bool channel 0.03928 then channel / 12.92
  else Math_pow ((channel + 0.055) / 1.055) 2.4.

Definition calculateRelativeLuminance (color : Color) : Q :=
  let r := convertToLinear (r color) in
  let g := convertToLinear (g color) in
  let b := convertToLinear (b color) in
  0.2126 * r + 0.7152 * g + 0.0722 * b.

Definition calculateContrastRatio (color1 color2 : Color) : Q :=
  let l1 := calculateRelativeLuminance color1 in
  let l2 := calculateRelativeLuminance color2 in
  let lighter := Math_max l1 l2 in
  let darker := Math_min l1 l2 in
  (lighter + 0.05) / (darker + 0.05).

Definition checkWCAGCompliance (foreground background : Color) (fontSize : Q)
  (isBold : bool) : Compliance :=
  let ratio := calculateContrastRatio foreground background in
  let isLargeText := Qgeb fontSize 24 || (Qgeb fontSize 18.67 && isBold) in
  let requiredRatioAA := if isLargeText then 3 else 4.5 in
  let requiredRatioAAA := if isLargeText then 4.5 else 7 in
  {| ratio := ratio;
     isLargeText := isLargeText;
     passesAA := Qgeb ratio requiredRatioAA;
     passesAAA := Qgeb ratio requiredRatioAAA;
     requiredRatio := requiredRatioAA |}.

Definition generateContrastIssue (element : string) (compliance : Compliance)
  : option Issue :=
  if negb (passesAA compliance) then
    Some {| type := Ty_accessibility;
            severity := Sev_warning;
            title := "Insufficient color contrast";
            description :=
              element ++ " has a contrast ratio of " ++
              Number_toFixed (ratio compliance) 1 ++ ":1 (WCAG AA requires " ++
              Number_toString (requiredRatio compliance) ++ ":1)";
            remediation :=
              Some ("Increase the contrast between the text and background colors to at least "
                    ++ Number_toString (requiredRatio compliance) ++
                    ":1 to meet WCAG AA standards.");
            element := Some element |}
  else if negb (passesAAA compliance) then
    Some {| type := Ty_accessibility;
            severity := Sev_info;
            title := "Color contrast could be improved";
            description :=
              element ++ " has a contrast ratio of " ++
              Number_toFixed (ratio compliance) 1 ++ ":1 (WCAG AAA requires " ++
              Number_toString (if isLargeText compliance then 4.5 else 7) ++ ":1)";
            remediation :=
              Some ("Consider increasing the contrast between the text and background colors to at least "
                    ++ Number_toString (if isLargeText compliance then 4.5 else 7) ++
                    ":1 to meet WCAG AAA standards.");
            element := Some element |}
  else None.

End WithRuntime.
End Contrast.

(* ===================================================================== *)
(** * Export module *)
(* ===================================================================== *)

Module Report.

Definition nl : string := String (ascii_of_nat 10) EmptyString.

(** A string literal given by its UTF-8 bytes. *)
Definition bytes (l : list nat) : string :=
  string_of_list_ascii (map ascii_of_nat l).

Definition IssueType_toString (t : IssueType) : string :=
  match t with
  | Ty_accessibility => "accessibility"
  | Ty_seo => "seo"
  | Ty_performance => "performance"
  | Ty_heuristic => "heuristic"
  end.

Definition Severity_toString (s : Severity) : string :=
  match s with
  | Sev_error => "error"
  | Sev_warning => "warning"
  | Sev_info => "info"
  end.

(** The warning sign for errors and warnings, the information sign for
    infos. *)
Definition getSeverityIcon (severity : Severity) : string :=
  match severity with
  | Sev_error => bytes [226; 154; 160; 239; 184; 143]%nat
  | Sev_warning => bytes [226; 154; 160; 239; 184; 143]%nat
  | Sev_info => bytes [226; 132; 185; 239; 184; 143]%nat
  end.

Definition getScoreClass (score : Z) : string :=
  if (90 <=? score)%Z then "good"
  else if (70 <=? score)%Z then "warning"
  else "error".

(** ASCII view of [String.prototype.toUpperCase] on one character. *)
Definition upper_ascii (c : ascii) : ascii :=
  let n := nat_of_ascii c in
  if (97 <=? n)%nat && (n <=? 122)%nat then ascii_of_nat (n - 32) else c.

Definition capitalizeFirstLetter (str : string) : string :=
  match str with
  | EmptyString => EmptyString
  | String c rest => String (upper_ascii c) rest
  end.

(** A character of the class [a-z0-9] under the flag [i]. *)
Definition is_alphanumeric (c : ascii) : bool :=
  let n := nat_of_ascii c in
  ((48 <=? n)%nat && (n <=? 57)%nat) || ((65 <=? n)%nat && (n <=? 90)%nat)
  || ((97 <=? n)%nat && (n <=? 122)%nat).

Definition dash : ascii := ascii_of_nat 45.

(** [name.replace(/[^a-z0-9]/gi, '-')] *)
Fixpoint replace_other_characters (name : string) : string :=
  match name with
  | EmptyString => EmptyString
  | String c rest =>
      String (if is_alphanumeric c then c else dash) (replace_other_characters rest)
  end.

(** [s.replace(/-+/g, '-')] *)
Fixpoint collapse_dashes (s : string) : string :=
  match s with
  | EmptyString => EmptyString
  | String c rest =>
      if Ascii.eqb c dash
      then match rest with
           | String c' _ =>
               if Ascii.eqb c' dash then collapse_dashes rest
               else String c (collapse_dashes rest)
           | EmptyString => String c EmptyString
           end
      else String c (collapse_dashes rest)
  end.

Definition sanitizeFilename (name : string) : string :=
  toLowerCase (collapse_dashes (replace_other_characters name)).

(** [if (value)] on an optional string: present and not empty. *)
Definition truthy (value : option string) : option string :=
  match value with
  | Some s => if String.eqb s EmptyString then None else Some s
  | None => None
  end.

(** The callback of [result.issues.forEach] that fills [issuesByType]; the
    groups are kept in the order in which their keys were created. *)
Fixpoint add_issue (issuesByType : list (IssueType * list Issue)) (issue : Issue)
  : list (IssueType * list Issue) :=
  match issuesByType with
  | [] => [(type issue, [issue])]
  | (t, group) :: rest =>
      if Spec.IssueType_eqb t (type issue)
      then (t, (group ++ [issue])%list) :: rest
      else (t, group) :: add_issue rest issue
  end.

Definition issuesByType (issues : list Issue) : list (IssueType * list Issue) :=
  fold_left add_issue issues [].

(** The file handed to the browser for download. *)
Record Download : Type := {
  filename : string;
  mime : string;
  content : string
}.

(** What an export does: the alerts it shows and the file it delivers. *)
Record Exported : Type := {
  alerts : list string;
  download : Download
}.

Section WithClock.
(** [new Date().toLocaleDateString()] and [new Date().toLocaleTimeString()] *)
Variable date time : string.

Definition markdown_issue (settings : Settings) (issue : Issue) : string :=
  "#### " ++ getSeverityIcon (severity issue) ++ " " ++ title issue ++ nl ++ nl ++
  description issue ++ nl ++ nl ++
  match truthy (element issue) with
  | Some e => "**Element:** " ++ e ++ nl ++ nl
  | None => EmptyString
  end ++
  match (if includeRemediation settings then truthy (remediation issue) else None) with
  | Some advice => "**Remediation:** " ++ advice ++ nl ++ nl
  | None => EmptyString
  end ++
  "---" ++ nl ++ nl.

Definition markdown_group (settings : Settings) (entry : IssueType * list Issue)
  : string :=
  let '(t, group) := entry in
  "### " ++ capitalizeFirstLetter (IssueType_toString t) ++ " Issues (" ++
  Z_toString (Z.of_nat (List.length group)) ++ ")" ++ nl ++ nl ++
  String.concat EmptyString (map (markdown_issue settings) group).

Definition markdown_of (result : AuditResult) (name : string) (settings : Settings)
  : string :=
  "# UX Audit Report: " ++ name ++ nl ++ nl ++
  "*Generated on " ++ date ++ " at " ++ time ++ "*" ++ nl ++ nl ++
  "## Summary" ++ nl ++ nl ++
  "| Category | Score |" ++ nl ++
  "| -------- | ----- |" ++ nl ++
  "| Accessibility | " ++ Z_toString (accessibility result) ++ "/100 |" ++ nl ++
  match heuristics result with
  | Some score => "| Heuristics | " ++ Z_toString score ++ "/100 |" ++ nl
  | None => EmptyString
  end ++
  match seo result with
  | Some score => "| SEO | " ++ Z_toString score ++ "/100 |" ++ nl
  | None => EmptyString
  end ++
  match performance result with
  | Some score => "| Performance | " ++ Z_toString score ++ "/100 |" ++ nl
  | None => EmptyString
  end ++
  "| **Overall** | **" ++ Z_toString (overall result) ++ "/100** |" ++ nl ++ nl ++
  "## Issues Found (" ++ Z_toString (Z.of_nat (List.length (issues result))) ++ ")"
  ++ nl ++ nl ++
  String.concat EmptyString
    (map (markdown_group settings) (issuesByType (issues result))).

Definition exportMarkdown (result : AuditResult) (name : string)
  (settings : Settings) : Exported :=
  {| alerts := [];
     download :=
       {| filename := "uxaudit-" ++ sanitizeFilename name ++ ".md";
          mime := "text/markdown";
          content := markdown_of result name settings |} |}.

Definition exportPdf (result : AuditResult) (name : string)
  (settings : Settings) : Exported :=
  let exported := exportMarkdown result name settings in
  {| alerts :=
       "PDF export will be available in a future update. Exporting as Markdown instead."
       :: alerts exported;
     download := download exported |}.


Definition html_head (result : AuditResult) (name : string) : string :=
  String.concat EmptyString
  [ "<!DOCTYPE html>"; nl;
    "<html>"; nl;
    "<head>"; nl;
    "    <meta charset="; dq; "utf-8"; dq; ">"; nl;
    "    <title>UX Audit Report: "; name; "</title>"; nl;
    "    <style>"; nl;
    "        body {"; nl;
    "            font-family: -apple-system, BlinkMacSystemFont, "; dq; "Segoe UI"; dq; ", Roboto, Helvetica, Arial, sans-serif;"; nl;
    "            line-height: 1.6;"; nl;
    "            color: #333;"; nl;
    "            max-width: 800px;"; nl;
    "            margin: 0 auto;"; nl;
    "            padding: 20px;"; nl;
    "        }"; nl;
    "        h1 {"; nl;
    "            border-bottom: 1px solid #eee;"; nl;
    "            padding-bottom: 10px;"; nl;
    "        }"; nl;
    "        .meta {"; nl;
    "            color: #666;"; nl;
    "            font-style: italic;"; nl;
    "            margin-bottom: 20px;"; nl;
    "        }"; nl;
    "        table {"; nl;
    "            border-collapse: collapse;"; nl;
    "            width: 100%;"; nl;
    "            margin: 20px 0;"; nl;
    "        }"; nl;
    "        th, td {"; nl;
    "            text-align: left;"; nl;
    "            padding: 8px;"; nl;
    "            border-bottom: 1px solid #ddd;"; nl;
    "        }"; nl;
    "        th {"; nl;
    "            background-color: #f2f2f2;"; nl;
    "        }"; nl;
    "        .score {"; nl;
    "            font-weight: bold;"; nl;
    "        }"; nl;
    "        .good {"; nl;
    "            color: #14AE5C;"; nl;
    "        }"; nl;
    "        .warning {"; nl;
    "            color: #FF9800;"; nl;
    "        }"; nl;
    "        .error {"; nl;
    "            color: #F24822;"; nl;
    "        }"; nl;
    "        .issue {"; nl;
    "            margin-bottom: 30px;"; nl;
    "            padding-bottom: 20px;"; nl;
    "            border-bottom: 1px solid #eee;"; nl;
    "        }"; nl;
    "        .issue-title {"; nl;
    "            font-weight: bold;"; nl;
    "            margin-bottom: 10px;"; nl;
    "        }"; nl;
    "        .issue-description {"; nl;
    "            margin-bottom: 10px;"; nl;
    "        }"; nl;
    "        .issue-meta {"; nl;
    "            font-size: 0.9em;"; nl;
    "            color: #666;"; nl;
    "        }"; nl;
    "        .issue-remediation {"; nl;
    "            background-color: #f8f8f8;"; nl;
    "            padding: 10px;"; nl;
    "            border-left: 3px solid #18A0FB;"; nl;
    "            margin-top: 10px;"; nl;
    "        }"; nl;
    "        .tag {"; nl;
    "            display: inline-block;"; nl;
    "            padding: 3px 8px;"; nl;
    "            border-radius: 12px;"; nl;
    "            font-size: 0.8em;"; nl;
    "            margin-right: 5px;"; nl;
    "        }"; nl;
    "        .tag.accessibility {"; nl;
    "            background-color: #E3F5FF;"; nl;
    "            color: #18A0FB;"; nl;
    "        }"; nl;
    "        .tag.heuristic {"; nl;
    "            background-color: #FFF3E3;"; nl;
    "            color: #FF9800;"; nl;
    "        }"; nl;
    "        .tag.seo {"; nl;
    "            background-color: #E3FFE9;"; nl;
    "            color: #14AE5C;"; nl;
    "        }"; nl;
    "        .tag.performance {"; nl;
    "            background-color: #F5E3FF;"; nl;
    "            color: #9C27B0;"; nl;
    "        }"; nl;
    "    </style>"; nl;
    "</head>"; nl;
    "<body>"; nl;
    "    <h1>UX Audit Report: "; name; "</h1>"; nl;
    "    <div class="; dq; "meta"; dq; ">Generated on "; date; " at "; time; "</div>"; nl;
    "    "; nl;
    "    <h2>Summary</h2>"; nl;
    "    <table>"; nl;
    "        <tr>"; nl;
    "            <th>Category</th>"; nl;
    "            <th>Score</th>"; nl;
    "        </tr>"; nl;
    "        <tr>"; nl;
    "            <td>Accessibility</td>"; nl;
    "            <td class="; dq; "score "; getScoreClass (accessibility result); dq; ">"; Z_toString (accessibility result); "/100</td>"; nl;
    "        </tr>" ].

Definition html_heuristics_row (score : Z) : string :=
  String.concat EmptyString
  [ nl;
    "        <tr>"; nl;
    "            <td>Heuristics</td>"; nl;
    "            <td class="; dq; "score "; getScoreClass score; dq; ">"; Z_toString score; "/100</td>"; nl;
    "        </tr>" ].

Definition html_seo_row (score : Z) : string :=
  String.concat EmptyString
  [ nl;
    "        <tr>"; nl;
    "            <td>SEO</td>"; nl;
    "            <td class="; dq; "score "; getScoreClass score; dq; ">"; Z_toString score; "/100</td>"; nl;
    "        </tr>" ].

Definition html_performance_row (score : Z) : string :=
  String.concat EmptyString
  [ nl;
    "        <tr>"; nl;
    "            <td>Performance</td>"; nl;
    "            <td class="; dq; "score "; getScoreClass score; dq; ">"; Z_toString score; "/100</td>"; nl;
    "        </tr>" ].

Definition html_overall (result : AuditResult) : string :=
  String.concat EmptyString
  [ nl;
    "        <tr>"; nl;
    "            <td><strong>Overall</strong></td>"; nl;
    "            <td class="; dq; "score "; getScoreClass (overall result); dq; "><strong>"; Z_toString (overall result); "/100</strong></td>"; nl;
    "        </tr>"; nl;
    "    </table>"; nl;
    "    "; nl;
    "    <h2>Issues Found ("; Z_toString (Z.of_nat (List.length (issues result))); ")</h2>" ].

Definition html_group_heading (t : IssueType) (group : list Issue) : string :=
  String.concat EmptyString
  [ nl;
    "    <h3>"; capitalizeFirstLetter (IssueType_toString t); " Issues ("; Z_toString (Z.of_nat (List.length group)); ")</h3>" ].

Definition html_issue_open (issue : Issue) : string :=
  String.concat EmptyString
  [ nl;
    "    <div class="; dq; "issue"; dq; ">"; nl;
    "        <div class="; dq; "issue-title"; dq; ">"; getSeverityIcon (severity issue); " "; title issue; "</div>"; nl;
    "        <div class="; dq; "issue-description"; dq; ">"; description issue; "</div>"; nl;
    "        <div class="; dq; "issue-meta"; dq; ">"; nl;
    "            <span class="; dq; "tag "; IssueType_toString (type issue); dq; ">"; IssueType_toString (type issue); "</span>"; nl;
    "            <span class="; dq; "tag "; Severity_toString (severity issue); dq; ">"; Severity_toString (severity issue); "</span>"; nl;
    "            "; (match truthy (element issue) with Some e => "<br>Element: " ++ e | None => EmptyString end); nl;
    "        </div>" ].

Definition html_remediation (advice : string) : string :=
  String.concat EmptyString
  [ nl;
    "        <div class="; dq; "issue-remediation"; dq; ">"; nl;
    "            <strong>Remediation:</strong> "; advice; nl;
    "        </div>" ].

Definition html_issue_close : string :=
  String.concat EmptyString
  [ nl;
    "    </div>" ].

Definition html_tail : string :=
  String.concat EmptyString
  [ nl;
    "</body>"; nl;
    "</html>" ].

Definition html_issue (settings : Settings) (issue : Issue) : string :=
  html_issue_open issue ++
  match (if includeRemediation settings then truthy (remediation issue) else None) with
  | Some advice => html_remediation advice
  | None => EmptyString
  end ++
  html_issue_close.

Definition html_group (settings : Settings) (entry : IssueType * list Issue)
  : string :=
  let '(t, group) := entry in
  html_group_heading t group ++
  String.concat EmptyString (map (html_issue settings) group).

Definition html_of (result : AuditResult) (name : string) (settings : Settings)
  : string :=
  html_head result name ++
  match heuristics result with
  | Some score => html_heuristics_row score
  | None => EmptyString
  end ++
  match seo result with
  | Some score => html_seo_row score
  | None => EmptyString
  end ++
  match performance result with
  | Some score => html_performance_row score
  | None => EmptyString
  end ++
  html_overall result ++
  String.concat EmptyString (map (html_group settings) (issuesByType (issues result)))
  ++ html_tail.

Definition exportHtml (result : AuditResult) (name : string)
  (settings : Settings) : Exported :=
  {| alerts := [];
     download :=
       {| filename := "uxaudit-" ++ sanitizeFilename name ++ ".html";
          mime := "text/html";
          content := html_of result name settings |} |}.

(** [exportReport]: the [switch] on the format. *)
Definition exportReport (result : AuditResult) (format name : string)
  (settings : Settings) : Exported :=
  if String.eqb format "markdown" then exportMarkdown result name settings
  else if String.eqb format "pdf" then exportPdf result name settings
  else if String.eqb format "html" then exportHtml result name settings
  else exportMarkdown result name settings.

End WithClock.
End Report.

(* ===================================================================== *)
(** * api/audit.ts *)
(* ===================================================================== *)

Module Api.

Record Request : Type := {
  method : string;
  (** [request.query.url] *)
  query_url : option string
}.

Inductive Body : Type :=
  | EndBody
  | ErrorBody (error : string)
  | DataBody (data : Lighthouse.Payload).

Record Response : Type := {
  status : Z;
  headers : list (string * string);
  body : Body
}.

(** The response of the handler and the endpoints it fetched. *)
Record Handled : Type := {
  response : Response;
  fetched : list string
}.

(** The three [setHeader] calls that open the handler. *)
Definition cors_headers : list (string * string) :=
  [ ("Access-Control-Allow-Origin", "*");
    ("Access-Control-Allow-Methods", "GET, OPTIONS");
    ("Access-Control-Allow-Headers", "Content-Type, Authorization") ].

Definition respond (status : Z) (body : Body) (fetched : list string) : Handled :=
  {| response := {| status := status; headers := cors_headers; body := body |};
     fetched := fetched |}.

Section WithHost.
Context `{JsRuntime} `{Lighthouse.Host}.

(** [handler]; [apiKey] is [process.env.PAGESPEED_API_KEY].  The query
    parameter [url] is decoded from the bytes of the request and is well
    formed, so that [encodeURIComponent] does not throw on it. *)
Definition handler (request : Request) (apiKey : option string) : Handled :=
  if String.eqb (method request) "OPTIONS" then respond 200 EndBody []
  else
    match Report.truthy (query_url request) with
    | None => respond 400 (ErrorBody "URL parameter is required") []
    | Some url =>
        match Report.truthy apiKey with
        | None => respond 500 (ErrorBody "API key is not configured on the server") []
        | Some apiKey =>
            let endpoint :=
              "https://www.googleapis.com/pagespeedonline/v5/runPagespeed?url=" ++
              encodeURIComponent url ++
              "&category=ACCESSIBILITY&category=SEO&key=" ++ apiKey in
            match Lighthouse.fetch endpoint with
            | Lighthouse.FetchRejected message =>
                respond 500 (ErrorBody message) [endpoint]
            | Lighthouse.Response _ apiStatus _ json =>
                match json with
                | Thrown message => respond 500 (ErrorBody message) [endpoint]
                | Normal data =>
                    match Lighthouse.payload_error data with
                    | Some _ => respond apiStatus (DataBody data) [endpoint]
                    | None => respond 200 (DataBody data) [endpoint]
                    end
                end
            end
        end
    end.

End WithHost.
End Api.

(* ===================================================================== *)
(** * Saving settings (settings module and code.ts) *)
(* ===================================================================== *)

Module Persistence.

(** [figma.clientStorage]: what it holds, and the message with which
    [setAsync] rejects when it cannot be written. *)
Record Store : Type := {
  entries : gmap string string;
  write_error : option string
}.

Definition setAsync (store : Store) (key value : string) : Completion Store :=
  match write_error store with
  | Some message => Thrown message
  | None => Normal {| entries := <[key := value]> (entries store);
                      write_error := None |}
  end.

(** The host that reads from [store] and reaches the network [net]. *)
Definition host_of (net : string -> Lighthouse.FetchResult) (store : Store)
  : Lighthouse.Host :=
  {| Lighthouse.fetch := net;
     Lighthouse.clientStorage_getAsync := fun key =>
       Lighthouse.Stored (entries store !! key) |}.

(** What the handler of code.ts shows: a [settings-message] posted to the
    UI, or a notification. *)
Inductive UiEvent : Type :=
  | SettingsMessage (message : string)
  | Notify (message : string).

Section WithStringify.
Variable JSON_stringify : JsObject -> string.

(** [saveSettings] of the settings module. *)
Definition saveSettings (settings : JsObject) (store : Store) : Completion Store :=
  rethrow "Failed to save settings: "
    (setAsync store "uxaudit-settings" (JSON_stringify settings)).

(** [resetSettings] of the settings module: the settings it returns and the
    store it leaves. *)
Definition resetSettings (store : Store) : Completion (JsObject * Store) :=
  rethrow "Failed to reset settings: "
    (and_then (saveSettings SettingsStore.defaultSettings store) (fun store' =>
     Normal (SettingsStore.defaultSettings, store'))).

(** The ['save-settings'] branch of [figma.ui.onmessage]; [apiKey] is
    [msg.apiKey]. *)
Definition save_settings (apiKey : option string) (currentSettings : JsObject)
  (store : Store) : JsObject * Store * list UiEvent :=
  let currentSettings :=
    <["lighthouseApiKey" :=
        JStr (match Report.truthy apiKey with Some k => k | None => EmptyString end)]>
      currentSettings in
  match setAsync store "ux-audit-settings" (JSON_stringify currentSettings) with
  | Normal store' =>
      (currentSettings, store',
       [SettingsMessage "Settings saved successfully!"; Notify "Settings saved!"])
  | Thrown _ =>
      (currentSettings, store, [SettingsMessage "Failed to save settings."])
  end.

End WithStringify.
End Persistence.

(* ===================================================================== *)
(** * Further notions and inputs *)
(* ===================================================================== *)

Module Notions.

(** A check under which every issue of the array keeps the property [P]. *)
Definition keeps {A : Type} (P : Issue -> Prop) (c : Eff A) : Prop :=
  forall s, Forall P s -> Forall P (snd (c s)).

(** An accessibility issue that is not a mere info. *)
Definition accessibility_finding (i : Issue) : Prop :=
  type i = Ty_accessibility /\ severity i <> Sev_info.

Definition heuristic_finding (i : Issue) : Prop := type i = Ty_heuristic.

(** The issue without its remediation text. *)
Definition strip_remediation (i : Issue) : Issue :=
  {| type := type i;
     severity := severity i;
     title := title i;
     description := description i;
     remediation := None;
     element := element i |}.

(** The result with the remediation texts of its issues removed. *)
Definition without_remediation (result : AuditResult) : AuditResult :=
  {| accessibility := accessibility result;
     heuristics := heuristics result;
     seo := seo result;
     performance := performance result;
     overall := overall result;
     issues := map strip_remediation (issues result) |}.

(** The first occurrences of the types of the issues, in order. *)
Definition types_in_order (issues : list Issue) : list IssueType :=
  unique_from Spec.IssueType_eqb [] (map type issues).

(** No two dashes in a row. *)
Fixpoint no_double_dash (s : string) : bool :=
  match s with
  | EmptyString => true
  | String c rest =>
      match rest with
      | String c' _ =>
          negb (Ascii.eqb c Report.dash && Ascii.eqb c' Report.dash)
          && no_double_dash rest
      | EmptyString => true
      end
  end.

(** A lower-case letter, a digit or a dash. *)
Definition is_filename_character (c : ascii) : bool :=
  let n := nat_of_ascii c in
  ((48 <=? n)%nat && (n <=? 57)%nat) || ((97 <=? n)%nat && (n <=? 122)%nat)
  || (n =? 45)%nat.

Fixpoint all_characters (p : ascii -> bool) (s : string) : bool :=
  match s with
  | EmptyString => true
  | String c rest => p c && all_characters p rest
  end.

(** An upper-case letter. *)
Definition is_upper (c : ascii) : bool :=
  let n := nat_of_ascii c in (65 <=? n)%nat && (n <=? 90)%nat.

Definition not_upper (c : ascii) : bool := negb (is_upper c).

(** A tree without null entries, in which the children of a node, when it
    has any, are an array. *)
Fixpoint well_formed (node : Node) : bool :=
  match node with
  | NullNode => false
  | Obj _ ChildrenAbsent => true
  | Obj _ ChildrenNotIterable => false
  | Obj _ (ChildrenArray l) =>
      (fix each (l : list Node) : bool :=
         match l with
         | [] => true
         | child :: rest => well_formed child && each rest
         end) l
  end.

(** A category of a remote response whose score, when it has one, is a
    fraction between 0 and 1. *)
Definition unit_score (category : option Lighthouse.Category) : Prop :=
  forall c s,
    category = Some c -> Lighthouse.category_score c = Some s -> 0 <= s <= 1.

End Notions.

Module MoreSamples.

(** A host without network: every request is rejected. *)
Definition offline : Lighthouse.Host :=
  {| Lighthouse.fetch := fun _ => Lighthouse.FetchRejected "Failed to fetch";
     Lighthouse.clientStorage_getAsync := fun _ => Lighthouse.Stored None |}.

Definition keyed : Settings :=
  {| accessibilityChecks := true;
     heuristicChecks := true;
     seoChecks := true;
     performanceChecks := true;
     exportFormat := markdown;
     includeScreenshots := false;
     includeRemediation := true;
     lighthouseApiKey := "AIza-sample";
     useAI := false |}.

Definition no_remediation : Settings :=
  {| accessibilityChecks := true;
     heuristicChecks := true;
     seoChecks := true;
     performanceChecks := true;
     exportFormat := markdown;
     includeScreenshots := false;
     includeRemediation := false;
     lighthouseApiKey := EmptyString;
     useAI := false |}.

(** The settings that code.ts holds once the key [AIza-sample] is saved. *)
Definition saved_settings : JsObject :=
  <["lighthouseApiKey" := JStr "AIza-sample"]> Code.defaultSettings.

(** A codec that knows [Samples.snapshot] and the text [saved]. *)
Definition JSON_stringify (o : JsObject) : string :=
  match o !! "lighthouseApiKey" with
  | Some (JStr key) => if String.eqb key "AIza-sample" then "saved" else Samples.snapshot
  | _ => Samples.snapshot
  end.

Definition runtime : JsRuntime :=
  {| Math_pow := @Math_pow Samples.runtime;
     Number_toFixed := Samples.toFixed;
     Number_toString := Samples.toString;
     TypeError_in := @TypeError_in Samples.runtime;
     TypeError_read := @TypeError_read Samples.runtime;
     TypeError_not_iterable := @TypeError_not_iterable Samples.runtime;
     encodeURIComponent := fun s => s;
     URIError_of := @URIError_of Samples.runtime;
     JSON_parse := fun s =>
       if String.eqb s "saved" then Some saved_settings
       else @JSON_parse Samples.runtime s |}.

Definition empty_store : Persistence.Store :=
  {| Persistence.entries := ∅; Persistence.write_error := None |}.

Definition full_store : Persistence.Store :=
  {| Persistence.entries := ∅;
     Persistence.write_error := Some "Quota exceeded" |}.

(** An address that ends in a lone surrogate. *)
Definition ill_formed_url : string :=
  "https://example.com/" ++ Report.bytes [237; 160; 128]%nat.

(** A frame that holds [three_children]. *)
Definition row_of_three : NodeProps := Samples.node FRAME "row" FillsAbsent.

(** A component without children, as the only node of its parent. *)
Definition lone_component : Node :=
  Obj (Samples.node COMPONENT "Avatar" FillsAbsent) ChildrenAbsent.

(** Three children at uneven distances. *)
Definition three_children : list Node :=
  [ Obj (Samples.node RECTANGLE "a" FillsAbsent) ChildrenAbsent;
    Obj {| node_type := RECTANGLE; name := "b"; x := Some 110; width := Some 100;
           height := Some 100; fills := FillsAbsent; characters := EmptyString;
           fontSize := Num 16; fontWeight := Num 400;
           fontName := {| family := "Inter"; style := "Regular" |};
           reactions := None |} ChildrenAbsent;
    Obj {| node_type := RECTANGLE; name := "c"; x := Some 250; width := Some 100;
           height := Some 100; fills := FillsAbsent; characters := EmptyString;
           fontSize := Num 16; fontWeight := Num 400;
           fontName := {| family := "Inter"; style := "Regular" |};
           reactions := None |} ChildrenAbsent ].

End MoreSamples.

(* ===================================================================== *)
(** * Properties *)
(* ===================================================================== *)

(** ** Scoring (frame audit module) *)

Lemma fold_deduct_accessibility (issues : list Issue) (score : Z) :
  fold_left FrameAudit.deduct_accessibility issues score
  = (score - Spec.deductions Ty_accessibility issues)%Z.
Proof.
  revert score.
  induction issues as [|i rest IH]; intros score; simpl.
  - lia.
  - rewrite IH. unfold FrameAudit.deduct_accessibility, Spec.in_category.
    destruct (type i), (severity i); simpl; lia.
Qed.

Lemma fold_deduct_heuristic (issues : list Issue) (score : Z) :
  fold_left FrameAudit.deduct_heuristic issues score
  = (score - Spec.deductions Ty_heuristic issues)%Z.
Proof.
  revert score.
  induction issues as [|i rest IH]; intros score; simpl.
  - lia.
  - rewrite IH. unfold FrameAudit.deduct_heuristic, Spec.in_category.
    destruct (type i), (severity i); simpl; lia.
Qed.

Lemma deductions_filter (category : IssueType) (issues : list Issue) :
  Spec.deductions category (filter (Spec.in_category category) issues)
  = Spec.deductions category issues.
Proof.
  induction issues as [|i rest IH]; simpl; [reflexivity|].
  destruct (Spec.in_category category i) eqn:E; simpl; rewrite ?E, IH; reflexivity.
Qed.

Lemma deductions_nonneg (category : IssueType) (issues : list Issue) :
  (0 <= Spec.deductions category issues)%Z.
Proof.
  induction issues as [|i rest IH]; simpl; [lia|].
  destruct (Spec.in_category category i); [|lia].
  destruct category, (severity i); simpl; lia.
Qed.

Lemma clamp_range (z : Z) : (0 <= Spec.clamp z <= 100)%Z.
Proof. unfold Spec.clamp. lia. Qed.

(** C4.  For every issue list, each scorer returns 100 minus the summed
    per-severity weights of the issues of its own category (accessibility
    15/8/3, heuristic 12/7/3), clamped to 0..100 once, after the whole fold.
    Hence the score lies in 0..100, the empty list scores exactly 100, and
    issues of other categories do not change the score. *)
Theorem score_is_clamped_weighted_sum (issues : list Issue) :
  FrameAudit.calculateAccessibilityScore issues
    = Spec.scoreCategory issues Ty_accessibility
  /\ FrameAudit.calculateHeuristicsScore issues
    = Spec.scoreCategory issues Ty_heuristic
  /\ (0 <= FrameAudit.calculateAccessibilityScore issues <= 100)%Z
  /\ (0 <= FrameAudit.calculateHeuristicsScore issues <= 100)%Z
  /\ FrameAudit.calculateAccessibilityScore [] = 100%Z
  /\ FrameAudit.calculateHeuristicsScore [] = 100%Z
  /\ FrameAudit.calculateAccessibilityScore issues
    = FrameAudit.calculateAccessibilityScore
        (filter (Spec.in_category Ty_accessibility) issues)
  /\ FrameAudit.calculateHeuristicsScore issues
    = FrameAudit.calculateHeuristicsScore
        (filter (Spec.in_category Ty_heuristic) issues).
Proof.
  unfold FrameAudit.calculateAccessibilityScore,
    FrameAudit.calculateHeuristicsScore, Spec.scoreCategory.
  rewrite !fold_deduct_accessibility, !fold_deduct_heuristic, !deductions_filter.
  fold (Spec.clamp (100 - Spec.deductions Ty_accessibility issues)).
  fold (Spec.clamp (100 - Spec.deductions Ty_heuristic issues)).
  repeat split; try apply clamp_range; reflexivity.
Qed.

(** ** Mapping of remote audit entries (lighthouse.ts) *)

Lemma Qltb_lt (a b : Q) : Qltb a b = true <-> a < b.
Proof.
  unfold Qltb. rewrite negb_true_iff.
  split; intros E.
  - apply Qnot_le_lt. intros L. apply Qle_bool_iff in L. congruence.
  - destruct (Qle_bool b a) eqn:L; [|reflexivity].
    apply Qle_bool_iff in L. exfalso. exact (Qlt_not_le _ _ E L).
Qed.

Lemma Qltb_ge (a b : Q) : Qltb a b = false <-> b <= a.
Proof.
  unfold Qltb. rewrite negb_false_iff. apply Qle_bool_iff.
Qed.

Lemma issue_type_of_spec (id : string) (t : IssueType) :
  Spec.category_of_id id t <-> t = Lighthouse.issue_type_of id.
Proof.
  unfold Lighthouse.issue_type_of, startsWith. split.
  - intros [S | S P | S P1 P2 P3]; rewrite S; [reflexivity| |].
    + destruct P as [P | [P | P]]; rewrite P; simpl;
        rewrite ?orb_true_r; reflexivity.
    + rewrite P1, P2, P3. reflexivity.
  - intros ->.
    destruct (String.prefix "seo-" id) eqn:S; [now constructor|].
    destruct (String.prefix "performance-" id) eqn:P1;
      [apply Spec.id_performance; auto|].
    destruct (String.prefix "speed-" id) eqn:P2;
      [apply Spec.id_performance; auto|].
    destruct (String.prefix "load-" id) eqn:P3;
      [apply Spec.id_performance; auto|].
    simpl. now apply Spec.id_accessibility.
Qed.

Lemma severity_of_spec (s : Q) (sev : Severity) :
  Spec.severity_of_score s sev <-> sev = Lighthouse.severity_of (Some s).
Proof.
  unfold Lighthouse.severity_of. split.
  - intros [E | W1 W2 | I].
    + apply Qltb_lt in E. now rewrite E.
    + apply Qltb_ge in W1. apply Qltb_lt in W2. now rewrite W1, W2.
    + assert (I' : 0.5 <= s) by (eapply Qle_trans; [|exact I]; discriminate).
      apply Qltb_ge in I, I'. now rewrite I', I.
  - intros ->.
    destruct (Qltb s 0.5) eqn:E; [constructor; now apply Qltb_lt|].
    destruct (Qltb s 0.9) eqn:W.
    + apply Spec.score_warning; [now apply Qltb_ge | now apply Qltb_lt].
    + apply Spec.score_info. now apply Qltb_ge.
Qed.

Lemma check_disabled_enabled (settings : Settings) (t : IssueType) :
  t <> Ty_heuristic ->
  Lighthouse.check_disabled settings t = negb (Spec.enabled settings t).
Proof. destruct t; simpl; congruence. Qed.

Lemma issue_type_of_not_heuristic (id : string) :
  Lighthouse.issue_type_of id <> Ty_heuristic.
Proof.
  unfold Lighthouse.issue_type_of.
  destruct (startsWith id "seo-"); [discriminate|].
  destruct (startsWith id "performance-" || startsWith id "speed-"
            || startsWith id "load-"); discriminate.
Qed.

(** C5.  The issues of a remote response are the issues of its audit
    entries, in order, at most one per entry.  An entry yields an issue
    exactly when its score is a number other than 1 and the check of its
    category is enabled; the category follows the prefix of the rule id
    (seo-, then performance-/speed-/load-, else accessibility) and the
    severity follows the score (below 0.5 error, below 0.9 warning, else
    info).  An entry "seo-meta-description" with score 0.3 becomes an seo
    issue of severity error when seo checks are enabled, and an entry with
    score 1 or null yields nothing. *)
Theorem remote_entries_map_to_issues
  (data : Lighthouse.LighthouseResult) (settings : Settings)
  (id : string) (audit : Lighthouse.Audit) (issue : Issue)
  (a_title a_description : string) :
  issues (Lighthouse.processLighthouseResults data settings)
    = flat_map (fun entry => option_to_list (Lighthouse.audit_issue settings entry))
               (Lighthouse.audits data)
  /\ (Lighthouse.audit_issue settings (id, audit) = Some issue <->
      exists s,
        Lighthouse.score audit = Some s /\ ~ s == 1
        /\ Spec.enabled settings (type issue) = true
        /\ Spec.category_of_id id (type issue)
        /\ Spec.severity_of_score s (severity issue)
        /\ title issue = Lighthouse.audit_title audit
        /\ description issue = Lighthouse.audit_description audit
        /\ remediation issue
           = (if includeRemediation settings
              then Some (Lighthouse.generateRemediation id) else None)
        /\ element issue = None)
  /\ Lighthouse.audit_issue settings
       (id, {| Lighthouse.score := Some 1;
               Lighthouse.audit_title := a_title;
               Lighthouse.audit_description := a_description |}) = None
  /\ Lighthouse.audit_issue settings
       (id, {| Lighthouse.score := None;
               Lighthouse.audit_title := a_title;
               Lighthouse.audit_description := a_description |}) = None
  /\ option_map (fun i => (type i, severity i))
       (Lighthouse.audit_issue settings
          ("seo-meta-description",
           {| Lighthouse.score := Some 0.3;
              Lighthouse.audit_title := a_title;
              Lighthouse.audit_description := a_description |}))
     = (if seoChecks settings then Some (Ty_seo, Sev_error) else None).
Proof.
  split.
  { unfold Lighthouse.processLighthouseResults.
    destruct (seoChecks settings), (performanceChecks settings); reflexivity. }
  split; [|split; [reflexivity|split; [reflexivity|]]].
  - unfold Lighthouse.audit_issue.
    pose proof (issue_type_of_not_heuristic id) as NH.
    rewrite (check_disabled_enabled settings _ NH).
    split.
    + destruct (Lighthouse.score audit) as [s|] eqn:Sc; [|discriminate].
      destruct (Qeq_bool s 1) eqn:One; [discriminate|].
      destruct (Spec.enabled settings (Lighthouse.issue_type_of id)) eqn:En;
        [|discriminate].
      simpl. intros [= <-]. exists s. simpl.
      repeat split; try reflexivity; try assumption.
      * intros E. apply Qeq_bool_iff in E. congruence.
      * now apply issue_type_of_spec.
      * now apply severity_of_spec.
    + intros (s & Sc & One & En & Cat & Sev & Ti & De & Re & El).
      apply issue_type_of_spec in Cat. apply severity_of_spec in Sev.
      rewrite Sc.
      destruct (Qeq_bool s 1) eqn:E; [apply Qeq_bool_iff in E; contradiction|].
      rewrite <- Cat, En. simpl.
      destruct issue; simpl in *. subst. reflexivity.
  - unfold Lighthouse.audit_issue. simpl.
    destruct (seoChecks settings); reflexivity.
Qed.

(** ** The jargon scan of auditFrame (code.ts) *)

Lemma api_is_never_reported (characters word : string) :
  Code.letters_only word = "api" -> ~ In word (Code.jargon_of_text characters).
Proof.
  unfold Code.jargon_of_text. intros E I.
  apply filter_In in I. destruct I as [_ I]. rewrite E in I. discriminate I.
Qed.

(** C7.  On the text "We use a cache and an API here" the jargon scan of
    auditFrame reports "cache" only: the words are lower-cased before they
    are looked up, and the jargon list spells "API" in upper case, so "api"
    is not found.  The message built for the frame names "cache" alone. *)
Theorem jargon_scan_reports_cache_only :
  Code.split_whitespace (toLowerCase Samples.sentence)
    = ["we"; "use"; "a"; "cache"; "and"; "an"; "api"; "here"]
  /\ Array_includes Code.jargon (Code.letters_only "api") = false
  /\ Code.jargon_of_text Samples.sentence = ["cache"]
  /\ Code.uniqueJargon (Code.findAll Code.is_TEXT [] Samples.sentence_frame)
     = ["cache"]
  /\ Code.auditFrame_jargon [] Samples.sentence_frame
     = "Potential jargon found: cache. Ensure language is familiar to your users.".
Proof. repeat split; vm_compute; reflexivity. Qed.

(** ** Contrast (accessibility.ts and code.ts) *)

Lemma app_singleton_neq {A : Type} (l : list A) (a : A) : (l ++ [a])%list <> l.
Proof.
  intros E. apply (f_equal (@List.length A)) in E.
  rewrite List.length_app in E. simpl in E. lia.
Qed.

(** What [checkTextContrast] does for a text node with a colour of its own:
    one issue exactly when the ratio is below the required one. *)
Lemma checkTextContrast_policy `{JsRuntime} (node : NodeProps)
  (parents : list NodeProps) (textColor : Color) (s : list Issue) :
  node_type node = TEXT ->
  Accessibility.getNodeColor node = Some textColor ->
  let ratio :=
    Accessibility.calculateContrastRatio textColor (Accessibility.background parents) in
  let required := Accessibility.requiredRatio node in
  Accessibility.checkTextContrast node parents s
  = (Normal tt,
     if Qltb ratio required
     then (s ++ [Accessibility.low_contrast_issue ratio required])%list else s).
Proof.
  intros T C. unfold Accessibility.checkTextContrast. rewrite T, C. simpl.
  unfold try_catch, Accessibility.report_contrast, when.
  destruct (Qltb _ _); reflexivity.
Qed.

(** The large-text rule of accessibility.ts, in the words of the policy. *)
Lemma requiredRatio_policy `{JsRuntime} (node : NodeProps) :
  let size := Accessibility.fontSize_or_14 node in
  (Accessibility.isLargeText node = true <->
   18 <= size \/ (14 <= size /\ exists w, fontWeight node = Num w /\ 700 <= w))
  /\ Accessibility.requiredRatio node
     = (if Accessibility.isLargeText node then 3 else 4.5).
Proof.
  split; [|reflexivity].
  unfold Accessibility.isLargeText, Accessibility.isBold, Qgeb.
  rewrite orb_true_iff, andb_true_iff, !Qle_bool_iff.
  split.
  - intros [L | [L B]]; [now left|right]. split; [exact L|].
    destruct (fontWeight node) as [w|]; [|discriminate].
    exists w. split; [reflexivity|]. now apply Qle_bool_iff.
  - intros [L | [L (w & W & B)]]; [now left|right]. split; [exact L|].
    rewrite W. now apply Qle_bool_iff.
Qed.

(** C10.  For a text node whose font size is the mixed sentinel, the
    contrast check decides the large-text threshold as for font size 14:
    the text is large exactly when its weight is a number of at least 700,
    the required ratio is 3 for such a text and 4.5 for any other, and the
    check pushes one low-contrast issue exactly when the ratio against the
    resolved background is below the required ratio, as it does for the
    same node with font size 14.  The text-size check pushes nothing for
    such a node; it pushes only for a numeric font size strictly below 12. *)
Theorem mixed_font_size_counts_as_14 `{JsRuntime} (node : NodeProps)
  (parents : list NodeProps) (textColor : Color) (s : list Issue) :
  node_type node = TEXT ->
  fontSize node = Mixed ->
  Accessibility.getNodeColor node = Some textColor ->
  Accessibility.fontSize_or_14 node = 14
  /\ (Accessibility.isLargeText node = true
      <-> exists w, fontWeight node = Num w /\ 700 <= w)
  /\ Accessibility.requiredRatio node
     = (if Accessibility.isLargeText node then 3 else 4.5)
  /\ (Accessibility.calculateContrastRatio textColor
        (Accessibility.background parents)
      < Accessibility.requiredRatio node ->
      Accessibility.checkTextContrast node parents s
      = (Normal tt,
         (s ++ [Accessibility.low_contrast_issue
                  (Accessibility.calculateContrastRatio textColor
                     (Accessibility.background parents))
                  (Accessibility.requiredRatio node)])%list))
  /\ (Accessibility.requiredRatio node
      <= Accessibility.calculateContrastRatio textColor
           (Accessibility.background parents) ->
      Accessibility.checkTextContrast node parents s = (Normal tt, s))
  /\ Accessibility.checkTextContrast node parents s
     = Accessibility.checkTextContrast (Spec.with_fontSize (Num 14) node) parents s
  /\ Accessibility.checkTextSize node s = (Normal tt, s)
  /\ (forall (other : NodeProps),
        snd (Accessibility.checkTextSize other s) <> s
        <-> exists q, fontSize other = Num q /\ q < 12).
Proof.
  intros T M C.
  assert (F : Accessibility.fontSize_or_14 node = 14)
    by (unfold Accessibility.fontSize_or_14; now rewrite M).
  split; [exact F|]. split; [|split; [reflexivity|]].
  - destruct (requiredRatio_policy node) as [L _]. cbv zeta in L.
    rewrite F in L. rewrite L. split.
    + intros [A|[_ B]]; [|exact B]. exfalso. revert A. now apply Qlt_not_le.
    + intros B. right. split; [discriminate | exact B].
  - pose proof (checkTextContrast_policy node parents textColor s T C) as P.
    cbv zeta in P. split; [|split; [|split; [|split]]].
    + intros Lo. apply Qltb_lt in Lo. now rewrite P, Lo.
    + intros Hi. apply Qltb_ge in Hi. now rewrite P, Hi.
    + unfold Accessibility.checkTextContrast, Accessibility.getNodeColor,
        Accessibility.report_contrast, Accessibility.requiredRatio,
        Accessibility.isLargeText, Accessibility.isBold,
        Accessibility.fontSize_or_14.
      simpl. rewrite M. reflexivity.
    + unfold Accessibility.checkTextSize. now rewrite M.
    + intros other. split.
      * unfold Accessibility.checkTextSize, try_catch, when.
        destruct (fontSize other) as [q|]; simpl; [|congruence].
        destruct (Qltb q 12) eqn:E; simpl; [|congruence].
        intros _. exists q. split; [reflexivity|now apply Qltb_lt].
      * unfold Accessibility.checkTextSize, try_catch, when.
        intros (q & E & L). rewrite E. apply Qltb_lt in L. rewrite L. simpl.
        apply app_singleton_neq.
Qed.

(** A grey text of mixed sizes on white, at ratio 4: reported at weight
    400, where 4.5 is required, and not at weight 700, where 3 is. *)
Lemma mixed_font_size_counts_as_14_witness :
  @Accessibility.calculateContrastRatio Samples.runtime Samples.grey
    (@Accessibility.background Samples.runtime [Samples.white_frame]) == 4
  /\ Accessibility.isLargeText (Samples.mixed_grey_text 400) = false
  /\ @Accessibility.checkTextContrast Samples.runtime
       (Samples.mixed_grey_text 400) [Samples.white_frame] []
     = (Normal tt,
        [@Accessibility.low_contrast_issue Samples.runtime
           (@Accessibility.calculateContrastRatio Samples.runtime Samples.grey
              (@Accessibility.background Samples.runtime [Samples.white_frame]))
           4.5])
  /\ Accessibility.isLargeText (Samples.mixed_grey_text 700) = true
  /\ @Accessibility.checkTextContrast Samples.runtime
       (Samples.mixed_grey_text 700) [Samples.white_frame] []
     = (Normal tt, [])
  /\ @Accessibility.checkTextSize Samples.runtime (Samples.mixed_grey_text 400) []
     = (Normal tt, []).
Proof.
  split; [vm_compute; reflexivity|]. split; [reflexivity|].
  destruct (@mixed_font_size_counts_as_14 Samples.runtime
              (Samples.mixed_grey_text 400) [Samples.white_frame] Samples.grey []
              eq_refl eq_refl eq_refl) as (_ & _ & _ & Low & _ & _ & Size & _).
  destruct (@mixed_font_size_counts_as_14 Samples.runtime
              (Samples.mixed_grey_text 700) [Samples.white_frame] Samples.grey []
              eq_refl eq_refl eq_refl) as (_ & _ & _ & _ & High & _).
  split; [apply Low; vm_compute; reflexivity|]. split; [reflexivity|].
  split; [apply High; vm_compute; discriminate | exact Size].
Defined.

(** C1.  auditFrame compares every contrast with 4.5, whatever the size of
    the text.  For a text node that the large-text rule counts as large
    (size at least 18, or at least 14 and bold) and whose contrast lies
    between 3 and 4.5, auditFrame records a low-contrast entry, although the
    required ratio of the policy is 3 and the check of accessibility.ts,
    given the same contrast, pushes no issue. *)
Theorem auditFrame_ignores_large_text `{JsRuntime} (node parent : NodeProps)
  (grand : list NodeProps) (textColor bgColor : Color) (vis bvis : option bool)
  (more_fills more_parent_fills : list Paint) (contrast : Q) :
  fills node = FillsArray (SOLID textColor vis :: more_fills) ->
  fills parent = FillsArray (SOLID bgColor bvis :: more_parent_fills) ->
  Accessibility.isLargeText node = true ->
  contrast = Utils.contrastRatio
               (Utils.relativeLuminance (Utils.getRGB textColor))
               (Utils.relativeLuminance (Utils.getRGB bgColor)) ->
  3 <= contrast ->
  contrast < 4.5 ->
  Code.contrast_check (node, parent :: grand)
    = Normal (Some (Code.contrast_entry node contrast))
  /\ Accessibility.requiredRatio node = 3
  /\ Accessibility.report_contrast node contrast [] = (Normal tt, []).
Proof.
  intros F P L -> Lo Hi. repeat split.
  - unfold Code.contrast_check. rewrite F. simpl. rewrite P. simpl.
    apply Qltb_lt in Hi. now rewrite Hi.
  - unfold Accessibility.requiredRatio. now rewrite L.
  - unfold Accessibility.report_contrast, Accessibility.requiredRatio, when.
    rewrite L. apply Qltb_ge in Lo. now rewrite Lo.
Qed.

Lemma auditFrame_ignores_large_text_witness :
  Accessibility.isLargeText (Samples.grey_text 24) = true
  /\ @Utils.contrastRatio
       (@Utils.relativeLuminance Samples.runtime (Utils.getRGB Samples.grey))
       (@Utils.relativeLuminance Samples.runtime (Utils.getRGB Accessibility.white))
     == 4
  /\ @Code.contrast_check Samples.runtime
       (Samples.grey_text 24, [Samples.white_frame; Samples.page])
     = Normal (Some (@Code.contrast_entry Samples.runtime (Samples.grey_text 24)
                       (@Utils.contrastRatio
                          (@Utils.relativeLuminance Samples.runtime
                             (Utils.getRGB Samples.grey))
                          (@Utils.relativeLuminance Samples.runtime
                             (Utils.getRGB Accessibility.white)))))
  /\ @Accessibility.report_contrast Samples.runtime (Samples.grey_text 24)
       (@Utils.contrastRatio
          (@Utils.relativeLuminance Samples.runtime (Utils.getRGB Samples.grey))
          (@Utils.relativeLuminance Samples.runtime
             (Utils.getRGB Accessibility.white))) []
     = (Normal tt, []).
Proof.
  split; [reflexivity|]. split; [vm_compute; reflexivity|].
  destruct (@auditFrame_ignores_large_text Samples.runtime
              (Samples.grey_text 24) Samples.white_frame [Samples.page]
              Samples.grey Accessibility.white None None [] [] _
              eq_refl eq_refl eq_refl eq_refl) as (A & _ & B).
  - vm_compute. discriminate.
  - vm_compute. reflexivity.
  - split; [exact A | exact B].
Defined.

(** The policy on a contrast of exactly 4: an issue at size 10, none at 24. *)
Lemma contrast_4_at_sizes_10_and_24 `{JsRuntime} :
  Accessibility.report_contrast (Samples.grey_text 10) 4 []
    = (Normal tt, [Accessibility.low_contrast_issue 4 4.5])
  /\ Accessibility.report_contrast (Samples.grey_text 24) 4 [] = (Normal tt, []).
Proof. split; reflexivity. Qed.

(** The two checks on the same grey text at ratio 4, sizes 10 and 24:
    accessibility.ts reports the small one only, auditFrame reports both. *)
Example grey_text_at_ratio_4 :
  @Accessibility.analyzeAccessibility Samples.runtime Samples.all_enabled
    [Samples.page] (Samples.grey_on_white 10)
  = Normal
      [ {| type := Ty_accessibility;
           severity := Sev_warning;
           title := "Low contrast text";
           description := "Text has 4.0:1 contrast ratio (WCAG AA requires 4.5:1)";
           remediation :=
             Some "Increase the contrast between text and background to at least 4.5:1.";
           element := None |};
        {| type := Ty_accessibility;
           severity := Sev_warning;
           title := "Small text size";
           description := "Text size is 10px (recommended minimum is 12px)";
           remediation :=
             Some "Increase text size to at least 12px for better readability.";
           element := None |} ]
  /\ @Accessibility.analyzeAccessibility Samples.runtime Samples.all_enabled
       [Samples.page] (Samples.grey_on_white 24)
     = Normal []
  /\ @Code.auditFrame_accessibility Samples.runtime [Samples.page]
       (Samples.grey_on_white 10)
     = Normal ("Low contrast text found: " ++ dq ++ "Heading" ++ dq
               ++ " (contrast: 4.00:1)")
  /\ @Code.auditFrame_accessibility Samples.runtime [Samples.page]
       (Samples.grey_on_white 24)
     = Normal ("Low contrast text found: " ++ dq ++ "Heading" ++ dq
               ++ " (contrast: 4.00:1)").
Proof. repeat split; vm_compute; reflexivity. Qed.

(** ** The background of a text node *)

(** [getNodeColor] gives the colour of the first fill that is solid and not
    marked invisible, when no malformed entry precedes it. *)
Lemma getNodeColor_first_visible_solid `{JsRuntime} (node : NodeProps)
  (before after : list Paint) (c : Color) (visible : option bool) :
  fills node = FillsArray (before ++ SOLID c visible :: after)%list ->
  Forall (fun p => Accessibility.is_visible_solid p = Normal false) before ->
  visible <> Some false ->
  Accessibility.getNodeColor node = Some c.
Proof.
  intros F B V. unfold Accessibility.getNodeColor. rewrite F.
  assert (E : Array_find Accessibility.is_visible_solid
                (before ++ SOLID c visible :: after)%list
              = Normal (Some (SOLID c visible))).
  { clear F. induction B as [|p before P B IH]; simpl.
    - destruct visible as [[|]|]; try reflexivity. congruence.
    - rewrite P. exact IH. }
  rewrite E. destruct c.
  destruct (before ++ SOLID _ visible :: after)%list eqn:L; [|reflexivity].
  destruct before; discriminate L.
Qed.

(** The walk of accessibility.ts stops at the first parent that has a
    visible solid fill, and gives white when there is none. *)
Lemma background_first_solid `{JsRuntime} (before after : list NodeProps)
  (parent : NodeProps) (c : Color) :
  Forall (fun n => Accessibility.getNodeColor n = None) before ->
  Accessibility.getNodeColor parent = Some c ->
  Accessibility.background (before ++ parent :: after)%list = c.
Proof.
  intros B P. unfold Accessibility.background.
  induction B as [|n before N B IH]; simpl.
  - unfold Accessibility.has_nonempty_fills_array.
    assert (G : exists p l, fills parent = FillsArray (p :: l)).
    { unfold Accessibility.getNodeColor in P.
      destruct (fills parent) as [| |[|p l]]; try discriminate. eauto. }
    destruct G as (p & l & G). rewrite G, P. reflexivity.
  - rewrite N. destruct (Accessibility.has_nonempty_fills_array n); exact IH.
Qed.

Lemma background_default_white `{JsRuntime} (parents : list NodeProps) :
  Forall (fun n => Accessibility.getNodeColor n = None) parents ->
  Accessibility.background parents = Accessibility.white.
Proof.
  intros B. unfold Accessibility.background.
  induction B as [|n parents N B IH]; simpl; [reflexivity|].
  rewrite N. destruct (Accessibility.has_nonempty_fills_array n); exact IH.
Qed.

(** C2.  findbackground reads the first fill of the immediate parent only.
    When that parent has no fill and the next ancestor has a visible solid
    fill, findbackground answers white, whereas the walk of accessibility.ts
    over the same ancestors answers the colour of that ancestor. *)
Theorem findbackground_stops_at_parent `{JsRuntime} (parent grand : NodeProps)
  (rest : list NodeProps) (c : Color) :
  Accessibility.has_nonempty_fills_array parent = false ->
  Accessibility.getNodeColor grand = Some c ->
  Code.findbackground (hd_error (parent :: grand :: rest)) = Normal Code.white_paint
  /\ Accessibility.background (parent :: grand :: rest) = c.
Proof.
  intros P G. split.
  - simpl. unfold Code.findbackground.
    unfold Accessibility.has_nonempty_fills_array in P.
    destruct (fills parent) as [| |[|p l]]; try reflexivity. discriminate.
  - apply (background_first_solid [parent] rest grand c); [|exact G].
    constructor; [|constructor].
    unfold Accessibility.getNodeColor.
    unfold Accessibility.has_nonempty_fills_array in P.
    destruct (fills parent) as [| |[|p l]]; try reflexivity. discriminate.
Qed.

Lemma findbackground_stops_at_parent_witness :
  Accessibility.has_nonempty_fills_array Samples.bare_group = false
  /\ @Accessibility.getNodeColor Samples.runtime Samples.black_frame
     = Some Samples.black
  /\ @Code.findbackground Samples.runtime
       (hd_error [Samples.bare_group; Samples.black_frame; Samples.page])
     = Normal Code.white_paint
  /\ @Accessibility.background Samples.runtime
       [Samples.bare_group; Samples.black_frame; Samples.page]
     = Samples.black.
Proof.
  split; [reflexivity|]. split; [reflexivity|].
  exact (@findbackground_stops_at_parent Samples.runtime Samples.bare_group
           Samples.black_frame [Samples.page] Samples.black eq_refl eq_refl).
Defined.

(** ** Loading settings (code.ts and the settings module) *)

Lemma Object_assign_lookup (defaults parsed : JsObject) (k : string) :
  Code.Object_assign ∅ [defaults; parsed] !! k
  = match parsed !! k with
    | Some v => Some v
    | None => defaults !! k
    end.
Proof.
  unfold Code.Object_assign. simpl.
  destruct (parsed !! k) as [v|] eqn:P.
  - now apply lookup_union_Some_l.
  - rewrite (lookup_union_r _ _ _ P).
    destruct (defaults !! k) as [d|] eqn:D.
    + now apply lookup_union_Some_l.
    + rewrite (lookup_union_r _ _ _ D). apply lookup_empty.
Qed.

(** The handler of code.ts layers the snapshot over the defaults: every
    field is the persisted one when present and the default otherwise. *)
Lemma load_settings_layers `{JsRuntime} `{Lighthouse.Host}
  (currentSettings parsed : JsObject) (stored : string) (k : string) :
  Lighthouse.clientStorage_getAsync "ux-audit-settings"
    = Lighthouse.Stored (Some stored) ->
  String.eqb stored EmptyString = false ->
  JSON_parse stored = Some parsed ->
  fst (Code.load_settings currentSettings) !! k
  = match parsed !! k with
    | Some v => Some v
    | None => Code.defaultSettings !! k
    end.
Proof.
  intros S E P. unfold Code.load_settings. rewrite S, E, P. simpl.
  apply Object_assign_lookup.
Qed.

(** C9.  loadSettings of the settings module returns the parsed snapshot as
    it is: a field that the snapshot lacks stays undefined in the loaded
    settings, without a default. *)
Theorem loadSettings_keeps_fields_undefined `{JsRuntime} `{Lighthouse.Host}
  (stored : string) (parsed : JsObject) (k : string) :
  Lighthouse.clientStorage_getAsync "uxaudit-settings"
    = Lighthouse.Stored (Some stored) ->
  String.eqb stored EmptyString = false ->
  JSON_parse stored = Some parsed ->
  parsed !! k = None ->
  exists loaded : JsObject,
    SettingsStore.loadSettings = Some loaded /\ loaded !! k = None.
Proof.
  intros S E P K. exists parsed. split; [|exact K].
  unfold SettingsStore.loadSettings. now rewrite S, E, P.
Qed.

Lemma loadSettings_keeps_fields_undefined_witness :
  SettingsStore.defaultSettings !! "heuristicChecks" = Some (JBool true)
  /\ exists loaded : JsObject,
       @SettingsStore.loadSettings Samples.runtime Samples.host = Some loaded
       /\ loaded !! "heuristicChecks" = None.
Proof.
  split; [reflexivity|].
  exact (@loadSettings_keeps_fields_undefined Samples.runtime Samples.host
           Samples.snapshot {[ "accessibilityChecks" := JBool false ]}
           "heuristicChecks" eq_refl eq_refl eq_refl eq_refl).
Defined.

(** On a snapshot that holds [accessibilityChecks] only, the handler of
    code.ts yields the persisted field and the defaults of the others, while
    loadSettings yields the persisted field alone. *)
Example loaders_on_a_partial_snapshot :
  (let loaded := fst (@Code.load_settings Samples.runtime Samples.host
                        Code.defaultSettings) in
   loaded !! "accessibilityChecks" = Some (JBool false)
   /\ loaded !! "heuristicChecks" = Some (JBool true)
   /\ loaded !! "exportFormat" = Some (JStr "markdown"))
  /\ @SettingsStore.loadSettings Samples.runtime Samples.host
     = Some {[ "accessibilityChecks" := JBool false ]}.
Proof. repeat split; vm_compute; reflexivity. Qed.

(** ** Failures during the analysis (accessibility.ts and heuristics.ts) *)

Lemma appends_ret {A : Type} (a : A) : Spec.appends (ret a).
Proof. intros s. unfold ret, Spec.pushed. simpl. now rewrite app_nil_r. Qed.

Lemma appends_throw {A : Type} (m : string) : Spec.appends (@throw A m).
Proof. intros s. unfold throw, Spec.pushed. simpl. now rewrite app_nil_r. Qed.

Lemma appends_lift {A : Type} (c : Completion A) : Spec.appends (lift c).
Proof. intros s. unfold lift, Spec.pushed. simpl. now rewrite app_nil_r. Qed.

Lemma appends_push (i : Issue) : Spec.appends (push i).
Proof. intros s. reflexivity. Qed.

Lemma appends_push_all (l : list Issue) : Spec.appends (push_all l).
Proof. intros s. reflexivity. Qed.

Lemma appends_bind {A B : Type} (c : Eff A) (k : A -> Eff B) :
  Spec.appends c -> (forall a, Spec.appends (k a)) -> Spec.appends (bind c k).
Proof.
  intros C K s. unfold bind, Spec.pushed. rewrite (C s).
  destruct (c []) as [[a|m] d] eqn:E; simpl.
  - unfold Spec.pushed. rewrite E. simpl.
    rewrite (K a (s ++ d)%list), (K a d). simpl. now rewrite app_assoc.
  - unfold Spec.pushed. rewrite E. reflexivity.
Qed.

Lemma appends_try_catch {A : Type} (body : Eff A) (handler : string -> Eff A) :
  Spec.appends body -> (forall m, Spec.appends (handler m)) ->
  Spec.appends (try_catch body handler).
Proof.
  intros C K s. unfold try_catch, Spec.pushed. rewrite (C s).
  destruct (body []) as [[a|m] d] eqn:E; simpl.
  - unfold Spec.pushed. rewrite E. reflexivity.
  - unfold Spec.pushed. rewrite E. simpl.
    rewrite (K m (s ++ d)%list), (K m d). simpl. now rewrite app_assoc.
Qed.

Lemma appends_when (c : bool) (body : Eff unit) :
  Spec.appends body -> Spec.appends (when c body).
Proof. intros B. destruct c; [exact B | apply appends_ret]. Qed.

Create HintDb eff.
#[local] Hint Resolve appends_ret appends_throw appends_lift appends_push
  appends_push_all appends_bind appends_try_catch appends_when : eff.

(** A check that swallows what it throws completes normally. *)
Lemma swallowing_completes (body : Eff unit) (s : list Issue) :
  fst (try_catch body (fun _ => ret tt) s) = Normal tt.
Proof.
  unfold try_catch, ret. destruct (body s) as [[[]|m] d]; reflexivity.
Qed.

(** A function that catches at its top level returns what was collected,
    followed by one issue made from the message when its body threw. *)
Lemma returning_issues_caught (body : Eff unit) (err : string -> Issue)
  (c : Completion unit) (collected : list Issue) :
  body [] = (c, collected) ->
  returning_issues (try_catch body (fun m => push (err m)))
  = Normal (match c with
            | Normal _ => collected
            | Thrown m => (collected ++ [err m])%list
            end).
Proof.
  intros B. unfold returning_issues, try_catch, push. rewrite B.
  destruct c; reflexivity.
Qed.

Lemma returning_issues_total (body : Eff unit) (err : string -> Issue) :
  exists found,
    returning_issues (try_catch body (fun m => push (err m))) = Normal found.
Proof.
  destruct (body []) as [c d] eqn:B.
  rewrite (returning_issues_caught body err c d B). eauto.
Qed.

Lemma quiet_ret : Spec.quiet (ret tt).
Proof. split; [apply appends_ret | reflexivity]. Qed.

Lemma quiet_when (c : bool) (body : Eff unit) :
  Spec.quiet body -> Spec.quiet (when c body).
Proof. destruct c; [trivial | intros _; apply quiet_ret]. Qed.

Lemma quiet_swallowing (body : Eff unit) :
  Spec.appends body -> Spec.quiet (try_catch body (fun _ => ret tt)).
Proof.
  intros B. split; [auto with eff | apply swallowing_completes].
Qed.

Lemma quiet_seq (c1 c2 : Eff unit) :
  Spec.quiet c1 -> Spec.quiet c2 -> Spec.quiet (c1 ;;; c2).
Proof.
  intros [A1 N1] [A2 N2]. split; [auto with eff|].
  unfold bind. destruct (c1 []) as [[[]|m] d] eqn:E; simpl in N1; [|discriminate].
  rewrite (A2 d). exact N2.
Qed.

Lemma quiet_run (c : Eff unit) (s : list Issue) :
  Spec.quiet c -> c s = (Normal tt, (s ++ Spec.pushed c)%list).
Proof. intros [A N]. rewrite (A s), N. reflexivity. Qed.

Lemma quiet_then {A : Type} (c1 : Eff unit) (c2 : Eff A) (s : list Issue) :
  Spec.quiet c1 -> (c1 ;;; c2) s = c2 (s ++ Spec.pushed c1)%list.
Proof. intros Q. unfold bind. now rewrite (quiet_run c1 s Q). Qed.

#[local] Hint Resolve quiet_ret quiet_when quiet_swallowing quiet_seq : eff.

Section AccessibilityFailures.
Context `{JsRuntime}.

Lemma checkTextContrast_quiet (node : NodeProps) (parents : list NodeProps) :
  Spec.quiet (Accessibility.checkTextContrast node parents).
Proof.
  unfold Accessibility.checkTextContrast.
  destruct (negb (NodeType_eqb (node_type node) TEXT)); [apply quiet_ret|].
  apply quiet_swallowing.
  destruct (Accessibility.getNodeColor node); [|apply appends_ret].
  unfold Accessibility.report_contrast. auto with eff.
Qed.

Lemma checkTextSize_quiet (node : NodeProps) :
  Spec.quiet (Accessibility.checkTextSize node).
Proof.
  unfold Accessibility.checkTextSize. apply quiet_swallowing.
  destruct (fontSize node); auto with eff.
Qed.

Lemma checkTouchTargetSize_quiet (node : NodeProps) :
  Spec.quiet (Accessibility.checkTouchTargetSize node).
Proof.
  unfold Accessibility.checkTouchTargetSize. apply quiet_swallowing.
  destruct (width node), (height node); auto with eff.
Qed.

Lemma accessibility_node_checks_quiet (props : NodeProps)
  (parents : list NodeProps) :
  Spec.quiet (Accessibility.node_checks props parents).
Proof.
  unfold Accessibility.node_checks.
  auto using checkTextContrast_quiet, checkTextSize_quiet,
    checkTouchTargetSize_quiet with eff.
Qed.

(** A malformed entry in [fills] makes the colour lookup throw; the lookup
    swallows it, and the contrast check pushes nothing. *)
Lemma checkTextContrast_swallows (node : NodeProps) (parents : list NodeProps)
  (l : list Paint) (m : string) (s : list Issue) :
  fills node = FillsArray l ->
  Array_find Accessibility.is_visible_solid l = Thrown m ->
  Accessibility.checkTextContrast node parents s = (Normal tt, s).
Proof.
  intros F T. unfold Accessibility.checkTextContrast, Accessibility.getNodeColor.
  rewrite F.
  destruct (negb (NodeType_eqb (node_type node) TEXT)); [reflexivity|].
  destruct l as [|p l]; [reflexivity|]. rewrite T. reflexivity.
Qed.

Lemma analyzeAccessibility_total (settings : Settings)
  (parents : list NodeProps) (node : Node) :
  exists found,
    Accessibility.analyzeAccessibility settings parents node = Normal found.
Proof.
  destruct node as [|props children]; simpl;
    destruct (accessibilityChecks settings); simpl; eauto;
    apply returning_issues_total.
Qed.

Lemma analyzeAccessibility_null (settings : Settings) (parents : list NodeProps) :
  accessibilityChecks settings = true ->
  Accessibility.analyzeAccessibility settings parents NullNode
  = Normal [Accessibility.analysis_error_issue (TypeError_in "fills")].
Proof. intros E. simpl. rewrite E. reflexivity. Qed.

Lemma analyzeAccessibility_not_iterable (settings : Settings)
  (parents : list NodeProps) (props : NodeProps) :
  accessibilityChecks settings = true ->
  Accessibility.analyzeAccessibility settings parents (Obj props ChildrenNotIterable)
  = Normal (Spec.pushed (Accessibility.node_checks props parents)
            ++ [Accessibility.analysis_error_issue
                  (TypeError_not_iterable "children")])%list.
Proof.
  intros E. simpl. rewrite E. simpl.
  rewrite (returning_issues_caught _ _
             (Thrown (TypeError_not_iterable "children"))
             (Spec.pushed (Accessibility.node_checks props parents)));
    [reflexivity|].
  rewrite quiet_then by apply accessibility_node_checks_quiet. reflexivity.
Qed.

Lemma accessibility_children_loop (settings : Settings)
  (parents : list NodeProps) (l : list Node) (s : list Issue) :
  (fix each (l : list Node) : Eff unit :=
     match l with
     | [] => ret tt
     | child :: rest =>
         childIssues <-
           lift (Accessibility.analyzeAccessibility settings parents child) ;;
         push_all childIssues ;;;
         each rest
     end) l s
  = (Normal tt,
     (s ++ flat_map
             (fun child =>
                Spec.issues_of
                  (Accessibility.analyzeAccessibility settings parents child)) l)%list).
Proof.
  revert s. induction l as [|child rest IH]; intros s.
  - simpl. unfold ret. now rewrite app_nil_r.
  - destruct (analyzeAccessibility_total settings parents child) as [found F].
    cbn [flat_map]. rewrite F. unfold bind at 1, lift. unfold bind at 1, push_all.
    rewrite IH. simpl. now rewrite app_assoc.
Qed.

Lemma analyzeAccessibility_array (settings : Settings)
  (parents : list NodeProps) (props : NodeProps) (l : list Node) :
  accessibilityChecks settings = true ->
  Accessibility.analyzeAccessibility settings parents (Obj props (ChildrenArray l))
  = Normal (Spec.pushed (Accessibility.node_checks props parents)
            ++ flat_map
                 (fun child =>
                    Spec.issues_of
                      (Accessibility.analyzeAccessibility settings
                         (props :: parents) child)) l)%list.
Proof.
  intros E. simpl. rewrite E. simpl.
  rewrite (returning_issues_caught _ _ (Normal tt)
             (Spec.pushed (Accessibility.node_checks props parents)
              ++ flat_map
                   (fun child =>
                      Spec.issues_of
                        (Accessibility.analyzeAccessibility settings
                           (props :: parents) child)) l)%list);
    [reflexivity|].
  rewrite quiet_then by apply accessibility_node_checks_quiet.
  apply accessibility_children_loop.
Qed.

End AccessibilityFailures.

Ltac appends_steps :=
  repeat first
    [ apply appends_ret | apply appends_throw | apply appends_lift
    | apply appends_push | apply appends_push_all | apply appends_when
    | apply appends_bind | apply appends_try_catch | intro
    | progress cbv zeta ].

Section HeuristicFailures.
Context `{JsRuntime}.

Lemma checkConsistency_quiet (node : Node) :
  Spec.quiet (Heuristics.checkConsistency node).
Proof.
  unfold Heuristics.checkConsistency. apply quiet_swallowing.
  destruct node as [|props [|l|]]; appends_steps.
Qed.

Lemma checkVisibilityOfSystemStatus_quiet (node : Node) :
  Spec.quiet (Heuristics.checkVisibilityOfSystemStatus node).
Proof.
  unfold Heuristics.checkVisibilityOfSystemStatus. apply quiet_swallowing.
  destruct node as [|props children]; appends_steps.
Qed.

Lemma checkUserControlAndFreedom_quiet (node : Node) :
  Spec.quiet (Heuristics.checkUserControlAndFreedom node).
Proof.
  unfold Heuristics.checkUserControlAndFreedom. apply quiet_swallowing.
  destruct node as [|props children]; appends_steps.
Qed.

Lemma checkErrorPrevention_quiet (siblings : option (list Node)) (node : Node) :
  Spec.quiet (Heuristics.checkErrorPrevention siblings node).
Proof.
  unfold Heuristics.checkErrorPrevention. apply quiet_swallowing.
  destruct node as [|props children]; appends_steps.
Qed.

Lemma checkRecognitionOverRecall_quiet (siblings : option (list Node))
  (node : Node) :
  Spec.quiet (Heuristics.checkRecognitionOverRecall siblings node).
Proof.
  unfold Heuristics.checkRecognitionOverRecall. apply quiet_swallowing.
  destruct node as [|props children]; appends_steps.
Qed.

Lemma checkAestheticAndMinimalistDesign_quiet (node : Node) :
  Spec.quiet (Heuristics.checkAestheticAndMinimalistDesign node).
Proof.
  unfold Heuristics.checkAestheticAndMinimalistDesign. apply quiet_swallowing.
  destruct node as [|props [|l|]]; appends_steps.
Qed.

Lemma heuristic_node_checks_quiet (siblings : option (list Node)) (node : Node) :
  Spec.quiet (Heuristics.node_checks siblings node).
Proof.
  unfold Heuristics.node_checks.
  repeat apply quiet_seq;
    auto using checkConsistency_quiet, checkVisibilityOfSystemStatus_quiet,
      checkUserControlAndFreedom_quiet, checkErrorPrevention_quiet,
      checkRecognitionOverRecall_quiet, checkAestheticAndMinimalistDesign_quiet.
Qed.

(** On a null entry every check of the node fails inside its own [try] and
    pushes nothing. *)
Lemma heuristic_node_checks_null (siblings : option (list Node)) :
  Spec.pushed (Heuristics.node_checks siblings NullNode) = [].
Proof. reflexivity. Qed.

Lemma analyzeHeuristics_total (settings : Settings)
  (siblings : option (list Node)) (node : Node) :
  exists found, Heuristics.analyzeHeuristics settings siblings node = Normal found.
Proof.
  destruct node as [|props children]; simpl;
    destruct (heuristicChecks settings); simpl; eauto;
    apply returning_issues_total.
Qed.

Lemma analyzeHeuristics_null (settings : Settings)
  (siblings : option (list Node)) :
  heuristicChecks settings = true ->
  Heuristics.analyzeHeuristics settings siblings NullNode
  = Normal [Heuristics.analysis_error_issue (TypeError_in "children")].
Proof. intros E. simpl. rewrite E. reflexivity. Qed.

Lemma analyzeHeuristics_not_iterable (settings : Settings)
  (siblings : option (list Node)) (props : NodeProps) :
  heuristicChecks settings = true ->
  Heuristics.analyzeHeuristics settings siblings (Obj props ChildrenNotIterable)
  = Normal (Spec.pushed
              (Heuristics.node_checks siblings (Obj props ChildrenNotIterable))
            ++ [Heuristics.analysis_error_issue
                  (TypeError_not_iterable "children")])%list.
Proof.
  intros E. simpl. rewrite E. simpl.
  rewrite (returning_issues_caught _ _
             (Thrown (TypeError_not_iterable "children"))
             (Spec.pushed
                (Heuristics.node_checks siblings (Obj props ChildrenNotIterable))));
    [reflexivity|].
  rewrite quiet_then by apply heuristic_node_checks_quiet. reflexivity.
Qed.

Lemma heuristic_children_loop (settings : Settings) (before l : list Node)
  (s : list Issue) :
  (fix each (before l : list Node) : Eff unit :=
     match l with
     | [] => ret tt
     | child :: rest =>
         childIssues <-
           lift (Heuristics.analyzeHeuristics settings
                   (Some (before ++ rest)%list) child) ;;
         push_all childIssues ;;;
         each (before ++ [child])%list rest
     end) before l s
  = (Normal tt,
     (s ++ flat_map
             (fun located =>
                Spec.issues_of
                  (Heuristics.analyzeHeuristics settings
                     (Some (fst located)) (snd located)))
             (Spec.with_siblings_from before l))%list).
Proof.
  revert before s. induction l as [|child rest IH]; intros before s.
  - simpl. unfold ret. now rewrite app_nil_r.
  - destruct (analyzeHeuristics_total settings (Some (before ++ rest)%list) child)
      as [found F].
    cbn [flat_map Spec.with_siblings_from fst snd]. rewrite F.
    unfold bind at 1, lift. unfold bind at 1, push_all.
    rewrite IH. simpl. now rewrite app_assoc.
Qed.

Lemma analyzeHeuristics_array (settings : Settings)
  (siblings : option (list Node)) (props : NodeProps) (l : list Node) :
  heuristicChecks settings = true ->
  Heuristics.analyzeHeuristics settings siblings (Obj props (ChildrenArray l))
  = Normal (Spec.pushed
              (Heuristics.node_checks siblings (Obj props (ChildrenArray l)))
            ++ flat_map
                 (fun located =>
                    Spec.issues_of
                      (Heuristics.analyzeHeuristics settings
                         (Some (fst located)) (snd located)))
                 (Spec.with_siblings l))%list.
Proof.
  intros E. simpl. rewrite E. simpl.
  rewrite (returning_issues_caught _ _ (Normal tt)
             (Spec.pushed
                (Heuristics.node_checks siblings (Obj props (ChildrenArray l)))
              ++ flat_map
                   (fun located =>
                      Spec.issues_of
                        (Heuristics.analyzeHeuristics settings
                           (Some (fst located)) (snd located)))
                   (Spec.with_siblings l))%list);
    [reflexivity|].
  rewrite quiet_then by apply heuristic_node_checks_quiet.
  apply heuristic_children_loop.
Qed.

End HeuristicFailures.

(** Every child is visited once, in the order of the array. *)
Lemma with_siblings_children (before l : list Node) :
  map snd (Spec.with_siblings_from before l) = l.
Proof.
  revert before. induction l as [|child rest IH]; intros before; simpl;
    [reflexivity | now rewrite IH].
Qed.

(** C8 (as the code has it).  analyzeAccessibility and analyzeHeuristics
    never propagate a failure.  A failure that reaches the handler of the
    function itself (a null entry among the children, children that cannot
    be iterated) becomes exactly one error-severity analysis-error issue
    carrying the message, appended to the issues collected so far, and the
    other children are still analysed, each contributing its own issues in
    order.  A failure inside one of the checks of a node, such as a null
    entry in [fills], is swallowed by that check and leaves no issue. *)
Theorem analysis_failures_are_contained `{JsRuntime} (settings : Settings)
  (parents : list NodeProps) (siblings : option (list Node))
  (props : NodeProps) (l : list Node)
  (broken : NodeProps) (more : list Paint) (s : list Issue) :
  accessibilityChecks settings = true ->
  heuristicChecks settings = true ->
  fills broken = FillsArray (PaintNull :: more) ->
  (forall node, exists found,
      Accessibility.analyzeAccessibility settings parents node = Normal found)
  /\ (forall node, exists found,
        Heuristics.analyzeHeuristics settings siblings node = Normal found)
  /\ Accessibility.analyzeAccessibility settings parents NullNode
     = Normal [Accessibility.analysis_error_issue (TypeError_in "fills")]
  /\ Heuristics.analyzeHeuristics settings siblings NullNode
     = Normal [Heuristics.analysis_error_issue (TypeError_in "children")]
  /\ Accessibility.analyzeAccessibility settings parents
       (Obj props ChildrenNotIterable)
     = Normal (Spec.pushed (Accessibility.node_checks props parents)
               ++ [Accessibility.analysis_error_issue
                     (TypeError_not_iterable "children")])%list
  /\ Heuristics.analyzeHeuristics settings siblings
       (Obj props ChildrenNotIterable)
     = Normal (Spec.pushed
                 (Heuristics.node_checks siblings (Obj props ChildrenNotIterable))
               ++ [Heuristics.analysis_error_issue
                     (TypeError_not_iterable "children")])%list
  /\ Accessibility.analyzeAccessibility settings parents
       (Obj props (ChildrenArray l))
     = Normal (Spec.pushed (Accessibility.node_checks props parents)
               ++ flat_map
                    (fun child =>
                       Spec.issues_of
                         (Accessibility.analyzeAccessibility settings
                            (props :: parents) child)) l)%list
  /\ Heuristics.analyzeHeuristics settings siblings
       (Obj props (ChildrenArray l))
     = Normal (Spec.pushed
                 (Heuristics.node_checks siblings (Obj props (ChildrenArray l)))
               ++ flat_map
                    (fun located =>
                       Spec.issues_of
                         (Heuristics.analyzeHeuristics settings
                            (Some (fst located)) (snd located)))
                    (Spec.with_siblings l))%list
  /\ Accessibility.checkTextContrast broken parents s = (Normal tt, s).
Proof.
  intros A E F.
  split; [intros node; apply analyzeAccessibility_total|].
  split; [intros node; apply analyzeHeuristics_total|].
  split; [now apply analyzeAccessibility_null|].
  split; [now apply analyzeHeuristics_null|].
  split; [now apply analyzeAccessibility_not_iterable|].
  split; [now apply analyzeHeuristics_not_iterable|].
  split; [now apply analyzeAccessibility_array|].
  split; [now apply analyzeHeuristics_array|].
  apply (checkTextContrast_swallows _ _ (PaintNull :: more) (TypeError_read "type"));
    [exact F | reflexivity].
Qed.

Lemma analysis_failures_are_contained_witness :
  accessibilityChecks Samples.all_enabled = true
  /\ heuristicChecks Samples.all_enabled = true
  /\ @Accessibility.analyzeAccessibility Samples.runtime Samples.all_enabled
       [Samples.page] NullNode
     = Normal [@Accessibility.analysis_error_issue
                 (@TypeError_in Samples.runtime "fills")]
  /\ @Heuristics.analyzeHeuristics Samples.runtime Samples.all_enabled None
       NullNode
     = Normal [@Heuristics.analysis_error_issue
                 (@TypeError_in Samples.runtime "children")]
  /\ fills Samples.broken_text = FillsArray [PaintNull]
  /\ @Accessibility.checkTextContrast Samples.runtime Samples.broken_text
       [Samples.page] []
     = (Normal tt, []).
Proof.
  split; [reflexivity|]. split; [reflexivity|].
  destruct (@analysis_failures_are_contained Samples.runtime Samples.all_enabled
              [Samples.page] None Samples.white_frame
              [NullNode; Obj (Samples.grey_text 10) ChildrenAbsent]
              Samples.broken_text [] [] eq_refl eq_refl eq_refl)
    as (_ & _ & A & B & _ & _ & _ & _ & C).
  split; [exact A|]. split; [exact B|]. split; [reflexivity | exact C].
Defined.

(** C8 (as stated) fails on malformed fill data: reading the null entry
    throws, yet the analysis of the text node returns no issue at all. *)
Lemma malformed_fill_leaves_no_issue :
  @Accessibility.is_visible_solid Samples.runtime PaintNull
    = Thrown "Cannot read properties of null (reading 'type')"
  /\ @Accessibility.analyzeAccessibility Samples.runtime Samples.all_enabled
       [Samples.white_frame] (Obj Samples.broken_text ChildrenAbsent)
     = Normal [].
Proof. split; vm_compute; reflexivity. Qed.

(** ** Which scores a result carries, and the overall score *)

Lemma is_Some_iff_true {A : Type} (c : bool) (a : A) :
  is_Some (if c then Some a else None) <-> c = true.
Proof.
  destruct c; split; intros E; try reflexivity; try discriminate.
  - eauto.
  - destruct E as [? E]. discriminate E.
Qed.

(** Both audits start the sum with the accessibility score and add the
    scores that the result carries. *)
Lemma overall_sums_carried_scores `{JsRuntime}
  (parents : list NodeProps) (siblings : option (list Node)) (node : Node)
  (settings : Settings) (data : Lighthouse.LighthouseResult) :
  (exists res,
      FrameAudit.analyzeFrame parents siblings node settings = Normal res
      /\ (is_Some (heuristics res) <-> heuristicChecks settings = true)
      /\ seo res = None
      /\ performance res = None
      /\ overall res
         = Spec.rounded_mean
             (accessibility res
              :: Spec.present [heuristics res; seo res; performance res]))
  /\ (heuristics (Lighthouse.processLighthouseResults data settings) = None
      /\ (is_Some (seo (Lighthouse.processLighthouseResults data settings))
          <-> seoChecks settings = true)
      /\ (is_Some (performance (Lighthouse.processLighthouseResults data settings))
          <-> performanceChecks settings = true)
      /\ overall (Lighthouse.processLighthouseResults data settings)
         = Spec.rounded_mean
             (accessibility (Lighthouse.processLighthouseResults data settings)
              :: Spec.present
                   [heuristics (Lighthouse.processLighthouseResults data settings);
                    seo (Lighthouse.processLighthouseResults data settings);
                    performance
                      (Lighthouse.processLighthouseResults data settings)])).
Proof.
  split.
  - destruct (analyzeAccessibility_total settings parents node) as [a A].
    destruct (analyzeHeuristics_total settings siblings node) as [h E].
    unfold FrameAudit.analyzeFrame. rewrite A, E. simpl.
    destruct (heuristicChecks settings); simpl;
      (eexists; split; [reflexivity|]); simpl;
      (split; [first [exact (is_Some_iff_true true _) | exact (is_Some_iff_true false 0%Z)]|]);
      (split; [reflexivity|]); (split; [reflexivity|]);
      unfold Spec.rounded_mean; simpl; now rewrite Z.add_0_r.
  - unfold Lighthouse.processLighthouseResults.
    destruct (seoChecks settings), (performanceChecks settings); simpl;
      (split; [reflexivity|]);
      (split; [first [exact (is_Some_iff_true true _) | exact (is_Some_iff_true false 0%Z)]|]);
      (split; [first [exact (is_Some_iff_true true _) | exact (is_Some_iff_true false 0%Z)]|]);
      unfold Spec.rounded_mean; simpl; now rewrite Z.add_0_r, ?Z.add_assoc.
Qed.

Lemma carried_when_enabled {A : Type} (c : bool) (o : option A) :
  (is_Some o <-> c = true) -> (if c then o else None) = o.
Proof.
  intros [I _]. destruct c; [reflexivity|].
  destruct o as [a|]; [|reflexivity].
  assert (E : false = true) by (apply I; eauto). discriminate E.
Qed.

Lemma runLighthouseAudit_result `{JsRuntime} `{Lighthouse.Host} (url : string)
  (settings : Settings) (remote : AuditResult) :
  Lighthouse.runLighthouseAudit url settings = Normal remote ->
  exists data, remote = Lighthouse.processLighthouseResults data settings.
Proof.
  unfold Lighthouse.runLighthouseAudit, encodeURIComponent_call.
  destruct (URIError_of url); [discriminate|]. cbn [and_then].
  match goal with
  | |- context [Lighthouse.fetch ?u] =>
      destruct (Lighthouse.fetch u) as [m|ok status text json]
  end; [discriminate|].
  destruct ok; simpl; [|discriminate].
  destruct json as [payload|m]; simpl; [|discriminate].
  destruct (Lighthouse.payload_result payload) as [data|]; [|discriminate].
  intros [= <-]. now exists data.
Qed.

(** C3 (as the code has it by design).  The accessibility score is a
    mandatory field of every result.  A frame audit carries a heuristics
    score exactly when heuristic checks are enabled, and no seo or
    performance score; a website audit carries an seo and a performance
    score exactly when the respective checks are enabled, and no heuristics
    score.  With accessibility checks enabled, the overall score of a frame
    audit and of a website audit answered by the remote service is the
    arithmetic mean, rounded to the nearest integer, of the scores of
    exactly the enabled categories; so is the overall score of every website
    audit, the fallback included, when seo and performance checks are
    enabled too. *)
Theorem overall_is_mean_of_enabled_scores `{JsRuntime} `{Lighthouse.Host}
  (parents : list NodeProps) (siblings : option (list Node)) (node : Node)
  (url : string) (settings : Settings) :
  (exists res,
      FrameAudit.analyzeFrame parents siblings node settings = Normal res
      /\ (is_Some (heuristics res) <-> heuristicChecks settings = true)
      /\ seo res = None
      /\ performance res = None
      /\ (accessibilityChecks settings = true ->
          overall res = Spec.rounded_mean (Spec.enabled_scores settings res)))
  /\ (exists res,
        WebsiteAudit.analyzeWebsite url settings = Normal res
        /\ heuristics res = None
        /\ (is_Some (seo res) <-> seoChecks settings = true)
        /\ (is_Some (performance res) <-> performanceChecks settings = true)
        /\ (accessibilityChecks settings = true ->
            (forall remote,
               Lighthouse.runLighthouseAudit url settings = Normal remote ->
               overall res = Spec.rounded_mean (Spec.enabled_scores settings res))
            /\ (seoChecks settings = true ->
                performanceChecks settings = true ->
                overall res
                = Spec.rounded_mean (Spec.enabled_scores settings res)))).
Proof.
  split.
  - destruct (overall_sums_carried_scores parents siblings node settings
                {| Lighthouse.categories_accessibility := None;
                   Lighthouse.categories_seo := None;
                   Lighthouse.categories_performance := None;
                   Lighthouse.categories_best_practices := None;
                   Lighthouse.audits := [] |})
      as [(res & R & Hh & Hs & Hp & O) _].
    exists res. split; [exact R|]. split; [exact Hh|].
    split; [exact Hs|]. split; [exact Hp|].
    intros A. rewrite O. unfold Spec.enabled_scores.
    rewrite A, (carried_when_enabled _ _ Hh), Hs, Hp.
    now destruct (seoChecks settings), (performanceChecks settings).
  - unfold WebsiteAudit.analyzeWebsite.
    destruct (Lighthouse.runLighthouseAudit url settings) as [remote|m] eqn:R.
    + destruct (runLighthouseAudit_result url settings remote R) as [data ->].
      destruct (overall_sums_carried_scores parents siblings node settings data)
        as [_ (Hh & Hs & Hp & O)].
      eexists. split; [reflexivity|]. split; [exact Hh|].
      split; [exact Hs|]. split; [exact Hp|].
      assert (M : accessibilityChecks settings = true ->
                  overall (Lighthouse.processLighthouseResults data settings)
                  = Spec.rounded_mean
                      (Spec.enabled_scores settings
                         (Lighthouse.processLighthouseResults data settings))).
      { intros A. rewrite O. unfold Spec.enabled_scores.
        rewrite A, Hh, (carried_when_enabled _ _ Hs), (carried_when_enabled _ _ Hp).
        now destruct (heuristicChecks settings). }
      intros A. split; [intros _ _; exact (M A) | intros _ _; exact (M A)].
    + unfold Lighthouse.runFallbackAudit. simpl.
      eexists. split; [reflexivity|]. simpl. split; [reflexivity|].
      split; [exact (is_Some_iff_true _ _)|]. split; [exact (is_Some_iff_true _ _)|].
      intros A. split; [intros remote E; discriminate E|].
      intros S P. unfold Spec.enabled_scores. simpl. rewrite A, S, P.
      now destruct (heuristicChecks settings).
Qed.

(** C3 (as stated) fails when accessibility checks are disabled: the
    accessibility score is still reported and averaged.  The frame audit of
    a modal without a close control gives accessibility 100, heuristics 93
    and overall 97, where the mean of the enabled categories alone is 93;
    the website audit of a response without an accessibility category
    averages an accessibility score of 0 with seo 90 and performance 40. *)
Lemma disabled_accessibility_is_still_averaged :
  accessibilityChecks Samples.accessibility_disabled = false
  /\ (exists res,
        @FrameAudit.analyzeFrame Samples.runtime [Samples.page] None
          Samples.modal Samples.accessibility_disabled = Normal res
        /\ accessibility res = 100%Z
        /\ heuristics res = Some 93%Z
        /\ overall res = 97%Z
        /\ Spec.rounded_mean [93%Z] = 93%Z)
  /\ (let res :=
        Lighthouse.processLighthouseResults
          {| Lighthouse.categories_accessibility := None;
             Lighthouse.categories_seo :=
               Some {| Lighthouse.category_score := Some 0.9 |};
             Lighthouse.categories_performance :=
               Some {| Lighthouse.category_score := Some 0.4 |};
             Lighthouse.categories_best_practices := None;
             Lighthouse.audits := [] |}
          Samples.accessibility_disabled in
      accessibility res = 0%Z
      /\ seo res = Some 90%Z
      /\ performance res = Some 40%Z
      /\ overall res = 43%Z
      /\ Spec.rounded_mean [90%Z; 40%Z] = 65%Z).
Proof.
  split; [reflexivity|]. split.
  - eexists. split; [vm_compute; reflexivity|]. repeat split.
  - repeat split.
Qed.

(** ** The fallback result and the API key (lighthouse.ts, code.ts) *)

Lemma fallback_keeps_enabled (settings : Settings) :
  filter (Lighthouse.fallback_keeps settings) Lighthouse.fallback_issues
  = filter (fun i => Spec.enabled settings (type i)) Lighthouse.fallback_issues.
Proof.
  unfold Lighthouse.fallback_issues, Lighthouse.fallback_keeps. simpl.
  destruct (accessibilityChecks settings), (seoChecks settings),
    (performanceChecks settings); reflexivity.
Qed.

Lemma string_append_assoc (a b c : string) : (a ++ b) ++ c = a ++ b ++ c.
Proof.
  induction a as [|x a IH]; [reflexivity|].
  change (String x ((a ++ b) ++ c) = String x (a ++ b ++ c)). now rewrite IH.
Qed.

(** With an empty key and an address that can be encoded, the remote audit
    sends the request without a key and follows the answer to it. *)
Lemma runLighthouseAudit_without_key `{JsRuntime} `{Lighthouse.Host}
  (url : string) (settings : Settings) :
  lighthouseApiKey settings = EmptyString ->
  URIError_of url = None ->
  Lighthouse.runLighthouseAudit url settings
  = rethrow "Failed to run Lighthouse audit: "
      (match Lighthouse.fetch (Spec.keyless_request url settings) with
       | Lighthouse.FetchRejected message => Thrown message
       | Lighthouse.Response ok status statusText json =>
           if negb ok
           then Thrown ("Lighthouse API error: " ++ Z_toString status ++ " "
                        ++ statusText)
           else
             and_then json (fun data =>
             match Lighthouse.payload_result data with
             | None => Thrown (TypeError_read "accessibility")
             | Some result =>
                 Normal (Lighthouse.processLighthouseResults result settings)
             end)
       end).
Proof.
  intros K U. unfold Lighthouse.runLighthouseAudit, encodeURIComponent_call.
  rewrite U, K. cbn [and_then String.eqb].
  match goal with
  | |- context [Lighthouse.fetch ?u] =>
      replace u with (Spec.keyless_request url settings); [reflexivity|]
  end.
  unfold Spec.keyless_request, Lighthouse.PAGESPEED_API_BASE.
  destruct (accessibilityChecks settings), (seoChecks settings),
    (performanceChecks settings); simpl;
    rewrite ?string_append_assoc; reflexivity.
Qed.

(** C6 (as the code has it).  runFallbackAudit returns the fixed baseline
    whatever the settings and the key: accessibility 75 and overall 73, seo
    80 and performance 65 exactly when their checks are enabled, and the
    four fixed issues filtered to the enabled categories.  analyzeWebsite
    returns the remote result whenever the remote audit succeeds and the
    fallback whenever it fails, and it does not branch on the key: with an
    empty key it still sends the request, without a key, and returns the
    processed answer to it when the service answers, the fallback when the
    request is rejected or answered with an error status.  The path that
    branches on an empty key is auditWebsite of code.ts, which then skips
    the remote call and returns the placeholder 85 / 90 / 75. *)
Theorem fallback_is_for_remote_failure `{JsRuntime} `{Lighthouse.Host}
  (url : string) (settings : Settings) :
  Lighthouse.runFallbackAudit url settings
    = Normal {| accessibility := 75;
                heuristics := None;
                seo := if seoChecks settings then Some 80%Z else None;
                performance := if performanceChecks settings then Some 65%Z else None;
                overall := 73;
                issues := filter (fun i => Spec.enabled settings (type i))
                                 Lighthouse.fallback_issues |}
  /\ (forall remote,
        Lighthouse.runLighthouseAudit url settings = Normal remote ->
        WebsiteAudit.analyzeWebsite url settings = Normal remote)
  /\ (forall message,
        Lighthouse.runLighthouseAudit url settings = Thrown message ->
        WebsiteAudit.analyzeWebsite url settings
        = Lighthouse.runFallbackAudit url settings)
  /\ (lighthouseApiKey settings = EmptyString ->
      URIError_of url = None ->
      (forall status statusText payload data,
         Lighthouse.fetch (Spec.keyless_request url settings)
         = Lighthouse.Response true status statusText (Normal payload) ->
         Lighthouse.payload_result payload = Some data ->
         WebsiteAudit.analyzeWebsite url settings
         = Normal (Lighthouse.processLighthouseResults data settings))
      /\ (forall message,
            Lighthouse.fetch (Spec.keyless_request url settings)
            = Lighthouse.FetchRejected message ->
            WebsiteAudit.analyzeWebsite url settings
            = Lighthouse.runFallbackAudit url settings)
      /\ (forall status statusText json,
            Lighthouse.fetch (Spec.keyless_request url settings)
            = Lighthouse.Response false status statusText json ->
            WebsiteAudit.analyzeWebsite url settings
            = Lighthouse.runFallbackAudit url settings))
  /\ (lighthouseApiKey settings = EmptyString ->
      Code.auditWebsite url settings
      = Normal (Code.Basic 85 90 75
          "Basic audit complete. For more details, add a Google PageSpeed API key in settings.")).
Proof.
  split; [|split; [|split; [|split]]].
  - unfold Lighthouse.runFallbackAudit, rethrow.
    now rewrite fallback_keeps_enabled.
  - intros remote R. unfold WebsiteAudit.analyzeWebsite. now rewrite R.
  - intros message R. unfold WebsiteAudit.analyzeWebsite. now rewrite R.
  - intros K U. unfold WebsiteAudit.analyzeWebsite.
    rewrite (runLighthouseAudit_without_key url settings K U).
    split; [|split].
    + intros status statusText payload data F P. rewrite F. simpl. now rewrite P.
    + intros message F. now rewrite F.
    + intros status statusText json F. now rewrite F.
  - intros K. unfold Code.auditWebsite. rewrite K. reflexivity.
Qed.

(** With the empty key of [Samples.all_enabled], the sample host is asked
    and its answer is what analyzeWebsite returns; the offline host leads
    to the baseline. *)
Lemma fallback_is_for_remote_failure_witness :
  lighthouseApiKey Samples.all_enabled = EmptyString
  /\ @WebsiteAudit.analyzeWebsite Samples.runtime Samples.host
       "https://example.com" Samples.all_enabled
     = Normal (Lighthouse.processLighthouseResults Samples.audited_page
                 Samples.all_enabled)
  /\ @Lighthouse.runFallbackAudit "https://example.com" Samples.all_enabled
     = Normal {| accessibility := 75;
                 heuristics := None;
                 seo := Some 80%Z;
                 performance := Some 65%Z;
                 overall := 73;
                 issues := Lighthouse.fallback_issues |}
  /\ @Code.auditWebsite Samples.runtime Samples.host "https://example.com"
       Samples.all_enabled
     = Normal (Code.Basic 85 90 75
         "Basic audit complete. For more details, add a Google PageSpeed API key in settings.").
Proof.
  split; [reflexivity|].
  destruct (@fallback_is_for_remote_failure Samples.runtime Samples.host
              "https://example.com" Samples.all_enabled) as (F & _ & _ & R & B).
  destruct (R eq_refl eq_refl) as (Answered & _ & _).
  split; [exact (Answered 200%Z "OK" _ Samples.audited_page eq_refl eq_refl)|].
  split; [exact F | exact (B eq_refl)].
Defined.

(** C6 (as stated) fails.  With an empty API key analyzeWebsite still asks
    the remote service and returns its scores (50, 90, 40, overall 60), not
    the baseline; auditWebsite returns 85 / 90 / 75; and with accessibility
    checks disabled the fallback still carries accessibility 75 and overall
    73. *)
Lemma empty_key_does_not_select_the_baseline :
  lighthouseApiKey Samples.all_enabled = EmptyString
  /\ (exists res,
        @WebsiteAudit.analyzeWebsite Samples.runtime Samples.host
          "https://example.com" Samples.all_enabled = Normal res
        /\ accessibility res = 50%Z
        /\ seo res = Some 90%Z
        /\ performance res = Some 40%Z
        /\ overall res = 60%Z)
  /\ @Code.auditWebsite Samples.runtime Samples.host "https://example.com"
       Samples.all_enabled
     = Normal (Code.Basic 85 90 75
         "Basic audit complete. For more details, add a Google PageSpeed API key in settings.")
  /\ (exists res,
        @Lighthouse.runFallbackAudit "https://example.com"
          Samples.accessibility_disabled = Normal res
        /\ accessibilityChecks Samples.accessibility_disabled = false
        /\ accessibility res = 75%Z
        /\ overall res = 73%Z).
Proof.
  split; [reflexivity|]. split; [|split; [reflexivity|]].
  - eexists. split; [vm_compute; reflexivity|]. repeat split.
  - eexists. split; [reflexivity|]. repeat split.
Qed.

(* ===================================================================== *)
(** * Further properties *)
(* ===================================================================== *)

(** ** Luminance and contrast ratio *)

Lemma Math_max_min_cases (a b : Q) :
  (a <= b /\ Math_max a b = b /\ Math_min a b = a)
  \/ (b < a /\ Math_max a b = a /\ Math_min a b = b).
Proof.
  unfold Math_max, Math_min. destruct (Qle_bool a b) eqn:E.
  - left. apply Qle_bool_iff in E. auto.
  - right. split; [|auto]. apply Qltb_lt. unfold Qltb. now rewrite E.
Qed.

Lemma ratio_of_equal_luminances (a b : Q) :
  a == b -> (b + 0.05) / (a + 0.05) == (a + 0.05) / (b + 0.05).
Proof. intros E. rewrite E. reflexivity. Qed.

(** X1.  The contrast ratio does not depend on the order of the two
    luminances. *)
Theorem contrastRatio_is_symmetric (lum1 lum2 : Q) :
  Utils.contrastRatio lum1 lum2 == Utils.contrastRatio lum2 lum1.
Proof.
  unfold Utils.contrastRatio.
  destruct (Math_max_min_cases lum1 lum2) as [(L & -> & ->) | (L & -> & ->)];
    destruct (Math_max_min_cases lum2 lum1) as [(R & -> & ->) | (R & -> & ->)];
    try reflexivity.
  - apply ratio_of_equal_luminances. lra.
  - exfalso. lra.
Qed.

(** X2.  For luminances between 0 and 1 the contrast ratio lies between 1
    and 21, and it is 1 for two equal luminances. *)
Theorem contrastRatio_range (lum1 lum2 : Q) :
  0 <= lum1 -> lum1 <= 1 -> 0 <= lum2 -> lum2 <= 1 ->
  1 <= Utils.contrastRatio lum1 lum2
  /\ Utils.contrastRatio lum1 lum2 <= 21
  /\ Utils.contrastRatio lum1 lum1 == 1.
Proof.
  intros A1 A2 B1 B2. unfold Utils.contrastRatio. repeat split.
  - destruct (Math_max_min_cases lum1 lum2) as [(L & -> & ->) | (L & -> & ->)];
      apply Qle_shift_div_l; lra.
  - destruct (Math_max_min_cases lum1 lum2) as [(L & -> & ->) | (L & -> & ->)];
      apply Qle_shift_div_r; lra.
  - destruct (Math_max_min_cases lum1 lum1) as [(L & -> & ->) | (L & -> & ->)];
      field; lra.
Qed.

Lemma contrastRatio_range_witness :
  1 <= Utils.contrastRatio 0 1
  /\ Utils.contrastRatio 0 1 <= 21
  /\ Utils.contrastRatio 0 0 == 1.
Proof.
  apply (contrastRatio_range 0 1); vm_compute; discriminate.
Defined.

(** The large-text rule and the comparison of [checkTextContrast]. *)
Lemma report_contrast_cases `{JsRuntime} (node : NodeProps) (ratio : Q)
  (s : list Issue) :
  (ratio < Accessibility.requiredRatio node ->
   Accessibility.report_contrast node ratio s
   = (Normal tt,
      (s ++ [Accessibility.low_contrast_issue ratio
               (Accessibility.requiredRatio node)])%list))
  /\ (Accessibility.requiredRatio node <= ratio ->
      Accessibility.report_contrast node ratio s = (Normal tt, s)).
Proof.
  unfold Accessibility.report_contrast, when. split; intros E.
  - apply Qltb_lt in E. now rewrite E.
  - apply Qltb_ge in E. now rewrite E.
Qed.

Lemma checkTextContrast_reports `{JsRuntime} (node : NodeProps)
  (parents : list NodeProps) (textColor : Color) (s : list Issue) :
  node_type node = TEXT ->
  Accessibility.getNodeColor node = Some textColor ->
  Accessibility.checkTextContrast node parents s
  = Accessibility.report_contrast node
      (Accessibility.calculateContrastRatio textColor
         (Accessibility.background parents)) s.
Proof.
  intros T C. unfold Accessibility.checkTextContrast. rewrite T, C. simpl.
  unfold try_catch, Accessibility.report_contrast, when.
  destruct (Qltb _ _); reflexivity.
Qed.

(** X4.  For a text node with a visible solid fill, [checkTextContrast]
    counts the text as large when its size is at least 18, or at least 14
    with a numeric weight of at least 700; it requires a ratio of 3 for
    large text and 4.5 otherwise, and pushes one low-contrast issue exactly
    when the ratio against the resolved background is below that. *)
Theorem accessibility_contrast_policy `{JsRuntime} (node : NodeProps)
  (parents : list NodeProps) (textColor : Color) (s : list Issue) :
  node_type node = TEXT ->
  Accessibility.getNodeColor node = Some textColor ->
  let ratio :=
    Accessibility.calculateContrastRatio textColor (Accessibility.background parents) in
  let size := Accessibility.fontSize_or_14 node in
  (Accessibility.isLargeText node = true <->
   18 <= size \/ (14 <= size /\ exists w, fontWeight node = Num w /\ 700 <= w))
  /\ Accessibility.requiredRatio node
     = (if Accessibility.isLargeText node then 3 else 4.5)
  /\ (ratio < Accessibility.requiredRatio node ->
      Accessibility.checkTextContrast node parents s
      = (Normal tt,
         (s ++ [Accessibility.low_contrast_issue ratio
                  (Accessibility.requiredRatio node)])%list))
  /\ (Accessibility.requiredRatio node <= ratio ->
      Accessibility.checkTextContrast node parents s = (Normal tt, s)).
Proof.
  intros T C ratio size.
  destruct (requiredRatio_policy node) as [L R].
  split; [exact L|]. split; [exact R|].
  rewrite (checkTextContrast_reports node parents textColor s T C).
  apply report_contrast_cases.
Qed.

Lemma accessibility_contrast_policy_witness :
  Accessibility.requiredRatio (Samples.grey_text 24) = 3
  /\ @Accessibility.checkTextContrast Samples.runtime (Samples.grey_text 24)
       [Samples.white_frame; Samples.page] []
     = (Normal tt, []).
Proof.
  destruct (@accessibility_contrast_policy Samples.runtime (Samples.grey_text 24)
              [Samples.white_frame; Samples.page] Samples.grey []
              eq_refl eq_refl) as (_ & R & _ & N).
  split; [exact R|]. apply N. vm_compute. discriminate.
Defined.

(** X5.  A text whose colour is the colour of its resolved background has
    ratio 1 and is reported, whatever its size and weight. *)
Theorem text_in_background_colour_is_reported `{JsRuntime} (node : NodeProps)
  (parents : list NodeProps) (c : Color) (s : list Issue) :
  node_type node = TEXT ->
  Accessibility.getNodeColor node = Some c ->
  Accessibility.background parents = c ->
  0 <= Accessibility.calculateLuminance c ->
  Accessibility.calculateContrastRatio c c == 1
  /\ Accessibility.checkTextContrast node parents s
     = (Normal tt,
        (s ++ [Accessibility.low_contrast_issue
                 (Accessibility.calculateContrastRatio c c)
                 (Accessibility.requiredRatio node)])%list).
Proof.
  intros T C B L.
  assert (One : Accessibility.calculateContrastRatio c c == 1).
  { unfold Accessibility.calculateContrastRatio.
    destruct (Math_max_min_cases (Accessibility.calculateLuminance c)
                (Accessibility.calculateLuminance c))
      as [(_ & -> & ->) | (_ & -> & ->)]; field; lra. }
  split; [exact One|].
  rewrite (checkTextContrast_reports node parents c s T C), B.
  apply report_contrast_cases.
  rewrite One. unfold Accessibility.requiredRatio.
  destruct (Accessibility.isLargeText node); reflexivity.
Qed.

Lemma text_in_background_colour_is_reported_witness :
  @Accessibility.checkTextContrast Samples.runtime
    (Samples.text "Heading" (Num 24) (Samples.solid Accessibility.white))
    [Samples.white_frame; Samples.page] []
  = (Normal tt,
     [@Accessibility.low_contrast_issue Samples.runtime
        (@Accessibility.calculateContrastRatio Samples.runtime
           Accessibility.white Accessibility.white)
        (Accessibility.requiredRatio
           (Samples.text "Heading" (Num 24) (Samples.solid Accessibility.white)))]).
Proof.
  apply (@text_in_background_colour_is_reported Samples.runtime
           (Samples.text "Heading" (Num 24) (Samples.solid Accessibility.white))
           [Samples.white_frame; Samples.page] Accessibility.white []
           eq_refl eq_refl eq_refl).
  vm_compute. discriminate.
Defined.

(** ** What the analyses of a frame return *)

Lemma keeps_ret {A : Type} (P : Issue -> Prop) (a : A) : Notions.keeps P (ret a).
Proof. intros s F. exact F. Qed.

Lemma keeps_throw {A : Type} (P : Issue -> Prop) (m : string) :
  Notions.keeps P (@throw A m).
Proof. intros s F. exact F. Qed.

Lemma keeps_lift {A : Type} (P : Issue -> Prop) (c : Completion A) :
  Notions.keeps P (lift c).
Proof. intros s F. exact F. Qed.

Lemma keeps_push (P : Issue -> Prop) (i : Issue) : P i -> Notions.keeps P (push i).
Proof.
  intros Pi s F. simpl. apply Forall_app. split; [exact F|].
  constructor; [exact Pi | constructor].
Qed.

Lemma keeps_bind {A B : Type} (P : Issue -> Prop) (c : Eff A) (k : A -> Eff B) :
  Notions.keeps P c -> (forall a, Notions.keeps P (k a)) ->
  Notions.keeps P (bind c k).
Proof.
  intros C K s F. unfold bind. specialize (C s F).
  destruct (c s) as [[a|m] s']; simpl in *; [now apply K | exact C].
Qed.

Lemma keeps_try_catch {A : Type} (P : Issue -> Prop) (body : Eff A)
  (handler : string -> Eff A) :
  Notions.keeps P body -> (forall m, Notions.keeps P (handler m)) ->
  Notions.keeps P (try_catch body handler).
Proof.
  intros C K s F. unfold try_catch. specialize (C s F).
  destruct (body s) as [[a|m] s']; simpl in *; [exact C | now apply K].
Qed.

Lemma keeps_when (P : Issue -> Prop) (c : bool) (body : Eff unit) :
  Notions.keeps P body -> Notions.keeps P (when c body).
Proof. intros B. destruct c; [exact B | apply keeps_ret]. Qed.

Ltac keeps_steps :=
  repeat first
    [ apply keeps_ret | apply keeps_throw | apply keeps_lift | apply keeps_when
    | apply keeps_bind | apply keeps_try_catch
    | apply keeps_push;
      first [ reflexivity | split; [reflexivity | discriminate] ]
    | intro | progress cbv zeta ].

(** A function that catches at its top level returns issues with the
    property of what its body pushes and of the issue made by its handler. *)
Lemma returning_issues_keeps (P : Issue -> Prop) (body : Eff unit)
  (err : string -> Issue) :
  Notions.keeps P body -> (forall m, P (err m)) ->
  Forall P (Spec.issues_of
              (returning_issues (try_catch body (fun m => push (err m))))).
Proof.
  intros B E. specialize (B [] (Forall_nil P)).
  destruct (body []) as [c d] eqn:R.
  rewrite (returning_issues_caught body err c d R). simpl in *.
  destruct c; [exact B|]. apply Forall_app. split; [exact B|].
  constructor; [apply E | constructor].
Qed.

Section NodeInduction.
Variable P : Node -> Prop.
Hypothesis P_null : P NullNode.
Hypothesis P_absent : forall props, P (Obj props ChildrenAbsent).
Hypothesis P_not_iterable : forall props, P (Obj props ChildrenNotIterable).
Hypothesis P_array :
  forall props l, Forall P l -> P (Obj props (ChildrenArray l)).

(** Induction over a document tree. *)
Lemma Node_induction (n : Node) : P n.
Proof.
  revert n. fix IH 1. intros [|props [|l|]].
  - apply P_null.
  - apply P_absent.
  - apply P_array. induction l as [|child rest IHl]; constructor;
      [apply IH | exact IHl].
  - apply P_not_iterable.
Qed.

End NodeInduction.

Section AnalysisFindings.
Context `{JsRuntime}.

Lemma accessibility_node_checks_keep (props : NodeProps) (parents : list NodeProps) :
  Notions.keeps Notions.accessibility_finding
    (Accessibility.node_checks props parents).
Proof.
  unfold Accessibility.node_checks, Accessibility.checkTextContrast,
    Accessibility.checkTextSize, Accessibility.checkTouchTargetSize,
    Accessibility.report_contrast.
  destruct (negb (NodeType_eqb (node_type props) TEXT)),
    (Accessibility.getNodeColor props), (fontSize props),
    (width props), (height props); keeps_steps.
Qed.

Lemma accessibility_loop_keeps (settings : Settings) (parents : list NodeProps)
  (l : list Node) :
  Forall (fun child =>
            forall parents,
              Forall Notions.accessibility_finding
                (Spec.issues_of
                   (Accessibility.analyzeAccessibility settings parents child))) l ->
  Notions.keeps Notions.accessibility_finding
    ((fix each (l : list Node) : Eff unit :=
        match l with
        | [] => ret tt
        | child :: rest =>
            childIssues <-
              lift (Accessibility.analyzeAccessibility settings parents child) ;;
            push_all childIssues ;;;
            each rest
        end) l).
Proof.
  induction 1 as [|child rest C _ IH]; [apply keeps_ret|].
  intros s F. specialize (C parents). unfold bind at 1, lift.
  destruct (Accessibility.analyzeAccessibility settings parents child)
    as [found|m]; simpl in *; [|exact F].
  apply IH. apply Forall_app. now split.
Qed.

Lemma accessibility_error_is_finding (m : string) :
  Notions.accessibility_finding (Accessibility.analysis_error_issue m).
Proof. split; [reflexivity | discriminate]. Qed.

Lemma analyzeAccessibility_findings (settings : Settings) (node : Node) :
  forall parents,
    Forall Notions.accessibility_finding
      (Spec.issues_of (Accessibility.analyzeAccessibility settings parents node)).
Proof.
  induction node as [|props|props|props l IH] using Node_induction;
    intros parents; simpl;
    (destruct (accessibilityChecks settings); simpl; [|solve [constructor]]).
  - constructor; [apply accessibility_error_is_finding | constructor].
  - apply returning_issues_keeps; [|apply accessibility_error_is_finding].
    apply keeps_bind; [apply accessibility_node_checks_keep | intros; apply keeps_ret].
  - apply returning_issues_keeps; [|apply accessibility_error_is_finding].
    apply keeps_bind; [apply accessibility_node_checks_keep | intros; apply keeps_throw].
  - apply returning_issues_keeps; [|apply accessibility_error_is_finding].
    apply keeps_bind; [apply accessibility_node_checks_keep | intros _].
    now apply accessibility_loop_keeps.
Qed.

Lemma heuristic_node_checks_keep (siblings : option (list Node)) (node : Node) :
  Notions.keeps Notions.heuristic_finding (Heuristics.node_checks siblings node).
Proof.
  unfold Heuristics.node_checks, Heuristics.checkConsistency,
    Heuristics.checkVisibilityOfSystemStatus,
    Heuristics.checkUserControlAndFreedom, Heuristics.checkErrorPrevention,
    Heuristics.checkRecognitionOverRecall,
    Heuristics.checkAestheticAndMinimalistDesign.
  destruct node as [|props [|l|]]; keeps_steps.
Qed.

Lemma heuristic_loop_keeps (settings : Settings) (l : list Node) :
  Forall (fun child =>
            forall siblings,
              Forall Notions.heuristic_finding
                (Spec.issues_of
                   (Heuristics.analyzeHeuristics settings siblings child))) l ->
  forall before,
  Notions.keeps Notions.heuristic_finding
    ((fix each (before l : list Node) : Eff unit :=
        match l with
        | [] => ret tt
        | child :: rest =>
            childIssues <-
              lift (Heuristics.analyzeHeuristics settings
                      (Some (before ++ rest)%list) child) ;;
            push_all childIssues ;;;
            each (before ++ [child])%list rest
        end) before l).
Proof.
  induction 1 as [|child rest C _ IH]; intros before; [apply keeps_ret|].
  intros s F. specialize (C (Some (before ++ rest)%list)). unfold bind at 1, lift.
  destruct (Heuristics.analyzeHeuristics settings (Some (before ++ rest)%list) child)
    as [found|m]; simpl in *; [|exact F].
  apply IH. apply Forall_app. now split.
Qed.

Lemma analyzeHeuristics_findings (settings : Settings) (node : Node) :
  forall siblings,
    Forall Notions.heuristic_finding
      (Spec.issues_of (Heuristics.analyzeHeuristics settings siblings node)).
Proof.
  induction node as [|props|props|props l IH] using Node_induction;
    intros siblings; cbn [Heuristics.analyzeHeuristics];
    (destruct (heuristicChecks settings); cbn [negb]; [|solve [constructor]]);
    (apply returning_issues_keeps; [|intros m; reflexivity]);
    (apply keeps_bind; [apply heuristic_node_checks_keep | intros _]).
  - apply keeps_throw.
  - apply keeps_ret.
  - apply keeps_throw.
  - now apply heuristic_loop_keeps.
Qed.

(** X6.  Whatever the tree, analyzeAccessibility returns only accessibility
    issues of severity warning or error, and analyzeHeuristics returns only
    heuristic issues. *)
Theorem analyses_stay_in_their_category (settings : Settings)
  (parents : list NodeProps) (siblings : option (list Node)) (node : Node) :
  Forall (fun i => type i = Ty_accessibility /\ severity i <> Sev_info)
    (Spec.issues_of (Accessibility.analyzeAccessibility settings parents node))
  /\ Forall (fun i => type i = Ty_heuristic)
       (Spec.issues_of (Heuristics.analyzeHeuristics settings siblings node)).
Proof.
  split; [apply analyzeAccessibility_findings | apply analyzeHeuristics_findings].
Qed.

End AnalysisFindings.

(** ** The result of a frame audit (frame audit module) *)

Lemma deductions_app (category : IssueType) (a b : list Issue) :
  Spec.deductions category (a ++ b)
  = (Spec.deductions category a + Spec.deductions category b)%Z.
Proof. induction a as [|i a IH]; simpl; [reflexivity | rewrite IH; lia]. Qed.

Lemma deductions_foreign (category t : IssueType) (l : list Issue) :
  Forall (fun i => type i = t) l -> t <> category ->
  Spec.deductions category l = 0%Z.
Proof.
  intros F N. induction F as [|i l T _ IH]; simpl; [reflexivity|].
  rewrite IH. unfold Spec.in_category. rewrite T.
  destruct t, category; simpl; try reflexivity; exfalso; now apply N.
Qed.

Lemma analyzeAccessibility_disabled `{JsRuntime} (settings : Settings)
  (parents : list NodeProps) (node : Node) :
  accessibilityChecks settings = false ->
  Accessibility.analyzeAccessibility settings parents node = Normal [].
Proof. intros D. destruct node; simpl; rewrite D; reflexivity. Qed.

Lemma analyzeHeuristics_disabled `{JsRuntime} (settings : Settings)
  (siblings : option (list Node)) (node : Node) :
  heuristicChecks settings = false ->
  Heuristics.analyzeHeuristics settings siblings node = Normal [].
Proof. intros D. destruct node; simpl; rewrite D; reflexivity. Qed.

(** X7.  analyzeFrame scores the two lists apart and returns them joined;
    the scores are nevertheless those of the returned issue list, because
    each analysis stays in its category, and every returned issue belongs to
    an enabled category. *)
Theorem frame_scores_match_the_issue_list `{JsRuntime}
  (parents : list NodeProps) (siblings : option (list Node)) (node : Node)
  (settings : Settings) :
  exists res,
    FrameAudit.analyzeFrame parents siblings node settings = Normal res
    /\ accessibility res = Spec.scoreCategory (issues res) Ty_accessibility
    /\ heuristics res
       = (if heuristicChecks settings
          then Some (Spec.scoreCategory (issues res) Ty_heuristic) else None)
    /\ Forall (fun i => (type i = Ty_accessibility \/ type i = Ty_heuristic)
                        /\ Spec.enabled settings (type i) = true)
         (issues res).
Proof.
  pose proof (analyzeAccessibility_findings settings node parents) as FA.
  pose proof (analyzeHeuristics_findings settings node siblings) as FH.
  pose proof (analyzeAccessibility_disabled settings parents node) as DA.
  pose proof (analyzeHeuristics_disabled settings siblings node) as DH.
  destruct (analyzeAccessibility_total settings parents node) as [a A].
  destruct (analyzeHeuristics_total settings siblings node) as [h E].
  rewrite A in FA, DA. rewrite E in FH, DH. simpl in FA, FH.
  assert (TA : Forall (fun i => type i = Ty_accessibility) a)
    by (eapply Forall_impl; [|exact FA]; now intros i [T _]).
  unfold FrameAudit.analyzeFrame. rewrite A, E. simpl.
  assert (SA : FrameAudit.calculateAccessibilityScore a
               = Spec.scoreCategory (a ++ h) Ty_accessibility).
  { unfold FrameAudit.calculateAccessibilityScore, Spec.scoreCategory.
    rewrite fold_deduct_accessibility, deductions_app.
    rewrite (deductions_foreign Ty_accessibility Ty_heuristic h FH) by discriminate.
    rewrite Z.add_0_r. reflexivity. }
  assert (SH : FrameAudit.calculateHeuristicsScore h
               = Spec.scoreCategory (a ++ h) Ty_heuristic).
  { unfold FrameAudit.calculateHeuristicsScore, Spec.scoreCategory.
    rewrite fold_deduct_heuristic, deductions_app.
    rewrite (deductions_foreign Ty_heuristic Ty_accessibility a TA) by discriminate.
    reflexivity. }
  assert (EN : Forall (fun i => (type i = Ty_accessibility \/ type i = Ty_heuristic)
                                /\ Spec.enabled settings (type i) = true) (a ++ h)).
  { apply Forall_app. split.
    - destruct (accessibilityChecks settings) eqn:C.
      + eapply Forall_impl; [|exact TA]. intros i T. rewrite T. simpl. auto.
      + injection (DA eq_refl) as ->. constructor.
    - destruct (heuristicChecks settings) eqn:C.
      + eapply Forall_impl; [|exact FH]. intros i T. unfold Notions.heuristic_finding in T.
        rewrite T. simpl. auto.
      + injection (DH eq_refl) as ->. constructor. }
  destruct (heuristicChecks settings); simpl;
    (eexists; split; [reflexivity|]); simpl;
    (split; [exact SA|]); (split; [|exact EN]); [now rewrite SH | reflexivity].
Qed.

Lemma Math_round_ratio (n d : Z) :
  (0 < d)%Z -> Math_round (inject_Z n / inject_Z d) = ((2 * n + d) / (2 * d))%Z.
Proof.
  intros D. destruct d as [|p|p]; try lia. unfold Math_round.
  assert (E : inject_Z n / inject_Z (Z.pos p) + (1 # 2)
              == (2 * n + Z.pos p) # (2 * p)).
  { rewrite <- Qmake_Qdiv. unfold Qeq, Qplus. cbn [Qnum Qden]. lia. }
  rewrite (Qfloor_comp _ _ E). reflexivity.
Qed.

Lemma mean_of_one (a : Z) : ((2 * a + 1) / (2 * 1))%Z = a.
Proof.
  symmetry. apply Z.div_unique with (r := 1%Z); lia.
Qed.

Lemma mean_of_two_between (a b : Z) :
  (Z.min a b <= (2 * (a + b) + (1 + 1)) / (2 * (1 + 1)) <= Z.max a b)%Z.
Proof.
  split.
  - apply Z.div_le_lower_bound; lia.
  - apply Z.lt_succ_r. apply Z.div_lt_upper_bound; lia.
Qed.

Lemma mean_of_three_between (a b c : Z) :
  (Z.min a (Z.min b c) <= (2 * (a + b + c) + (1 + 1 + 1)) / (2 * (1 + 1 + 1))
   <= Z.max a (Z.max b c))%Z.
Proof.
  split.
  - apply Z.div_le_lower_bound; lia.
  - apply Z.lt_succ_r. apply Z.div_lt_upper_bound; lia.
Qed.

Lemma calculateAccessibilityScore_range (l : list Issue) :
  (0 <= FrameAudit.calculateAccessibilityScore l <= 100)%Z.
Proof. unfold FrameAudit.calculateAccessibilityScore. lia. Qed.

Lemma calculateHeuristicsScore_range (l : list Issue) :
  (0 <= FrameAudit.calculateHeuristicsScore l <= 100)%Z.
Proof. unfold FrameAudit.calculateHeuristicsScore. lia. Qed.

(** X8.  The overall score of a frame audit lies between the smaller and the
    larger of the scores it carries, and hence between 0 and 100; with
    heuristic checks disabled it is the accessibility score itself. *)
Theorem frame_overall_lies_between_its_scores `{JsRuntime}
  (parents : list NodeProps) (siblings : option (list Node)) (node : Node)
  (settings : Settings) :
  exists res,
    FrameAudit.analyzeFrame parents siblings node settings = Normal res
    /\ (Z.min (accessibility res) (default (accessibility res) (heuristics res))
        <= overall res
        <= Z.max (accessibility res) (default (accessibility res) (heuristics res)))%Z
    /\ (0 <= overall res <= 100)%Z
    /\ (heuristicChecks settings = false -> overall res = accessibility res).
Proof.
  destruct (analyzeAccessibility_total settings parents node) as [a A].
  destruct (analyzeHeuristics_total settings siblings node) as [h E].
  unfold FrameAudit.analyzeFrame. rewrite A, E. simpl.
  pose proof (calculateAccessibilityScore_range a) as RA.
  pose proof (calculateHeuristicsScore_range h) as RH.
  destruct (heuristicChecks settings); simpl;
    (eexists; split; [reflexivity|]); simpl;
    rewrite Math_round_ratio by lia.
  - pose proof (mean_of_two_between (FrameAudit.calculateAccessibilityScore a)
                  (FrameAudit.calculateHeuristicsScore h)) as M.
    repeat split; try lia; discriminate.
  - rewrite mean_of_one. repeat split; lia.
Qed.

(** ** The result of a website audit (lighthouse.ts, website audit module) *)

Lemma score_or_0_unit (category : option Lighthouse.Category) :
  Notions.unit_score category -> 0 <= Lighthouse.score_or_0 category <= 1.
Proof.
  intros U. unfold Lighthouse.score_or_0.
  destruct category as [c|]; [|split; discriminate].
  destruct (Lighthouse.category_score c) as [s|] eqn:S; [|split; discriminate].
  destruct (Qeq_bool s 0); [split; discriminate|]. exact (U c s eq_refl S).
Qed.

Lemma Math_round_percent (q : Q) :
  0 <= q <= 1 -> (0 <= Math_round (q * 100) <= 100)%Z.
Proof.
  intros [L U]. unfold Math_round. split.
  - apply (Qfloor_resp_le 0). lra.
  - apply (Qfloor_resp_le _ (201 # 2)). lra.
Qed.

(** X9.  When the category scores of the remote response are fractions
    between 0 and 1, every score of processLighthouseResults and its overall
    score lie between 0 and 100. *)
Theorem website_scores_are_percentages (data : Lighthouse.LighthouseResult)
  (settings : Settings) :
  Notions.unit_score (Lighthouse.categories_accessibility data) ->
  Notions.unit_score (Lighthouse.categories_seo data) ->
  Notions.unit_score (Lighthouse.categories_performance data) ->
  let res := Lighthouse.processLighthouseResults data settings in
  (0 <= accessibility res <= 100)%Z
  /\ (0 <= default 0%Z (seo res) <= 100)%Z
  /\ (0 <= default 0%Z (performance res) <= 100)%Z
  /\ (0 <= overall res <= 100)%Z.
Proof.
  intros UA US UP.
  pose proof (Math_round_percent _ (score_or_0_unit _ UA)) as RA.
  pose proof (Math_round_percent _ (score_or_0_unit _ US)) as RS.
  pose proof (Math_round_percent _ (score_or_0_unit _ UP)) as RP.
  unfold Lighthouse.processLighthouseResults.
  destruct (seoChecks settings), (performanceChecks settings); simpl;
    rewrite Math_round_ratio by lia.
  - pose proof (mean_of_three_between
                  (Math_round (Lighthouse.score_or_0
                                 (Lighthouse.categories_accessibility data) * 100))
                  (Math_round (Lighthouse.score_or_0
                                 (Lighthouse.categories_seo data) * 100))
                  (Math_round (Lighthouse.score_or_0
                                 (Lighthouse.categories_performance data) * 100))) as M.
    repeat split; lia.
  - pose proof (mean_of_two_between
                  (Math_round (Lighthouse.score_or_0
                                 (Lighthouse.categories_accessibility data) * 100))
                  (Math_round (Lighthouse.score_or_0
                                 (Lighthouse.categories_seo data) * 100))) as M.
    repeat split; lia.
  - pose proof (mean_of_two_between
                  (Math_round (Lighthouse.score_or_0
                                 (Lighthouse.categories_accessibility data) * 100))
                  (Math_round (Lighthouse.score_or_0
                                 (Lighthouse.categories_performance data) * 100))) as M.
    repeat split; lia.
  - rewrite mean_of_one. repeat split; lia.
Qed.

Lemma sample_scores_are_fractions :
  Notions.unit_score (Lighthouse.categories_accessibility Samples.audited_page)
  /\ Notions.unit_score (Lighthouse.categories_seo Samples.audited_page)
  /\ Notions.unit_score (Lighthouse.categories_performance Samples.audited_page).
Proof.
  split; [|split]; intros c s [= <-]; simpl; intros [= <-]; split; discriminate.
Qed.

Lemma website_scores_are_percentages_witness :
  let res := Lighthouse.processLighthouseResults Samples.audited_page
               Samples.all_enabled in
  (0 <= accessibility res <= 100)%Z
  /\ (0 <= default 0%Z (seo res) <= 100)%Z
  /\ (0 <= default 0%Z (performance res) <= 100)%Z
  /\ (0 <= overall res <= 100)%Z.
Proof.
  apply (website_scores_are_percentages Samples.audited_page Samples.all_enabled);
    apply sample_scores_are_fractions.
Defined.

Lemma audit_issue_enabled (settings : Settings) (entry : string * Lighthouse.Audit)
  (i : Issue) :
  Lighthouse.audit_issue settings entry = Some i ->
  type i <> Ty_heuristic /\ Spec.enabled settings (type i) = true.
Proof.
  destruct entry as [id audit]. unfold Lighthouse.audit_issue.
  destruct (match Lighthouse.score audit with
            | Some s => Qeq_bool s 1
            | None => true
            end); [discriminate|].
  pose proof (issue_type_of_not_heuristic id) as N.
  destruct (Lighthouse.check_disabled settings (Lighthouse.issue_type_of id)) eqn:D;
    [discriminate|].
  intros [= <-]. simpl. split; [exact N|].
  rewrite (check_disabled_enabled settings _ N) in D.
  now destruct (Spec.enabled settings (Lighthouse.issue_type_of id)).
Qed.

Lemma processLighthouseResults_enabled (data : Lighthouse.LighthouseResult)
  (settings : Settings) :
  Forall (fun i => type i <> Ty_heuristic /\ Spec.enabled settings (type i) = true)
    (issues (Lighthouse.processLighthouseResults data settings)).
Proof.
  unfold Lighthouse.processLighthouseResults.
  destruct (seoChecks settings) eqn:S, (performanceChecks settings) eqn:P; simpl;
    (induction (Lighthouse.audits data) as [|entry rest IH]; simpl; [constructor|];
     apply Forall_app; split; [|exact IH];
     destruct (Lighthouse.audit_issue settings entry) as [i|] eqn:E; simpl;
     [constructor; [exact (audit_issue_enabled settings entry i E) | constructor]
     | constructor]).
Qed.

Lemma fallback_issues_enabled (settings : Settings) :
  Forall (fun i => type i <> Ty_heuristic /\ Spec.enabled settings (type i) = true)
    (filter (Lighthouse.fallback_keeps settings) Lighthouse.fallback_issues).
Proof.
  rewrite fallback_keeps_enabled. unfold Lighthouse.fallback_issues. simpl.
  destruct (accessibilityChecks settings) eqn:A, (seoChecks settings) eqn:S,
    (performanceChecks settings) eqn:P; simpl;
    repeat constructor; simpl; first [discriminate | assumption].
Qed.

(** X10.  analyzeWebsite never throws: whatever the network does (a
    rejected request, an error status, a body that cannot be parsed or has
    another shape) it returns a result, one without a heuristics score whose
    issues all belong to enabled categories and are never heuristic. *)
Theorem analyzeWebsite_always_answers `{JsRuntime} `{Lighthouse.Host}
  (url : string) (settings : Settings) :
  exists res,
    WebsiteAudit.analyzeWebsite url settings = Normal res
    /\ heuristics res = None
    /\ Forall (fun i => type i <> Ty_heuristic
                        /\ Spec.enabled settings (type i) = true)
         (issues res).
Proof.
  unfold WebsiteAudit.analyzeWebsite.
  destruct (Lighthouse.runLighthouseAudit url settings) as [remote|m] eqn:R.
  - destruct (runLighthouseAudit_result url settings remote R) as [data ->].
    eexists. split; [reflexivity|].
    split; [|apply processLighthouseResults_enabled].
    unfold Lighthouse.processLighthouseResults.
    destruct (seoChecks settings), (performanceChecks settings); reflexivity.
  - eexists. split; [reflexivity|]. split; [reflexivity|].
    apply fallback_issues_enabled.
Qed.

(** X11.  When no request gets an answer with a success status, the website
    audit is the fixed baseline of runFallbackAudit, whatever the URL and the
    key. *)
Theorem unreachable_service_gives_the_baseline `{JsRuntime} `{Lighthouse.Host}
  (url : string) (settings : Settings) :
  (forall request,
      match Lighthouse.fetch request with
      | Lighthouse.FetchRejected _ => True
      | Lighthouse.Response ok _ _ _ => ok = false
      end) ->
  WebsiteAudit.analyzeWebsite url settings
  = Lighthouse.runFallbackAudit url settings
  /\ exists res,
       WebsiteAudit.analyzeWebsite url settings = Normal res
       /\ accessibility res = 75%Z /\ overall res = 73%Z.
Proof.
  intros Down.
  assert (E : WebsiteAudit.analyzeWebsite url settings
              = Lighthouse.runFallbackAudit url settings).
  { unfold WebsiteAudit.analyzeWebsite, Lighthouse.runLighthouseAudit,
      encodeURIComponent_call.
    destruct (URIError_of url); [reflexivity|]. cbn [and_then].
    match goal with
    | |- context [Lighthouse.fetch ?u] =>
        specialize (Down u);
        destruct (Lighthouse.fetch u) as [m|ok status text json]
    end; simpl; [reflexivity|].
    rewrite Down. reflexivity. }
  split; [exact E|]. rewrite E. eexists. split; [reflexivity|]. split; reflexivity.
Qed.

Lemma unreachable_service_gives_the_baseline_witness :
  @WebsiteAudit.analyzeWebsite Samples.runtime MoreSamples.offline
    "https://example.com" MoreSamples.keyed
  = @Lighthouse.runFallbackAudit "https://example.com" MoreSamples.keyed
  /\ exists res,
       @WebsiteAudit.analyzeWebsite Samples.runtime MoreSamples.offline
         "https://example.com" MoreSamples.keyed = Normal res
       /\ accessibility res = 75%Z /\ overall res = 73%Z.
Proof.
  apply (@unreachable_service_gives_the_baseline Samples.runtime MoreSamples.offline
           "https://example.com" MoreSamples.keyed).
  intros request. exact I.
Defined.

(** X12.  With an API key set, auditWebsite of code.ts never returns the
    placeholder scores.  It returns the detailed report, whose three entries
    have the form Score: n/100, or it fails with a message behind the prefix
    Failed to audit website:.  A failure of the request or of its answer
    carries the prefix Error fetching audit from Google: as well; an address
    that encodeURIComponent cannot encode fails before the try of
    performDetailedWebsiteAudit, with the message of the URIError behind the
    first prefix alone. *)
Theorem keyed_audit_is_detailed_or_fails `{JsRuntime} `{Lighthouse.Host}
  (url : string) (settings : Settings) :
  lighthouseApiKey settings <> EmptyString ->
  match Code.auditWebsite url settings with
  | Normal (Code.Detailed seo accessibility performance _) =>
      URIError_of url = None
      /\ exists s a p : Z,
           seo = "Score: " ++ Z_toString s ++ "/100"
           /\ accessibility = "Score: " ++ Z_toString a ++ "/100"
           /\ performance = "Score: " ++ Z_toString p ++ "/100"
  | Normal (Code.Basic _ _ _ _) => False
  | Thrown message =>
      match URIError_of url with
      | Some malformed => message = "Failed to audit website: " ++ malformed
      | None =>
          exists cause,
            message
            = "Failed to audit website: "
              ++ "Error fetching audit from Google: " ++ cause
      end
  end.
Proof.
  intros K. unfold Code.auditWebsite.
  destruct (String.eqb (lighthouseApiKey settings) EmptyString) eqn:E;
    [now apply String.eqb_eq in E|]. cbn [negb].
  unfold Code.performDetailedWebsiteAudit, encodeURIComponent_call.
  destruct (URIError_of url) as [malformed|]; [reflexivity|]. cbn [and_then].
  match goal with
  | |- context [Lighthouse.fetch ?u] =>
      destruct (Lighthouse.fetch u) as [m|ok status text json]
  end; simpl; [now eexists|].
  destruct json as [data|m]; simpl; [|now eexists].
  destruct (Lighthouse.payload_error data) as [[m|]|]; simpl; try now eexists.
  destruct (Lighthouse.payload_pagespeed data) as [scores|]; simpl; [|now eexists].
  split; [reflexivity|]. do 3 eexists. repeat split.
Qed.

(** The keyed audit of an address that the sample host answers without
    scores, and of an address that ends in a lone surrogate. *)
Lemma keyed_audit_is_detailed_or_fails_witness :
  (exists cause,
     @Code.auditWebsite Samples.runtime Samples.host "https://example.com"
       MoreSamples.keyed
     = Thrown ("Failed to audit website: " ++ "Error fetching audit from Google: "
               ++ cause))
  /\ @Code.auditWebsite Samples.runtime Samples.host MoreSamples.ill_formed_url
       MoreSamples.keyed
     = Thrown ("Failed to audit website: " ++ "URI malformed").
Proof.
  split.
  - pose proof (@keyed_audit_is_detailed_or_fails Samples.runtime Samples.host
                  "https://example.com" MoreSamples.keyed) as K.
    destruct (@Code.auditWebsite Samples.runtime Samples.host "https://example.com"
                MoreSamples.keyed) as [[seo accessibility performance note|a s p d]|m]
      eqn:E; [discriminate E | discriminate E |].
    destruct (K ltac:(discriminate)) as [cause ->]. now exists cause.
  - pose proof (@keyed_audit_is_detailed_or_fails Samples.runtime Samples.host
                  MoreSamples.ill_formed_url MoreSamples.keyed) as K.
    destruct (@Code.auditWebsite Samples.runtime Samples.host
                MoreSamples.ill_formed_url MoreSamples.keyed)
      as [[seo accessibility performance note|a s p d]|m] eqn:E;
      [discriminate E | discriminate E |].
    rewrite (K ltac:(discriminate)). reflexivity.
Defined.

(** ** The checks of heuristics.ts *)

Lemma unique_from_length {A : Type} (eqb : A -> A -> bool) (l seen : list A) :
  (List.length (unique_from eqb seen l) <= List.length l)%nat.
Proof.
  revert seen. induction l as [|a rest IH]; intros seen; simpl; [lia|].
  destruct (existsb (eqb a) seen); simpl.
  - specialize (IH seen). lia.
  - specialize (IH (a :: seen)). lia.
Qed.

Section SpacingCheck.
Context `{JsRuntime}.

Lemma all_props_length (prop : string) (l : list Node) (ps : list NodeProps) :
  Heuristics.all_props prop l = Normal ps -> List.length ps = List.length l.
Proof.
  revert ps. induction l as [|n rest IH]; intros ps; simpl.
  - now intros [= <-].
  - destruct (Heuristics.props_of prop n) as [p|m]; [|discriminate].
    destruct (Heuristics.all_props prop rest) as [qs|m]; [|discriminate].
    intros [= <-]. simpl. now rewrite (IH qs eq_refl).
Qed.

Lemma insert_sorted_length (cmp : NodeProps -> NodeProps -> Q) (a : NodeProps)
  (l : list NodeProps) :
  List.length (Heuristics.insert_sorted cmp a l) = S (List.length l).
Proof.
  induction l as [|y rest IH]; simpl; [reflexivity|].
  destruct (Qle_bool (cmp y a) 0); simpl; [now rewrite IH | reflexivity].
Qed.

Lemma sort_length (cmp : NodeProps -> NodeProps -> Q) (l : list NodeProps) :
  List.length (Heuristics.sort cmp l) = List.length l.
Proof.
  unfold Heuristics.sort.
  assert (G : forall acc,
             List.length (fold_left (fun acc a => Heuristics.insert_sorted cmp a acc) l acc)
             = (List.length l + List.length acc)%nat).
  { induction l as [|a rest IH]; intros acc; simpl; [reflexivity|].
    rewrite IH, insert_sorted_length. lia. }
  rewrite G. simpl. lia.
Qed.

Lemma gaps_length (prevNode : NodeProps) (l : list NodeProps) :
  (List.length (Heuristics.gaps prevNode l) <= List.length l)%nat.
Proof.
  revert prevNode. induction l as [|currNode rest IH]; intros prevNode; simpl; [lia|].
  specialize (IH currNode).
  destruct (x currNode), (x prevNode), (width prevNode); try lia.
  destruct (Qltb 0 _); simpl; lia.
Qed.

(** One gap at most between two neighbours. *)
Lemma spacings_of_length (l : list NodeProps) :
  (List.length (Heuristics.spacings_of l) <= Nat.pred (List.length l))%nat.
Proof.
  destruct l as [|first rest]; simpl; [lia|].
  pose proof (unique_from_length Z.eqb (Heuristics.gaps first rest) []).
  pose proof (gaps_length first rest). lia.
Qed.

(** X13.  checkConsistency asks for more than two children, but three
    different gaps need four of them: a node with fewer than four children
    is never reported for inconsistent spacing. *)
Theorem spacing_report_needs_four_children (props : NodeProps) (l : list Node) :
  (List.length l < 4)%nat ->
  Spec.pushed (Heuristics.checkConsistency (Obj props (ChildrenArray l))) = [].
Proof.
  intros Few. unfold Spec.pushed, Heuristics.checkConsistency, try_catch, when.
  destruct ((2 <? List.length l)%nat && Heuristics.is_container (node_type props));
    [|reflexivity].
  unfold bind, lift.
  destruct (Heuristics.all_props "x" l) as [children|m] eqn:E; [|reflexivity].
  cbv zeta.
  pose proof (spacings_of_length (Heuristics.sort Heuristics.compare_x children)) as S.
  rewrite sort_length, (all_props_length _ _ _ E) in S.
  destruct (2 <? List.length
                   (Heuristics.spacings_of
                      (Heuristics.sort Heuristics.compare_x children)))%nat eqn:C;
    [|reflexivity].
  apply Nat.ltb_lt in C. lia.
Qed.

End SpacingCheck.

Lemma spacing_report_needs_four_children_witness :
  Spec.pushed
    (@Heuristics.checkConsistency Samples.runtime
       (Obj MoreSamples.row_of_three (ChildrenArray MoreSamples.three_children)))
  = [].
Proof.
  apply (@spacing_report_needs_four_children Samples.runtime).
  simpl. lia.
Defined.

(** X14.  The test of checkErrorPrevention and of checkRecognitionOverRecall
    reads (name matches AND type is INSTANCE) OR type is COMPONENT: a
    component is treated as a destructive action and as an input whatever
    its name.  Without a confirming sibling and without a text or label
    sibling it gets both warnings. *)
Theorem component_is_reported_whatever_its_name `{JsRuntime}
  (props : NodeProps) (children : Children Node) (siblings : option (list Node)) :
  node_type props = COMPONENT ->
  Heuristics.siblings_some
    (Heuristics.child_name_includes_any ["confirm"; "verification"; "are you sure"])
    siblings = Normal false ->
  Heuristics.siblings_some Heuristics.is_text_or_label siblings = Normal false ->
  (exists i,
      Spec.pushed (Heuristics.checkErrorPrevention siblings (Obj props children)) = [i]
      /\ type i = Ty_heuristic /\ severity i = Sev_warning
      /\ title i = "Destructive action without confirmation"
      /\ element i = Some (name props))
  /\ (exists i,
        Spec.pushed (Heuristics.checkRecognitionOverRecall siblings (Obj props children))
        = [i]
        /\ type i = Ty_heuristic /\ severity i = Sev_warning
        /\ title i = "Missing input label"
        /\ element i = Some (name props)).
Proof.
  intros T C L. split.
  - unfold Spec.pushed, Heuristics.checkErrorPrevention, try_catch, when, bind, lift.
    rewrite T, C. simpl. rewrite orb_true_r. simpl.
    eexists. split; [reflexivity|]. repeat split.
  - unfold Spec.pushed, Heuristics.checkRecognitionOverRecall, try_catch, when, bind, lift.
    rewrite T, L. simpl. rewrite orb_true_r. simpl.
    eexists. split; [reflexivity|]. repeat split.
Qed.

Lemma component_is_reported_whatever_its_name_witness :
  (exists i,
      Spec.pushed (@Heuristics.checkErrorPrevention Samples.runtime None
                     MoreSamples.lone_component) = [i]
      /\ type i = Ty_heuristic /\ severity i = Sev_warning
      /\ title i = "Destructive action without confirmation"
      /\ element i = Some "Avatar")
  /\ (exists i,
        Spec.pushed (@Heuristics.checkRecognitionOverRecall Samples.runtime None
                       MoreSamples.lone_component) = [i]
        /\ type i = Ty_heuristic /\ severity i = Sev_warning
        /\ title i = "Missing input label"
        /\ element i = Some "Avatar").
Proof.
  exact (@component_is_reported_whatever_its_name Samples.runtime
           (Samples.node COMPONENT "Avatar" FillsAbsent) ChildrenAbsent None
           eq_refl eq_refl eq_refl).
Defined.

(** ** The order of the issues of a tree (accessibility.ts) *)

Section DocumentOrder.
Context `{JsRuntime}.

Lemma analyzeAccessibility_leaf (settings : Settings) (parents : list NodeProps)
  (props : NodeProps) :
  accessibilityChecks settings = true ->
  Accessibility.analyzeAccessibility settings parents (Obj props ChildrenAbsent)
  = Normal (Spec.pushed (Accessibility.node_checks props parents)).
Proof.
  intros E. simpl. rewrite E. simpl.
  rewrite (returning_issues_caught _ _ (Normal tt)
             (Spec.pushed (Accessibility.node_checks props parents)));
    [reflexivity|].
  rewrite quiet_then by apply accessibility_node_checks_quiet. reflexivity.
Qed.

(** X15.  On a well-formed tree analyzeAccessibility returns the issues of
    the checks of each node, the node before its children and the children
    in the order of the array: the issues of the nodes in document order,
    each checked against its own chain of parents. *)
Theorem accessibility_issues_follow_document_order (settings : Settings)
  (node : Node) (parents : list NodeProps) :
  accessibilityChecks settings = true ->
  Notions.well_formed node = true ->
  Accessibility.analyzeAccessibility settings parents node
  = Normal (flat_map
              (fun located =>
                 Spec.pushed (Accessibility.node_checks (fst located) (snd located)))
              (Code.subtree parents node)).
Proof.
  intros E. revert parents.
  induction node as [|props|props|props l IH] using Node_induction;
    intros parents W; try discriminate W.
  - rewrite analyzeAccessibility_leaf by exact E. simpl. now rewrite app_nil_r.
  - rewrite analyzeAccessibility_array by exact E.
    cbn [Code.subtree flat_map fst snd]. do 2 f_equal.
    cbn [Notions.well_formed] in W.
    induction IH as [|child rest C _ IHl]; [reflexivity|].
    apply andb_prop in W. destruct W as [Wc Wr].
    cbn [flat_map]. rewrite flat_map_app, (C (props :: parents) Wc).
    cbn [Spec.issues_of]. f_equal. exact (IHl Wr).
Qed.

End DocumentOrder.

Lemma accessibility_issues_follow_document_order_witness :
  @Accessibility.analyzeAccessibility Samples.runtime Samples.all_enabled
    [Samples.page] (Samples.grey_on_white 10)
  = Normal (flat_map
              (fun located =>
                 Spec.pushed (@Accessibility.node_checks Samples.runtime
                                (fst located) (snd located)))
              (Code.subtree [Samples.page] (Samples.grey_on_white 10))).
Proof.
  apply (@accessibility_issues_follow_document_order Samples.runtime
           Samples.all_enabled (Samples.grey_on_white 10) [Samples.page]);
    reflexivity.
Defined.

(** ** First occurrences (Array.from(new Set(..))) *)

Section UniqueFrom.
Context {A : Type} (eqb : A -> A -> bool).
Hypothesis eqb_spec : forall a b, eqb a b = true <-> a = b.

Lemma existsb_eqb_In (a : A) (l : list A) :
  existsb (eqb a) l = true <-> List.In a l.
Proof.
  rewrite existsb_exists. split.
  - intros (b & I & E). apply eqb_spec in E. now subst.
  - intros I. exists a. split; [exact I | now apply eqb_spec].
Qed.

Lemma unique_from_In (a : A) (l seen : list A) :
  List.In a (unique_from eqb seen l) <-> List.In a l /\ ~ List.In a seen.
Proof.
  revert seen. induction l as [|b rest IH]; intros seen; simpl; [tauto|].
  destruct (existsb (eqb b) seen) eqn:E.
  - apply existsb_eqb_In in E. rewrite IH. split.
    + tauto.
    + intros [[->|I] N]; tauto.
  - assert (N : ~ List.In b seen).
    { intros I. apply existsb_eqb_In in I. congruence. }
    simpl. rewrite IH. simpl. split.
    + intros [->|[I M]]; [tauto|]. split; [tauto|]. intros S. apply M. now right.
    + intros [[->|I] M]; [tauto|].
      assert (D : {b = a} + {b <> a}).
      { destruct (eqb b a) eqn:B; [left; now apply eqb_spec|].
        right. intros ->. assert (eqb a a = true) by now apply eqb_spec.
        congruence. }
      destruct D as [->|D]; [tauto|]. right. split; [exact I|].
      intros [->|S]; tauto.
Qed.

Lemma unique_from_NoDup (l seen : list A) : List.NoDup (unique_from eqb seen l).
Proof.
  revert seen. induction l as [|b rest IH]; intros seen; simpl; [constructor|].
  destruct (existsb (eqb b) seen); [apply IH|].
  constructor; [|apply IH]. rewrite unique_from_In. intros [_ N]. apply N. now left.
Qed.

Lemma unique_from_snoc (a : A) (l seen : list A) :
  unique_from eqb seen (l ++ [a])
  = (unique_from eqb seen l
     ++ (if existsb (eqb a) seen || existsb (eqb a) l then [] else [a]))%list.
Proof.
  revert seen. induction l as [|b rest IH]; intros seen; simpl.
  - rewrite orb_false_r. now destruct (existsb (eqb a) seen).
  - destruct (existsb (eqb b) seen) eqn:E.
    + rewrite IH. f_equal.
      destruct (eqb a b) eqn:B; [|reflexivity].
      apply eqb_spec in B. subst. now rewrite E.
    + simpl. rewrite IH. simpl. do 2 f_equal.
      now destruct (eqb a b), (existsb (eqb a) seen).
Qed.

End UniqueFrom.

(** ** The jargon scan of auditFrame (code.ts), in general *)

Lemma lower_ascii_not_upper (c : ascii) :
  Notions.not_upper (lower_ascii c) = true.
Proof. destruct c as [[] [] [] [] [] [] [] []]; reflexivity. Qed.

Lemma toLowerCase_not_upper (s : string) :
  Notions.all_characters Notions.not_upper (toLowerCase s) = true.
Proof.
  induction s as [|c rest IH]; simpl; [reflexivity|].
  now rewrite lower_ascii_not_upper, IH.
Qed.

Lemma all_characters_app (p : ascii -> bool) (a b : string) :
  Notions.all_characters p (a ++ b)
  = Notions.all_characters p a && Notions.all_characters p b.
Proof.
  induction a as [|c rest IH]; simpl; [reflexivity|].
  now rewrite IH, andb_assoc.
Qed.

Lemma split_from_keeps (p : ascii -> bool) (s word : string) (in_gap : bool) :
  Notions.all_characters p word = true ->
  Notions.all_characters p s = true ->
  Forall (fun w => Notions.all_characters p w = true)
    (Code.split_from word in_gap s).
Proof.
  revert word in_gap. induction s as [|c rest IH]; intros word in_gap W S; simpl.
  - constructor; [exact W | constructor].
  - simpl in S. apply andb_prop in S. destruct S as [C S].
    destruct (Code.is_whitespace c).
    + destruct in_gap; [now apply IH|].
      constructor; [exact W | now apply IH].
    + apply IH; [|exact S]. rewrite all_characters_app, W. simpl. now rewrite C.
Qed.

Lemma letters_only_keeps (p : ascii -> bool) (w : string) :
  Notions.all_characters p w = true ->
  Notions.all_characters p (Code.letters_only w) = true.
Proof.
  induction w as [|c rest IH]; simpl; [reflexivity|].
  intros S. apply andb_prop in S. destruct S as [C S].
  destruct (Code.is_letter c); simpl; [rewrite C|]; now apply IH.
Qed.

Lemma jargon_of_text_words (characters w : string) :
  List.In w (Code.jargon_of_text characters) ->
  List.In (Code.letters_only w)
    ["syscall"; "backend"; "cache"; "lambda"; "framework"; "async"].
Proof.
  unfold Code.jargon_of_text. intros I. apply filter_In in I.
  destruct I as [I J].
  assert (L : Notions.all_characters Notions.not_upper (Code.letters_only w) = true).
  { apply letters_only_keeps.
    pose proof (split_from_keeps Notions.not_upper (toLowerCase characters)
                  EmptyString false eq_refl (toLowerCase_not_upper characters)) as F.
    rewrite Forall_forall in F. exact (F w I). }
  apply (existsb_eqb_In String.eqb String.eqb_eq) in J.
  unfold Code.jargon in J. simpl in J. simpl.
  destruct J as [J|[J|[J|[J|[J|[J|[J|[]]]]]]]]; try tauto.
  rewrite <- J in L. discriminate L.
Qed.

(** X16.  uniqueJargon names every word that the scan found, each once, in
    the order of first occurrence; and the letters of a reported word are
    always one of syscall, backend, cache, lambda, framework, async: the
    entry API of the jargon list can never match a lower-cased word. *)
Theorem unique_jargon_names_each_word_once (textNodes : list Code.Located) :
  List.NoDup (Code.uniqueJargon textNodes)
  /\ (forall w, List.In w (Code.uniqueJargon textNodes)
                <-> List.In w (Code.foundJargon textNodes))
  /\ (forall w, List.In w (Code.uniqueJargon textNodes) ->
        List.In (Code.letters_only w)
          ["syscall"; "backend"; "cache"; "lambda"; "framework"; "async"]).
Proof.
  unfold Code.uniqueJargon, Set_of_strings.
  assert (M : forall w,
             List.In w (unique_from String.eqb [] (Code.foundJargon textNodes))
             <-> List.In w (Code.foundJargon textNodes)).
  { intros w. rewrite (unique_from_In String.eqb String.eqb_eq). simpl. tauto. }
  split; [apply (unique_from_NoDup String.eqb String.eqb_eq)|].
  split; [exact M|].
  intros w I. apply M in I. unfold Code.foundJargon in I.
  apply in_flat_map in I. destruct I as (n & _ & I).
  exact (jargon_of_text_words _ w I).
Qed.

(** ** The contrast utilities module *)

Lemma Qgeb_le (a b : Q) : Qgeb a b = true <-> b <= a.
Proof. unfold Qgeb. apply Qle_bool_iff. Qed.

Lemma Qgeb_weaken (a b c : Q) : c <= b -> Qgeb a b = true -> Qgeb a c = true.
Proof. rewrite !Qgeb_le. intros; lra. Qed.

(** X17.  The two levels of checkWCAGCompliance are nested, AAA implying
    AA, and generateContrastIssue follows them: nothing when AAA is met, an
    info when only AA is met, a warning when AA is missed; the issue is an
    accessibility issue that names the element. *)
Theorem contrast_issue_follows_the_wcag_levels `{JsRuntime}
  (foreground background : Color) (fontSize : Q) (isBold : bool)
  (label : string) :
  let compliance :=
    Contrast.checkWCAGCompliance foreground background fontSize isBold in
  (Contrast.passesAAA compliance = true -> Contrast.passesAA compliance = true)
  /\ (Contrast.generateContrastIssue label compliance = None
      <-> Contrast.passesAAA compliance = true)
  /\ (forall i,
        Contrast.generateContrastIssue label compliance = Some i ->
        type i = Ty_accessibility
        /\ element i = Some label
        /\ severity i = (if Contrast.passesAA compliance then Sev_info
                         else Sev_warning)).
Proof.
  intros compliance.
  assert (N : Contrast.passesAAA compliance = true ->
              Contrast.passesAA compliance = true).
  { unfold compliance, Contrast.checkWCAGCompliance. simpl.
    destruct (Qgeb fontSize 24 || Qgeb fontSize 18.67 && isBold);
      apply Qgeb_weaken; discriminate. }
  split; [exact N|]. unfold Contrast.generateContrastIssue.
  destruct (Contrast.passesAA compliance) eqn:AA,
    (Contrast.passesAAA compliance) eqn:AAA; simpl.
  - split; [tauto|]. discriminate.
  - split; [split; discriminate|]. intros i [= <-]. repeat split.
  - specialize (N eq_refl). discriminate.
  - split; [split; discriminate|]. intros i [= <-]. repeat split.
Qed.

(** X18.  The contrast utilities count less text as large (24px, or 18.67px
    bold) than checkTextContrast of accessibility.ts (18px, or 14px bold):
    their required ratio is never below that of accessibility.ts, so colours
    that pass AA by the utilities are never reported by accessibility.ts. *)
Theorem contrast_utilities_are_the_stricter_check `{JsRuntime}
  (node : NodeProps) (size : Q) (foreground background : Color) :
  fontSize node = Num size ->
  let compliance :=
    Contrast.checkWCAGCompliance foreground background size
      (Accessibility.isBold node) in
  (Contrast.isLargeText compliance = true -> Accessibility.isLargeText node = true)
  /\ Accessibility.requiredRatio node <= Contrast.requiredRatio compliance
  /\ (Contrast.passesAA compliance = true ->
      Accessibility.report_contrast node
        (Accessibility.calculateContrastRatio foreground background) []
      = (Normal tt, [])).
Proof.
  intros S compliance.
  assert (L : Contrast.isLargeText compliance = true ->
              Accessibility.isLargeText node = true).
  { unfold compliance, Contrast.checkWCAGCompliance, Accessibility.isLargeText,
      Accessibility.fontSize_or_14. simpl. rewrite S.
    intros E. apply orb_prop in E. apply orb_true_iff.
    destruct E as [E|E].
    - left. revert E. apply Qgeb_weaken. discriminate.
    - apply andb_prop in E. destruct E as [E B]. right. rewrite B, andb_true_r.
      revert E. apply Qgeb_weaken. discriminate. }
  assert (R : Accessibility.requiredRatio node <= Contrast.requiredRatio compliance).
  { unfold Accessibility.requiredRatio.
    change (Contrast.requiredRatio compliance)
      with (if Contrast.isLargeText compliance then 3 else 4.5).
    destruct (Contrast.isLargeText compliance) eqn:C.
    - rewrite (L eq_refl). discriminate.
    - destruct (Accessibility.isLargeText node); discriminate. }
  split; [exact L|]. split; [exact R|].
  intros P. apply (report_contrast_cases node _ []).
  change (Contrast.passesAA compliance)
    with (Qgeb (Contrast.calculateContrastRatio foreground background)
               (Contrast.requiredRatio compliance)) in P.
  apply Qgeb_le in P.
  change (Contrast.calculateContrastRatio foreground background)
    with (Accessibility.calculateContrastRatio foreground background) in P.
  lra.
Qed.

Lemma contrast_utilities_are_the_stricter_check_witness :
  let compliance :=
    @Contrast.checkWCAGCompliance Samples.runtime Samples.black Accessibility.white
      18 (Accessibility.isBold (Samples.grey_text 18)) in
  (Contrast.isLargeText compliance = true ->
   Accessibility.isLargeText (Samples.grey_text 18) = true)
  /\ @Accessibility.requiredRatio (Samples.grey_text 18)
     <= Contrast.requiredRatio compliance
  /\ (Contrast.passesAA compliance = true ->
      @Accessibility.report_contrast Samples.runtime (Samples.grey_text 18)
        (@Accessibility.calculateContrastRatio Samples.runtime Samples.black
           Accessibility.white) []
      = (Normal tt, [])).
Proof.
  exact (@contrast_utilities_are_the_stricter_check Samples.runtime
           (Samples.grey_text 18) 18 Samples.black Accessibility.white eq_refl).
Defined.

(** ** The export module *)

Lemma collapse_dashes_cons (c : ascii) (rest : string) :
  Report.collapse_dashes (String c rest)
  = if Ascii.eqb c Report.dash
    then match rest with
         | String c' _ =>
             if Ascii.eqb c' Report.dash then Report.collapse_dashes rest
             else String c (Report.collapse_dashes rest)
         | EmptyString => String c EmptyString
         end
    else String c (Report.collapse_dashes rest).
Proof. reflexivity. Qed.

Lemma collapse_dashes_keeps (p : ascii -> bool) (s : string) :
  Notions.all_characters p s = true ->
  Notions.all_characters p (Report.collapse_dashes s) = true.
Proof.
  induction s as [|c rest IH]; [reflexivity|].
  intros S. simpl in S. apply andb_prop in S. destruct S as [C S].
  specialize (IH S). rewrite collapse_dashes_cons.
  remember (Report.collapse_dashes rest) as collapsed.
  destruct (Ascii.eqb c Report.dash).
  - destruct rest as [|c' r']; [simpl; now rewrite C|].
    destruct (Ascii.eqb c' Report.dash); [exact IH|]. simpl. now rewrite C, IH.
  - simpl. now rewrite C, IH.
Qed.

Lemma no_double_dash_cons (c c' : ascii) (rest : string) :
  Notions.no_double_dash (String c (String c' rest))
  = negb (Ascii.eqb c Report.dash && Ascii.eqb c' Report.dash)
    && Notions.no_double_dash (String c' rest).
Proof. reflexivity. Qed.

Lemma collapse_dashes_no_double_dash (s : string) :
  Notions.no_double_dash (Report.collapse_dashes s) = true.
Proof.
  induction s as [|c rest IH]; [reflexivity|].
  rewrite collapse_dashes_cons.
  destruct (Ascii.eqb c Report.dash) eqn:C.
  - destruct rest as [|c' r']; [reflexivity|].
    destruct (Ascii.eqb c' Report.dash) eqn:C'; [exact IH|].
    rewrite collapse_dashes_cons, C' in *.
    rewrite no_double_dash_cons, C', andb_false_r. exact IH.
  - destruct (Report.collapse_dashes rest) as [|c' r'] eqn:R; [reflexivity|].
    rewrite no_double_dash_cons, C. exact IH.
Qed.

Lemma collapse_dashes_fixed (s : string) :
  Notions.no_double_dash s = true -> Report.collapse_dashes s = s.
Proof.
  induction s as [|c rest IH]; [reflexivity|].
  intros N. rewrite collapse_dashes_cons.
  destruct rest as [|c' r'].
  - now destruct (Ascii.eqb c Report.dash).
  - rewrite no_double_dash_cons in N. apply andb_prop in N. destruct N as [D N].
    rewrite (IH N).
    destruct (Ascii.eqb c Report.dash); [|reflexivity].
    destruct (Ascii.eqb c' Report.dash); [discriminate D | reflexivity].
Qed.

Lemma replaced_character_is_clean (c : ascii) :
  Notions.is_filename_character
    (lower_ascii (if Report.is_alphanumeric c then c else Report.dash)) = true.
Proof. destruct c as [[] [] [] [] [] [] [] []]; reflexivity. Qed.

Lemma lower_ascii_dash (c : ascii) :
  Ascii.eqb (lower_ascii c) Report.dash = Ascii.eqb c Report.dash.
Proof. destruct c as [[] [] [] [] [] [] [] []]; reflexivity. Qed.

Lemma filename_character_fixed (c : ascii) :
  Notions.is_filename_character c = true ->
  (if Report.is_alphanumeric c then c else Report.dash) = c /\ lower_ascii c = c.
Proof.
  destruct c as [[] [] [] [] [] [] [] []]; intros E;
    first [discriminate E | split; reflexivity].
Qed.

Lemma toLowerCase_characters (p : ascii -> bool) (s : string) :
  Notions.all_characters p (toLowerCase s)
  = Notions.all_characters (fun c => p (lower_ascii c)) s.
Proof. induction s as [|c rest IH]; simpl; [reflexivity | now rewrite IH]. Qed.

Lemma toLowerCase_no_double_dash (s : string) :
  Notions.no_double_dash (toLowerCase s) = Notions.no_double_dash s.
Proof.
  induction s as [|c rest IH]; [reflexivity|].
  destruct rest as [|c' r']; [reflexivity|].
  change (toLowerCase (String c (String c' r')))
    with (String (lower_ascii c) (toLowerCase (String c' r'))).
  change (toLowerCase (String c' r'))
    with (String (lower_ascii c') (toLowerCase r')) in *.
  rewrite !no_double_dash_cons, !lower_ascii_dash. now rewrite IH.
Qed.

Lemma replace_other_characters_clean (name : string) :
  Notions.all_characters
    (fun c => Notions.is_filename_character (lower_ascii c))
    (Report.replace_other_characters name) = true.
Proof.
  induction name as [|c rest IH]; simpl; [reflexivity|].
  now rewrite replaced_character_is_clean, IH.
Qed.

Lemma clean_name_fixed (s : string) :
  Notions.all_characters Notions.is_filename_character s = true ->
  Report.replace_other_characters s = s /\ toLowerCase s = s.
Proof.
  induction s as [|c rest IH]; simpl; [split; reflexivity|].
  intros S. apply andb_prop in S. destruct S as [C S].
  destruct (IH S) as [R L]. destruct (filename_character_fixed c C) as [Rc Lc].
  now rewrite R, L, Rc, Lc.
Qed.

(** X19.  The file name that sanitizeFilename builds holds only lower-case
    letters, digits and dashes, never two dashes in a row, and is left
    unchanged when it is sanitized again. *)
Theorem sanitized_names_are_clean (name : string) :
  Notions.all_characters Notions.is_filename_character
    (Report.sanitizeFilename name) = true
  /\ Notions.no_double_dash (Report.sanitizeFilename name) = true
  /\ Report.sanitizeFilename (Report.sanitizeFilename name)
     = Report.sanitizeFilename name.
Proof.
  assert (C : Notions.all_characters Notions.is_filename_character
                (Report.sanitizeFilename name) = true).
  { unfold Report.sanitizeFilename. rewrite toLowerCase_characters.
    apply collapse_dashes_keeps, replace_other_characters_clean. }
  assert (D : Notions.no_double_dash (Report.sanitizeFilename name) = true).
  { unfold Report.sanitizeFilename. rewrite toLowerCase_no_double_dash.
    apply collapse_dashes_no_double_dash. }
  split; [exact C|]. split; [exact D|].
  destruct (clean_name_fixed _ C) as [R L].
  unfold Report.sanitizeFilename at 1.
  now rewrite R, (collapse_dashes_fixed _ D), L.
Qed.

Lemma IssueType_eqb_eq (a b : IssueType) : Spec.IssueType_eqb a b = true <-> a = b.
Proof. destruct a, b; simpl; split; congruence. Qed.

Lemma IssueType_eqb_sym (a b : IssueType) :
  Spec.IssueType_eqb a b = Spec.IssueType_eqb b a.
Proof. now destruct a, b. Qed.

Lemma filter_snoc {A : Type} (p : A -> bool) (l : list A) (a : A) :
  filter p (l ++ [a]) = (filter p l ++ (if p a then [a] else []))%list.
Proof. rewrite filter_app. reflexivity. Qed.

Lemma issuesByType_snoc (l : list Issue) (i : Issue) :
  Report.issuesByType (l ++ [i]) = Report.add_issue (Report.issuesByType l) i.
Proof. unfold Report.issuesByType. now rewrite fold_left_app. Qed.

Lemma in_category_own (i : Issue) : Spec.in_category (type i) i = true.
Proof. unfold Spec.in_category. now apply IssueType_eqb_eq. Qed.

Lemma in_category_other (t : IssueType) (i : Issue) :
  t <> type i -> Spec.in_category t i = false.
Proof.
  intros N. unfold Spec.in_category.
  destruct (Spec.IssueType_eqb (type i) t) eqn:E; [|reflexivity].
  apply IssueType_eqb_eq in E. congruence.
Qed.

Lemma add_issue_groups (ts : list IssueType) (l : list Issue) (i : Issue) :
  List.NoDup ts ->
  Report.add_issue (map (fun t => (t, filter (Spec.in_category t) l)) ts) i
  = (map (fun t => (t, filter (Spec.in_category t) (l ++ [i]))) ts
     ++ (if existsb (Spec.IssueType_eqb (type i)) ts then []
         else [(type i, [i])]))%list.
Proof.
  induction 1 as [|t ts N D IH]; [reflexivity|].
  cbn [map Report.add_issue existsb].
  destruct (Spec.IssueType_eqb t (type i)) eqn:E.
  - apply IssueType_eqb_eq in E. subst t.
    rewrite (proj2 (IssueType_eqb_eq (type i) (type i)) eq_refl).
    cbn [orb]. rewrite app_nil_r. simpl. f_equal.
    + now rewrite filter_snoc, in_category_own.
    + apply map_ext_in. intros t I. f_equal.
      rewrite filter_snoc, in_category_other, app_nil_r; [reflexivity|].
      intros ->. contradiction.
  - rewrite (IssueType_eqb_sym (type i) t), E. cbn [orb]. rewrite IH.
    simpl. do 2 f_equal.
    rewrite filter_snoc, in_category_other, app_nil_r; [reflexivity|].
    intros ->. rewrite (proj2 (IssueType_eqb_eq (type i) (type i)) eq_refl) in E.
    discriminate E.
Qed.

Lemma types_in_order_member (l : list Issue) (t : IssueType) :
  existsb (Spec.IssueType_eqb t) (Notions.types_in_order l)
  = existsb (Spec.IssueType_eqb t) (map type l).
Proof.
  apply eq_true_iff_eq. rewrite !(existsb_eqb_In _ IssueType_eqb_eq).
  unfold Notions.types_in_order. rewrite (unique_from_In _ IssueType_eqb_eq).
  simpl. tauto.
Qed.

Lemma filter_foreign (l : list Issue) (t : IssueType) :
  existsb (Spec.IssueType_eqb t) (map type l) = false ->
  filter (Spec.in_category t) l = [].
Proof.
  induction l as [|i rest IH]; simpl; [reflexivity|].
  intros E. apply orb_false_elim in E. destruct E as [E R].
  unfold Spec.in_category at 1. rewrite IssueType_eqb_sym, E. now apply IH.
Qed.

Lemma types_in_order_snoc (l : list Issue) (i : Issue) :
  Notions.types_in_order (l ++ [i])
  = (Notions.types_in_order l
     ++ (if existsb (Spec.IssueType_eqb (type i)) (map type l) then []
         else [type i]))%list.
Proof.
  unfold Notions.types_in_order. rewrite map_app. simpl.
  now rewrite (unique_from_snoc _ IssueType_eqb_eq).
Qed.

(** The groups in closed form. *)
Lemma issuesByType_groups (l : list Issue) :
  Report.issuesByType l
  = map (fun t => (t, filter (Spec.in_category t) l)) (Notions.types_in_order l).
Proof.
  induction l as [|i l IH] using rev_ind; [reflexivity|].
  rewrite issuesByType_snoc, IH, add_issue_groups
    by apply (unique_from_NoDup _ IssueType_eqb_eq).
  rewrite types_in_order_member, types_in_order_snoc, map_app. f_equal.
  destruct (existsb (Spec.IssueType_eqb (type i)) (map type l)) eqn:E;
    [reflexivity|].
  simpl. now rewrite filter_snoc, (filter_foreign l (type i) E), in_category_own.
Qed.

Lemma add_issue_members (groups : list (IssueType * list Issue)) (i : Issue) :
  Permutation (concat (map snd (Report.add_issue groups i)))
    (i :: concat (map snd groups)).
Proof.
  induction groups as [|[t g] rest IH]; simpl; [reflexivity|].
  destruct (Spec.IssueType_eqb t (type i)); simpl.
  - rewrite <- app_assoc. symmetry. apply Permutation_middle.
  - rewrite IH. symmetry. apply Permutation_middle.
Qed.

(** X20.  The grouping of the reports: one group per issue type, in the
    order in which the types first occur; each group holds the issues of its
    type in their original order and is never empty; together the groups
    hold every issue exactly once. *)
Theorem issues_are_grouped_by_type (l : list Issue) :
  Report.issuesByType l
  = map (fun t => (t, filter (Spec.in_category t) l)) (Notions.types_in_order l)
  /\ (forall t g, List.In (t, g) (Report.issuesByType l) -> g <> [])
  /\ Permutation (concat (map snd (Report.issuesByType l))) l.
Proof.
  split; [apply issuesByType_groups|]. split.
  - intros t g I. rewrite issuesByType_groups in I. apply in_map_iff in I.
    destruct I as (t' & [= <- <-] & I).
    unfold Notions.types_in_order in I.
    apply (unique_from_In _ IssueType_eqb_eq) in I. destruct I as [I _].
    apply in_map_iff in I. destruct I as (i & T & I).
    intros E.
    assert (F : List.In i (filter (Spec.in_category t') l)).
    { apply filter_In. split; [exact I|]. unfold Spec.in_category.
      now apply IssueType_eqb_eq. }
    rewrite E in F. exact F.
  - induction l as [|i l IH] using rev_ind; [reflexivity|].
    rewrite issuesByType_snoc, add_issue_members, IH.
    apply Permutation_cons_append.
Qed.

Lemma strip_remediation_type (l : list Issue) :
  map type (map Notions.strip_remediation l) = map type l.
Proof. rewrite map_map. reflexivity. Qed.

Lemma filter_stripped (t : IssueType) (l : list Issue) :
  filter (Spec.in_category t) (map Notions.strip_remediation l)
  = map Notions.strip_remediation (filter (Spec.in_category t) l).
Proof.
  induction l as [|i rest IH]; [reflexivity|]. cbn [map filter].
  change (Spec.in_category t (Notions.strip_remediation i))
    with (Spec.in_category t i).
  destruct (Spec.in_category t i); cbn [map]; now rewrite IH.
Qed.

Lemma issuesByType_stripped (l : list Issue) :
  Report.issuesByType (map Notions.strip_remediation l)
  = map (fun entry => (fst entry, map Notions.strip_remediation (snd entry)))
        (Report.issuesByType l).
Proof.
  rewrite !issuesByType_groups. unfold Notions.types_in_order.
  rewrite strip_remediation_type, map_map. apply map_ext. intros t. simpl.
  now rewrite filter_stripped.
Qed.

Section Remediation.
Variable date time : string.

Lemma markdown_groups_stripped (settings : Settings) (l : list Issue) :
  includeRemediation settings = false ->
  map (Report.markdown_group settings)
      (Report.issuesByType (map Notions.strip_remediation l))
  = map (Report.markdown_group settings) (Report.issuesByType l).
Proof.
  intros R. rewrite issuesByType_stripped, map_map. apply map_ext. intros [t g].
  unfold Report.markdown_group. cbn [fst snd].
  assert (I : map (fun x => Report.markdown_issue settings
                               (Notions.strip_remediation x)) g
              = map (Report.markdown_issue settings) g).
  { apply map_ext. intros i. unfold Report.markdown_issue. now rewrite R. }
  now rewrite length_map, map_map, I.
Qed.

Lemma markdown_stripped (settings : Settings) (result : AuditResult)
  (name : string) :
  includeRemediation settings = false ->
  Report.markdown_of date time (Notions.without_remediation result) name settings
  = Report.markdown_of date time result name settings.
Proof.
  intros R. unfold Report.markdown_of.
  cbn [Notions.without_remediation accessibility heuristics seo performance
       overall issues].
  now rewrite length_map, (markdown_groups_stripped settings _ R).
Qed.

Lemma html_groups_stripped (settings : Settings) (l : list Issue) :
  includeRemediation settings = false ->
  map (Report.html_group settings)
      (Report.issuesByType (map Notions.strip_remediation l))
  = map (Report.html_group settings) (Report.issuesByType l).
Proof.
  intros R. rewrite issuesByType_stripped, map_map. apply map_ext. intros [t g].
  unfold Report.html_group, Report.html_group_heading. cbn [fst snd].
  assert (I : map (fun x => Report.html_issue settings
                               (Notions.strip_remediation x)) g
              = map (Report.html_issue settings) g).
  { apply map_ext. intros i. unfold Report.html_issue. now rewrite R. }
  now rewrite length_map, map_map, I.
Qed.

Lemma html_stripped (settings : Settings) (result : AuditResult) (name : string) :
  includeRemediation settings = false ->
  Report.html_of date time (Notions.without_remediation result) name settings
  = Report.html_of date time result name settings.
Proof.
  intros R. unfold Report.html_of, Report.html_overall.
  change (Report.html_head date time (Notions.without_remediation result) name)
    with (Report.html_head date time result name).
  cbn [Notions.without_remediation accessibility heuristics seo performance
       overall issues].
  now rewrite length_map, (html_groups_stripped settings _ R).
Qed.

(** X21.  With includeRemediation switched off, no export depends on the
    remediation texts: the result with these texts removed is exported to
    the same file, whatever the format. *)
Theorem exports_without_remediation_ignore_it (settings : Settings)
  (result : AuditResult) (format name : string) :
  includeRemediation settings = false ->
  Report.exportReport date time (Notions.without_remediation result) format name
    settings
  = Report.exportReport date time result format name settings.
Proof.
  intros R.
  unfold Report.exportReport, Report.exportPdf, Report.exportMarkdown,
    Report.exportHtml.
  rewrite (markdown_stripped settings result name R),
    (html_stripped settings result name R).
  reflexivity.
Qed.

(** X22.  exportReport delivers a file for every format: the HTML file for
    html and the Markdown file for anything else, the format pdf and unknown
    formats included; pdf alone raises an alert. *)
Theorem every_format_delivers_a_file (settings : Settings)
  (result : AuditResult) (format name : string) :
  let exported := Report.exportReport date time result format name settings in
  Report.download exported
  = (if String.eqb format "html"
     then Report.download (Report.exportHtml date time result name settings)
     else Report.download (Report.exportMarkdown date time result name settings))
  /\ Report.filename (Report.download exported)
     = "uxaudit-" ++ Report.sanitizeFilename name
       ++ (if String.eqb format "html" then ".html" else ".md")
  /\ (Report.alerts exported <> [] <-> format = "pdf").
Proof.
  unfold Report.exportReport.
  destruct (String.eqb format "markdown") eqn:M;
    [apply String.eqb_eq in M; subst; simpl; repeat split; congruence|].
  destruct (String.eqb format "pdf") eqn:P;
    [apply String.eqb_eq in P; subst; simpl; repeat split; congruence|].
  apply String.eqb_neq in P.
  destruct (String.eqb format "html") eqn:H; simpl; repeat split; congruence.
Qed.

End Remediation.

Lemma exports_without_remediation_ignore_it_witness :
  Report.exportReport "3/11/2026" "10:00:00"
    (Notions.without_remediation
       (Lighthouse.processLighthouseResults Samples.audited_page Samples.all_enabled))
    "html" "Home page" MoreSamples.no_remediation
  = Report.exportReport "3/11/2026" "10:00:00"
      (Lighthouse.processLighthouseResults Samples.audited_page Samples.all_enabled)
      "html" "Home page" MoreSamples.no_remediation.
Proof.
  apply (exports_without_remediation_ignore_it "3/11/2026" "10:00:00"
           MoreSamples.no_remediation).
  reflexivity.
Defined.

(** ** The request handler of api/audit.ts *)

(** X23.  The handler answers every request with the three CORS headers,
    asks the remote service at most once, and does not ask it at all for a
    preflight request or when the URL or the server key is missing; a
    preflight request is answered with 200 and an empty body, and a body
    passed on from the remote service without an error entry goes out with
    status 200. *)
Theorem handler_answers_with_cors_and_asks_once `{JsRuntime} `{Lighthouse.Host}
  (request : Api.Request) (apiKey : option string) :
  let handled := Api.handler request apiKey in
  Api.headers (Api.response handled) = Api.cors_headers
  /\ (List.length (Api.fetched handled) <= 1)%nat
  /\ (Api.fetched handled = []
      <-> Api.method request = "OPTIONS"
          \/ Report.truthy (Api.query_url request) = None
          \/ Report.truthy apiKey = None)
  /\ (Api.method request = "OPTIONS" ->
      Api.status (Api.response handled) = 200%Z
      /\ Api.body (Api.response handled) = Api.EndBody)
  /\ (forall data,
        Api.body (Api.response handled) = Api.DataBody data ->
        Lighthouse.payload_error data = None ->
        Api.status (Api.response handled) = 200%Z).
Proof.
  unfold Api.handler.
  destruct (String.eqb (Api.method request) "OPTIONS") eqn:M.
  { apply String.eqb_eq in M. simpl. repeat split; try lia; try tauto; discriminate. }
  apply String.eqb_neq in M.
  destruct (Report.truthy (Api.query_url request)) as [url|];
    [|simpl; repeat split; try lia; try tauto; try discriminate; contradiction].
  destruct (Report.truthy apiKey) as [key|];
    [|simpl; repeat split; try lia; try tauto; try discriminate; contradiction].
  match goal with
  | |- context [Lighthouse.fetch ?u] =>
      destruct (Lighthouse.fetch u) as [m|ok status text [data|m]]
  end; [| destruct (Lighthouse.payload_error data) eqn:E |]; simpl;
    (split; [reflexivity|]); (split; [lia|]);
    (split; [split; [discriminate | intros [O|[O|O]]; [contradiction | discriminate..]]|]);
    (split; [intros O; contradiction|]);
    intros d B; try discriminate B; try reflexivity.
  injection B as <-. congruence.
Qed.

(** ** Saving and loading settings (settings module, code.ts) *)

Lemma stored_value (store : Persistence.Store) (key value : string) :
  <[key := value]> (Persistence.entries store) !! key = Some value.
Proof. first [apply lookup_insert_eq | apply lookup_insert]. Qed.

Lemma other_value (store : Persistence.Store) (key other value : string) :
  key <> other ->
  <[key := value]> (Persistence.entries store) !! other
  = Persistence.entries store !! other.
Proof. intros N. now apply lookup_insert_ne. Qed.

Section Persisting.
Context `{JsRuntime}.
Variable JSON_stringify : JsObject -> string.
Variable net : string -> Lighthouse.FetchResult.

(** X24.  Settings saved by saveSettings of the settings module are what
    loadSettings returns afterwards, provided the store can be written and
    JSON.parse reads back what JSON.stringify wrote; no other entry of the
    store changes. *)
Theorem saved_settings_are_loaded_back (settings : JsObject)
  (store : Persistence.Store) :
  Persistence.write_error store = None ->
  JSON_stringify settings <> EmptyString ->
  JSON_parse (JSON_stringify settings) = Some settings ->
  exists store',
    Persistence.saveSettings JSON_stringify settings store = Normal store'
    /\ @SettingsStore.loadSettings _ (Persistence.host_of net store') = Some settings
    /\ (forall key, key <> "uxaudit-settings" ->
          Persistence.entries store' !! key = Persistence.entries store !! key).
Proof.
  intros W N P.
  unfold Persistence.saveSettings, Persistence.setAsync. rewrite W. simpl.
  eexists. split; [reflexivity|]. split.
  - unfold SettingsStore.loadSettings. simpl. rewrite stored_value.
    destruct (String.eqb (JSON_stringify settings) EmptyString) eqn:E;
      [apply String.eqb_eq in E; contradiction|].
    now rewrite P.
  - intros key K. simpl. apply other_value. congruence.
Qed.

(** X25.  A store that cannot be written: saveSettings and resetSettings of
    the settings module fail with the message of the store behind their
    prefixes, while the handler of code.ts does not fail; it posts the
    failure notice, leaves the store as it was and still keeps the new key
    in its settings in memory. *)
Theorem failed_save_changes_memory_only (settings currentSettings : JsObject)
  (apiKey : option string) (store : Persistence.Store) (message : string) :
  Persistence.write_error store = Some message ->
  Persistence.saveSettings JSON_stringify settings store
  = Thrown ("Failed to save settings: " ++ message)
  /\ Persistence.resetSettings JSON_stringify store
     = Thrown ("Failed to reset settings: " ++ "Failed to save settings: "
               ++ message)
  /\ (exists kept,
        Persistence.save_settings JSON_stringify apiKey currentSettings store
        = (kept, store, [Persistence.SettingsMessage "Failed to save settings."])
        /\ kept !! "lighthouseApiKey"
           = Some (JStr (default EmptyString (Report.truthy apiKey)))).
Proof.
  intros W.
  unfold Persistence.resetSettings, Persistence.saveSettings,
    Persistence.save_settings, Persistence.setAsync.
  rewrite W. simpl. split; [reflexivity|]. split; [reflexivity|].
  eexists. split; [reflexivity|].
  destruct (Report.truthy apiKey); simpl;
    first [apply lookup_insert_eq | apply lookup_insert].
Qed.

(** X26.  The save-settings branch of code.ts changes one field, the API
    key, which becomes the key of the message or the empty string when the
    message carries none; and what it stores is what the load-settings
    branch reads back and layers over the defaults, provided the store can
    be written and JSON.parse reads back what JSON.stringify wrote. *)
Theorem code_settings_survive_a_reload (currentSettings saved : JsObject)
  (apiKey : option string) (store : Persistence.Store) :
  saved = <["lighthouseApiKey" := JStr (default EmptyString (Report.truthy apiKey))]>
            currentSettings ->
  Persistence.write_error store = None ->
  JSON_stringify saved <> EmptyString ->
  JSON_parse (JSON_stringify saved) = Some saved ->
  (forall key, key <> "lighthouseApiKey" -> saved !! key = currentSettings !! key)
  /\ exists store',
       Persistence.save_settings JSON_stringify apiKey currentSettings store
       = (saved, store',
          [Persistence.SettingsMessage "Settings saved successfully!";
           Persistence.Notify "Settings saved!"])
       /\ (forall previous,
             @Code.load_settings _ (Persistence.host_of net store') previous
             = (Code.Object_assign ∅ [Code.defaultSettings; saved],
                Some (Code.Object_assign ∅ [Code.defaultSettings; saved]))).
Proof.
  intros S W N P. split.
  - intros key K. rewrite S. apply lookup_insert_ne. congruence.
  - unfold Persistence.save_settings, Persistence.setAsync. rewrite W.
    change (match Report.truthy apiKey with
            | Some k => k
            | None => EmptyString
            end) with (default EmptyString (Report.truthy apiKey)).
    rewrite <- S. eexists. split; [reflexivity|].
    intros previous. unfold Code.load_settings. simpl. rewrite stored_value.
    destruct (String.eqb (JSON_stringify saved) EmptyString) eqn:E;
      [apply String.eqb_eq in E; contradiction|].
    now rewrite P.
Qed.

(** X27.  The settings module and code.ts keep their settings under two
    different keys (uxaudit-settings and ux-audit-settings): what one of
    them saves, the other one does not load. *)
Theorem the_two_settings_stores_are_separate (settings currentSettings : JsObject)
  (apiKey : option string) (store : Persistence.Store) :
  Persistence.write_error store = None ->
  (exists store',
      Persistence.saveSettings JSON_stringify settings store = Normal store'
      /\ forall previous,
           @Code.load_settings _ (Persistence.host_of net store') previous
           = @Code.load_settings _ (Persistence.host_of net store) previous)
  /\ (exists saved store' events,
        Persistence.save_settings JSON_stringify apiKey currentSettings store
        = (saved, store', events)
        /\ @SettingsStore.loadSettings _ (Persistence.host_of net store')
           = @SettingsStore.loadSettings _ (Persistence.host_of net store)).
Proof.
  intros W. split.
  - unfold Persistence.saveSettings, Persistence.setAsync. rewrite W. simpl.
    eexists. split; [reflexivity|]. intros previous.
    unfold Code.load_settings. simpl. now rewrite other_value by discriminate.
  - unfold Persistence.save_settings, Persistence.setAsync. rewrite W.
    do 3 eexists. split; [reflexivity|].
    unfold SettingsStore.loadSettings. simpl. now rewrite other_value by discriminate.
Qed.

End Persisting.

Lemma saved_settings_are_loaded_back_witness :
  exists store',
    Persistence.saveSettings MoreSamples.JSON_stringify MoreSamples.saved_settings
      MoreSamples.empty_store = Normal store'
    /\ @SettingsStore.loadSettings MoreSamples.runtime
         (Persistence.host_of (@Lighthouse.fetch Samples.host) store')
       = Some MoreSamples.saved_settings
    /\ (forall key, key <> "uxaudit-settings" ->
          Persistence.entries store' !! key
          = Persistence.entries MoreSamples.empty_store !! key).
Proof.
  apply (@saved_settings_are_loaded_back MoreSamples.runtime
           MoreSamples.JSON_stringify (@Lighthouse.fetch Samples.host)
           MoreSamples.saved_settings MoreSamples.empty_store);
    [reflexivity | vm_compute; discriminate | reflexivity].
Defined.

Lemma code_settings_survive_a_reload_witness :
  (forall key, key <> "lighthouseApiKey" ->
     MoreSamples.saved_settings !! key = Code.defaultSettings !! key)
  /\ exists store',
       Persistence.save_settings MoreSamples.JSON_stringify (Some "AIza-sample")
         Code.defaultSettings MoreSamples.empty_store
       = (MoreSamples.saved_settings, store',
          [Persistence.SettingsMessage "Settings saved successfully!";
           Persistence.Notify "Settings saved!"])
       /\ (forall previous,
             @Code.load_settings MoreSamples.runtime
               (Persistence.host_of (@Lighthouse.fetch Samples.host) store') previous
             = (Code.Object_assign ∅ [Code.defaultSettings; MoreSamples.saved_settings],
                Some (Code.Object_assign ∅
                        [Code.defaultSettings; MoreSamples.saved_settings]))).
Proof.
  apply (@code_settings_survive_a_reload MoreSamples.runtime
           MoreSamples.JSON_stringify (@Lighthouse.fetch Samples.host)
           Code.defaultSettings MoreSamples.saved_settings (Some "AIza-sample")
           MoreSamples.empty_store);
    [reflexivity | reflexivity | vm_compute; discriminate | reflexivity].
Defined.

Lemma failed_save_changes_memory_only_witness :
  Persistence.saveSettings MoreSamples.JSON_stringify MoreSamples.saved_settings
    MoreSamples.full_store
  = Thrown ("Failed to save settings: " ++ "Quota exceeded")
  /\ Persistence.resetSettings MoreSamples.JSON_stringify MoreSamples.full_store
     = Thrown ("Failed to reset settings: " ++ "Failed to save settings: "
               ++ "Quota exceeded")
  /\ (exists kept,
        Persistence.save_settings MoreSamples.JSON_stringify (Some "AIza-sample")
          Code.defaultSettings MoreSamples.full_store
        = (kept, MoreSamples.full_store,
           [Persistence.SettingsMessage "Failed to save settings."])
        /\ kept !! "lighthouseApiKey"
           = Some (JStr (default EmptyString (Report.truthy (Some "AIza-sample"))))).
Proof.
  exact (failed_save_changes_memory_only MoreSamples.JSON_stringify
           MoreSamples.saved_settings Code.defaultSettings (Some "AIza-sample")
           MoreSamples.full_store "Quota exceeded" eq_refl).
Defined.

Lemma the_two_settings_stores_are_separate_witness :
  (exists store',
      Persistence.saveSettings MoreSamples.JSON_stringify MoreSamples.saved_settings
        MoreSamples.empty_store = Normal store'
      /\ forall previous,
           @Code.load_settings MoreSamples.runtime
             (Persistence.host_of (@Lighthouse.fetch Samples.host) store') previous
           = @Code.load_settings MoreSamples.runtime
               (Persistence.host_of (@Lighthouse.fetch Samples.host)
                  MoreSamples.empty_store) previous)
  /\ (exists saved store' events,
        Persistence.save_settings MoreSamples.JSON_stringify (Some "AIza-sample")
          Code.defaultSettings MoreSamples.empty_store
        = (saved, store', events)
        /\ @SettingsStore.loadSettings MoreSamples.runtime
             (Persistence.host_of (@Lighthouse.fetch Samples.host) store')
           = @SettingsStore.loadSettings MoreSamples.runtime
               (Persistence.host_of (@Lighthouse.fetch Samples.host)
                  MoreSamples.empty_store)).
Proof.
  exact (@the_two_settings_stores_are_separate MoreSamples.runtime
           MoreSamples.JSON_stringify (@Lighthouse.fetch Samples.host)
           MoreSamples.saved_settings Code.defaultSettings (Some "AIza-sample")
           MoreSamples.empty_store eq_refl).
Defined.
